(** * The messenger module: orchestrator and Pub/Sub adapter

    A shallow embedding of package [messenger] of go-modules:
    - messenger.go, the orchestrator ([Messenger]); line numbers written
      [messenger.go:n] are lines of that file;
    - the declarations of [adapterMessage], [handleMessage] and [adapter];
    - the Pub/Sub adapter ([pubsubAdapter]), whose source follows the
      installation notes in messenger/README.md; line numbers written
      [README.md:n] are lines of that file;
    of [GracefulShutdown] of package [app], and of the two message types of
    the service template (internal/messenger/inbound/webhook/webhook.go and
    [eventMessage] of package [action]).

    What the Go library does on these values is written out in the modules
    [UTF8] (unicode/utf8), [Float64] (strconv), [JSON] and [Decode]
    (encoding/json).

    Go's [error] is [option Error] ([None] is [nil]).  Calls to the logger
    change neither control flow nor any value and are left out.  Code that
    blocks or mutates shared objects is written in state-passing style. *)

From Stdlib Require Import ZArith NArith String Ascii List Bool Lia.
From Stdlib Require Import Floats.SpecFloat.
From stdpp Require Import base decidable option list strings gmap pretty.

Import ListNotations.
Local Open Scope string_scope.
Local Open Scope Z_scope.

(** ** Errors *)

Inductive Error : Type :=
| ErrDifferentQueues                 (* messenger.go:45 *)
| ErrMissingProject                  (* README.md:52 *)
| context_Canceled                   (* context.Canceled *)
| context_DeadlineExceeded           (* context.DeadlineExceeded *)
| errors_New (text : string)         (* errors.New(text) *)
| json_Error (text : string)         (* an error of encoding/json *)
| pubsub_Error (text : string).      (* an error of the Pub/Sub client *)

#[global] Instance Error_eq_dec : EqDecision Error.
Proof. solve_decision. Defined.

Definition Error_text (e : Error) : string :=
  match e with
  | ErrDifferentQueues => "all handlers must subscribe to the same queue"
  | ErrMissingProject => "missing project"
  | context_Canceled => "context canceled"
  | context_DeadlineExceeded => "context deadline exceeded"
  | errors_New t | json_Error t | pubsub_Error t => t
  end.

(** ** The adapter contract *)

Record adapterMessage : Type := mkAdapterMessage {
  am_Queue : string;
  am_Identifier : string;
  am_Body : string
}.

#[global] Instance adapterMessage_eq_dec : EqDecision adapterMessage.
Proof. solve_decision. Defined.

(** ** Package app: GracefulShutdown

    A context made by [Add] is the index of its cancel function in
    [gs.cancels]; the flag stored there says whether that function has been
    called.  [waitGroup] is the counter of the [sync.WaitGroup]. *)

Definition Context := nat.

Record GracefulShutdown : Type := mkGracefulShutdown {
  cancels : list bool;
  waitGroup : Z
}.

Definition newGracefulShutdown : GracefulShutdown :=
  {| cancels := []; waitGroup := 0 |}.

Definition gs_Add (gs : GracefulShutdown) : Context * GracefulShutdown :=
  (length (cancels gs),
   {| cancels := cancels gs ++ [false]; waitGroup := waitGroup gs + 1 |}).

Definition gs_Done (gs : GracefulShutdown) : GracefulShutdown :=
  {| cancels := cancels gs; waitGroup := waitGroup gs - 1 |}.

(** The loop [for _, cancel := range gs.cancels { cancel() }] of [shutdown]. *)
Definition gs_cancel_all (gs : GracefulShutdown) : GracefulShutdown :=
  {| cancels := map (fun _ => true) (cancels gs); waitGroup := waitGroup gs |}.

(** [ctx.Err()]: [context.Canceled] once the cancel function was called. *)
Definition gs_ctx_Err (ctx : Context) (gs : GracefulShutdown) : option Error :=
  match cancels gs !! ctx with
  | Some true => Some context_Canceled
  | _ => None
  end.

(** ** messenger.go: the contracts *)

(** The [Message] interface, together with what [encoding/json] does on the
    values that implement it: [json_Marshal] is [json.Marshal(msg)] and
    [json_Unmarshal body target] is [json.Unmarshal([]byte(body), target)],
    giving the target as populated. *)
Class Message (Msg : Type) : Type := {
  Identifier : Msg -> string;
  Queue : Msg -> string;
  json_Marshal : Msg -> Error + string;
  json_Unmarshal : string -> Msg -> Error + Msg
}.

Section Messenger.

Context {Msg : Type} `{Message Msg}.

(** Everything outside the messenger that a blocking call can change: the
    shutdown coordinator, the clock (nanoseconds) and the rest ([X]: the
    broker, the stores the handlers write to). *)
Context {X : Type}.

Record World : Type := mkWorld {
  w_shutdown : GracefulShutdown;
  w_now : Z;
  w_ext : X
}.

Definition Shutdown_Add (w : World) : Context * World :=
  let '(ctx, gs) := gs_Add (w_shutdown w) in
  (ctx, {| w_shutdown := gs; w_now := w_now w; w_ext := w_ext w |}).

Definition Shutdown_Done (w : World) : World :=
  {| w_shutdown := gs_Done (w_shutdown w); w_now := w_now w; w_ext := w_ext w |}.

Definition ctx_Err (ctx : Context) (w : World) : option Error :=
  gs_ctx_Err ctx (w_shutdown w).

(** [time.Sleep(d)] pauses for at least [d] and returns at once when
    [d <= 0]; the clock moves by the least the runtime promises. *)
Definition time_Sleep (d : Z) (w : World) : World :=
  {| w_shutdown := w_shutdown w; w_now := w_now w + Z.max 0 d; w_ext := w_ext w |}.

(** The [MessageHandler] interface.  [Message()] gives a new value at each
    call, as the handlers of the template do ([return &message{}]), so the
    prototype is a value and not a cell that calls share. *)
Record MessageHandler : Type := mkMessageHandler {
  handler_Message : Msg;
  handler_Handle : Msg -> World -> option Error * World
}.

(** [type handleMessage func(adapterMessage) error] *)
Definition handleMessageFn : Type := adapterMessage -> World -> option Error * World.

(** The [adapter] interface.  A call of [Subscribe] blocks: the world it
    returns is the one in which it returned, after whatever happened
    meanwhile (messages handled, time passed, shutdown requested). *)
Record adapter : Type := mkAdapter {
  adapter_Dispatch : adapterMessage -> World -> option Error * World;
  adapter_Subscribe : string -> handleMessageFn -> Context -> World -> option Error * World
}.

(** The fields of [Config] that [messenger] reads after [New]. *)
Record messenger : Type := mkMessenger {
  Environment : string;
  RestartTimeout : Z;
  m_adapter : adapter
}.

(** messenger.go:158 *)
Definition prefixQueue (m : messenger) (queue : string) : string :=
  Environment m +:+ "." +:+ queue.

(** messenger.go:67 *)
Definition Dispatch (m : messenger) (msg : Msg) (w : World) : option Error * World :=
  match json_Marshal msg with
  | inl err => (Some err, w)
  | inr json =>
      adapter_Dispatch (m_adapter m)
        {| am_Queue := prefixQueue m (Queue msg);
           am_Identifier := Identifier msg;
           am_Body := json |} w
  end.

(** messenger.go:98-105, the loop over the handlers; [queue] is the local
    variable, [EmptyString] at entry. *)
Fixpoint subscribeQueue (queue : string) (h : list MessageHandler) : Error + string :=
  match h with
  | [] => inr queue
  | handler :: rest =>
      if decide (queue = EmptyString) then
        subscribeQueue (Queue (handler_Message handler)) rest
      else if decide (queue <> Queue (handler_Message handler)) then
        inl ErrDifferentQueues
      else subscribeQueue queue rest
  end.

(** messenger.go:115-136, the closure [handleMessage]. *)
Fixpoint handleMessage (h : list MessageHandler) (a : adapterMessage) (w : World)
  : option Error * World :=
  match h with
  | [] => (Some (errors_New ("no handler found for message " +:+ am_Identifier a)), w)
  | handler :: rest =>
      if decide (am_Identifier a = Identifier (handler_Message handler)) then
        match json_Unmarshal (am_Body a) (handler_Message handler) with
        | inl err => (Some err, w)
        | inr msg => handler_Handle handler msg w
        end
      else handleMessage rest a w
  end.

(** messenger.go:97.  The recursion of line 152 has no bound in the source;
    [fuel] counts the restarts that are left.  The deferred
    [m.Shutdown.Done()] runs on every return after line 111, so also after
    the recursive call has returned. *)
Fixpoint Subscribe (fuel : nat) (m : messenger) (h : list MessageHandler) (w : World)
  : option (option Error * World) :=
  match subscribeQueue EmptyString h with
  | inl err => Some (Some err, w)
  | inr queue =>
      let queue := prefixQueue m queue in
      let '(ctx, w) := Shutdown_Add w in
      let '(err, w) := adapter_Subscribe (m_adapter m) queue (handleMessage h) ctx w in
      if bool_decide (err = None) || bool_decide (err = ctx_Err ctx w) then
        Some (None, Shutdown_Done w)
      else if bool_decide (RestartTimeout m = 0) then
        Some (err, Shutdown_Done w)
      else
        match fuel with
        | O => None
        | S fuel' =>
            match Subscribe fuel' m h (time_Sleep (RestartTimeout m) w) with
            | Some (r, w') => Some (r, Shutdown_Done w')
            | None => None
            end
        end
  end.

(** Lines 107-152 of [Subscribe] for handlers whose queue passed the loop of
    lines 98-105. *)
Definition Subscribe_on (fuel : nat) (m : messenger) (h : list MessageHandler)
    (queue : string) (w : World) : option (option Error * World) :=
  let '(ctx, w1) := Shutdown_Add w in
  let '(err, w2) :=
    adapter_Subscribe (m_adapter m) (prefixQueue m queue) (handleMessage h) ctx w1 in
  if bool_decide (err = None) || bool_decide (err = ctx_Err ctx w2) then
    Some (None, Shutdown_Done w2)
  else if bool_decide (RestartTimeout m = 0) then
    Some (err, Shutdown_Done w2)
  else
    match fuel with
    | O => None
    | S fuel' =>
        match Subscribe fuel' m h (time_Sleep (RestartTimeout m) w2) with
        | Some (r, w') => Some (r, Shutdown_Done w')
        | None => None
        end
    end.

(** The first handler that [handleMessage] would pick for an envelope. *)
Definition matching (a : adapterMessage) (h : list MessageHandler)
  : option MessageHandler :=
  List.find (fun handler => bool_decide (am_Identifier a = Identifier (handler_Message handler))) h.

(** The [adapterMessage] that lines 75-79 of [Dispatch] build for a message
    whose encoding is [body]. *)
Definition envelope (m : messenger) (msg : Msg) (body : string) : adapterMessage :=
  {| am_Queue := prefixQueue m (Queue msg);
     am_Identifier := Identifier msg;
     am_Body := body |}.

(** Two messages are equal up to the fields that JSON carries when they
    have the same encoding. *)
Definition json_equal (msg1 msg2 : Msg) : Prop :=
  json_Marshal msg1 = json_Marshal msg2.

(** Decoding the encoding of [msg] into [target] succeeds and gives [msg]
    back, up to the fields that JSON carries. *)
Definition decodes_back (msg target : Msg) : Prop :=
  forall body, json_Marshal msg = inr body ->
    exists msg', json_Unmarshal body target = inr msg' /\ json_equal msg' msg.

(** The round trip as the specification words it: whenever the encoding of
    a message succeeds, the closure of [Subscribe], given the envelope that
    [Dispatch] built, runs [Handle] of the handler it selects on a message
    equal to the original up to the fields that JSON carries. *)
Definition round_trip_for_every_message : Prop :=
  forall (m : messenger) (msg : Msg) (body : string)
         (h : list MessageHandler) (handler : MessageHandler) (w : World),
    json_Marshal msg = inr body ->
    matching (envelope m msg body) h = Some handler ->
    exists msg',
      handleMessage h (envelope m msg body) w = handler_Handle handler msg' w
      /\ json_equal msg' msg.

End Messenger.

Arguments World : clear implicits.
Arguments MessageHandler Msg X : clear implicits.
Arguments adapter : clear implicits.
Arguments messenger : clear implicits.
Arguments handleMessageFn : clear implicits.
Arguments round_trip_for_every_message Msg {_} X.

(** ** The Pub/Sub adapter *)

Module Pubsub.

Record PubsubConfig : Type := mkPubsubConfig {
  Emulator : string;
  Project : string;
  DeadLetterTopic : string
}.

(** [*pubsub.Topic] and [*pubsub.Subscription] are handles: they name a
    resource of the client's project and say nothing on whether it exists. *)
Record Topic : Type := mkTopic { topic_Project : string; topic_ID : string }.
Record Subscription : Type := mkSubscription { sub_Project : string; sub_ID : string }.

#[global] Instance Topic_eq_dec : EqDecision Topic.
Proof. solve_decision. Defined.
#[global] Instance Subscription_eq_dec : EqDecision Subscription.
Proof. solve_decision. Defined.

(** [topic.String()] *)
Definition topic_String (t : Topic) : string :=
  "projects/" +:+ topic_Project t +:+ "/topics/" +:+ topic_ID t.

(** The mutex of [pubsubAdapter] guards [topics]; the calls modelled here run
    one after the other, and the client and the logger hold no state of
    their own. *)
Record pubsubAdapter : Type := mkPubsubAdapter {
  config : PubsubConfig;
  topics : gmap string Topic
}.

Record pubsubHeaders : Type := mkPubsubHeaders { Type_ : string }.
Record pubsubMessage : Type := mkPubsubMessage { Headers : pubsubHeaders; Body : string }.

(** [pubsub.Message], the fields the adapter reads. *)
Record pubsub_Message : Type := mkMessage { ID : string; Data : string }.

Inductive AckCall : Type := Ack | Nack.

#[global] Instance AckCall_eq_dec : EqDecision AckCall.
Proof. solve_decision. Defined.

Record DeadLetterPolicy : Type := mkDeadLetterPolicy {
  dlp_DeadLetterTopic : string;
  MaxDeliveryAttempts : Z
}.

Record RetryPolicy : Type := mkRetryPolicy {
  MinimumBackoff : Z;
  MaximumBackoff : Z
}.

Record SubscriptionConfigToUpdate : Type := mkSubscriptionConfigToUpdate {
  cfg_DeadLetterPolicy : DeadLetterPolicy;
  cfg_RetryPolicy : RetryPolicy
}.

Definition Second : Z := 1000000000.

(** The calls the adapter makes on the Pub/Sub client library, as
    transformers of the state [S] of everything outside the adapter.
    [topic_Publish] is [topic.Publish] followed by [res.Get];
    [sub_Receive] gives each delivered message to the callback, which
    answers with the calls it made on that message. *)
Class PubsubClient (S : Type) : Type := {
  os_Setenv : string -> string -> S -> S;
  pubsub_NewClient : string -> S -> option Error * S;
  topic_Exists : Topic -> S -> (bool * option Error) * S;
  client_CreateTopic : string -> S -> option Error * S;
  sub_Exists : Subscription -> S -> (bool * option Error) * S;
  client_CreateSubscription : string -> Topic -> S -> option Error * S;
  sub_Update : Subscription -> SubscriptionConfigToUpdate -> S -> option Error * S;
  topic_Publish : Topic -> string -> S -> option Error * S;
  sub_Receive : Subscription -> Context -> (pubsub_Message -> S -> list AckCall * S)
                -> S -> option Error * S
}.

(** What [encoding/json] does on the wire envelope [pubsubMessage]. *)
Class EnvelopeJSON : Type := {
  envelope_Marshal : pubsubMessage -> Error + string;
  envelope_Unmarshal : string -> Error + pubsubMessage
}.

Section Adapter.

Context {S : Type} `{PubsubClient S} `{EnvelopeJSON}.

(** README.md:55 *)
Definition newPubsubAdapter (c : PubsubConfig) (s : S) : (Error + pubsubAdapter) * S :=
  let '(c, s) :=
    if decide (Emulator c <> EmptyString) then
      let s := os_Setenv "PUBSUB_EMULATOR_HOST" (Emulator c) s in
      if decide (Project c = EmptyString) then
        ({| Emulator := Emulator c; Project := "emulator-project";
            DeadLetterTopic := DeadLetterTopic c |}, s)
      else (c, s)
    else (c, s) in
  if decide (Project c = EmptyString) then (inl ErrMissingProject, s)
  else
    match pubsub_NewClient (Project c) s with
    | (Some err, s) => (inl err, s)
    | (None, s) => (inr {| config := c; topics := ∅ |}, s)
    end.

(** [p.client.Topic(id)] and [p.client.Subscription(id)] *)
Definition client_Topic (p : pubsubAdapter) (id : string) : Topic :=
  {| topic_Project := Project (config p); topic_ID := id |}.

Definition client_Subscription (p : pubsubAdapter) (id : string) : Subscription :=
  {| sub_Project := Project (config p); sub_ID := id |}.

(** README.md:165 *)
Definition createTopicIfNotExists (p : pubsubAdapter) (topic : Topic) (s : S)
  : option Error * S :=
  let '((exists_, err), s) := topic_Exists topic s in
  if exists_ || bool_decide (err <> None) then (err, s)
  else client_CreateTopic (topic_ID topic) s.

(** README.md:145 *)
Definition topic (p : pubsubAdapter) (queue : string) (create : bool) (s : S)
  : (Error + Topic) * pubsubAdapter * S :=
  match topics p !! queue with
  | Some topic => (inr topic, p, s)
  | None =>
      let topic := client_Topic p queue in
      let '(err, s) :=
        if create then createTopicIfNotExists p topic s else (None, s) in
      match err with
      | Some err => (inl err, p, s)
      | None =>
          (inr topic,
           {| config := config p; topics := <[queue := topic]> (topics p) |}, s)
      end
  end.

(** README.md:214 *)
Definition createSubscriptionIfNotExists (p : pubsubAdapter) (sub : Subscription)
    (topic : Topic) (s : S) : option Error * S :=
  let '((exists_, err), s) := sub_Exists sub s in
  if exists_ || bool_decide (err <> None) then (err, s)
  else client_CreateSubscription (sub_ID sub) topic s.

(** The configuration written at README.md:200-209. *)
Definition deadLetterUpdate (dlTop : Topic) : SubscriptionConfigToUpdate :=
  {| cfg_DeadLetterPolicy :=
       {| dlp_DeadLetterTopic := topic_String dlTop; MaxDeliveryAttempts := 5 |};
     cfg_RetryPolicy :=
       {| MinimumBackoff := 10 * Second; MaximumBackoff := 300 * Second |} |}.

(** README.md:180.  The function calls itself once, with an empty
    [deadLetterTopic], for the dead-letter chain; [fuel] bounds the depth of
    that recursion.  On its last line the source returns the two handles
    together with the error of [sub.Update]; both callers drop the handles
    when that error is not [nil], so the result is the error or the
    handles. *)
Fixpoint subscription (fuel : nat) (p : pubsubAdapter)
    (subscription_ topic_ deadLetterTopic : string) (s : S)
  : option ((Error + Subscription * Topic) * pubsubAdapter * S) :=
  match fuel with
  | O => None
  | Datatypes.S fuel' =>
      match topic p topic_ true s with
      | (inl err, p, s) => Some (inl err, p, s)
      | (inr top, p, s) =>
          let sub := client_Subscription p subscription_ in
          (* line 187: the error that the call returns is dropped *)
          let '(_, s) := createSubscriptionIfNotExists p sub top s in
          if decide (deadLetterTopic = EmptyString) then
            Some (inr (sub, top), p, s)
          else
            match subscription fuel' p deadLetterTopic deadLetterTopic EmptyString s with
            | None => None
            | Some (inl err, p, s) => Some (inl err, p, s)
            | Some (inr (_, dlTop), p, s) =>
                match sub_Update sub (deadLetterUpdate dlTop) s with
                | (Some err, s) => Some (inl err, p, s)
                | (None, s) => Some (inr (sub, top), p, s)
                end
            end
      end
  end.

(** README.md:84 *)
Definition Dispatch (p : pubsubAdapter) (msg : adapterMessage) (s : S)
  : option Error * pubsubAdapter * S :=
  let m := {| Headers := {| Type_ := am_Identifier msg |}; Body := am_Body msg |} in
  match envelope_Marshal m with
  | inl err => (Some err, p, s)
  | inr json =>
      match topic p (am_Queue msg) false s with
      | (inl err, p, s) => (Some err, p, s)
      | (inr topic, p, s) =>
          let '(err, s) := topic_Publish topic json s in
          (err, p, s)
      end
  end.

(** README.md:122-141, the callback given to [sub.Receive]; the result
    lists the calls made on [msg]. *)
Definition receiveCallback (queue : string)
    (h : adapterMessage -> S -> option Error * S) (msg : pubsub_Message) (s : S)
  : list AckCall * S :=
  match envelope_Unmarshal (Data msg) with
  | inl err => ([Nack], s)
  | inr m =>
      match h {| am_Queue := queue; am_Identifier := Type_ (Headers m);
                 am_Body := Body m |} s with
      | (Some err, s) => ([Nack], s)
      | (None, s) => ([Ack], s)
      end
  end.

(** README.md:114 *)
Definition Subscribe (fuel : nat) (p : pubsubAdapter) (queue : string)
    (h : adapterMessage -> S -> option Error * S) (ctx : Context) (s : S)
  : option (option Error * pubsubAdapter * S) :=
  match subscription fuel p queue queue (DeadLetterTopic (config p)) s with
  | None => None
  | Some (inl err, p, s) => Some (Some err, p, s)
  | Some (inr (sub, _), p, s) =>
      let '(err, s) := sub_Receive sub ctx (receiveCallback queue h) s in
      Some (err, p, s)
  end.

(** Every handle in the memo is the one the client gives for its key; so
    it is for the adapter that [newPubsubAdapter] returns, and every
    operation keeps it so. *)
Definition memo_ok (p : pubsubAdapter) : Prop :=
  forall queue t, topics p !! queue = Some t -> t = client_Topic p queue.

(** The adapter after the handle for [queue] has been stored. *)
Definition memoize (p : pubsubAdapter) (queue : string) : pubsubAdapter :=
  match topics p !! queue with
  | Some _ => p
  | None => {| config := config p; topics := <[queue := client_Topic p queue]> (topics p) |}
  end.

End Adapter.

End Pubsub.

(** ** Package unicode/utf8

    Runes are code points, as numbers; a string is its bytes. *)

Module UTF8.

Definition RuneError : N := 65533.     (* U+FFFD *)
Definition MaxRune : N := 1114111.     (* U+10FFFF *)

Definition byte (c : ascii) : N := N_of_ascii c.

(** A byte below [RuneSelf] (0x80) stands for itself. *)
Definition is_ascii (c : ascii) : bool :=
  match c with Ascii _ _ _ _ _ _ _ b7 => negb b7 end.

Definition between (lo hi b : N) : bool := (lo <=? b)%N && (b <=? hi)%N.

(** The table [first] with [acceptRanges], for a byte from 0x80 on: the
    length of the sequence that the byte starts and the bounds of its
    second byte; none for a continuation byte, for 0xC0 and 0xC1, and from
    0xF5 on. *)
Definition first (b0 : N) : option (nat * N * N) :=
  if (b0 <? 194)%N then None
  else if (b0 <=? 223)%N then Some (2%nat, 128, 191)%N
  else if (b0 =? 224)%N then Some (3%nat, 160, 191)%N
  else if (b0 =? 237)%N then Some (3%nat, 128, 159)%N
  else if (b0 <=? 239)%N then Some (3%nat, 128, 191)%N
  else if (b0 =? 240)%N then Some (4%nat, 144, 191)%N
  else if (b0 <=? 243)%N then Some (4%nat, 128, 191)%N
  else if (b0 =? 244)%N then Some (4%nat, 128, 143)%N
  else None.

(** [utf8.DecodeRuneInString]: the rune at the head of [s] and the number
    of its bytes; [(RuneError, 1)] where no well-formed sequence starts.
    The masks and shifts of the source are written with [mod] and [*]. *)
Definition DecodeRuneInString (s : string) : N * nat :=
  match s with
  | EmptyString => (RuneError, 0%nat)
  | String c0 r =>
      if is_ascii c0 then (byte c0, 1%nat)
      else
        match first (byte c0), r with
        | Some (sz, lo, hi), String c1 r1 =>
            if between lo hi (byte c1) then
              match sz, r1 with
              | 2%nat, _ => ((byte c0 mod 32) * 64 + byte c1 mod 64, 2%nat)%N
              | 3%nat, String c2 _ =>
                  if between 128 191 (byte c2)
                  then (((byte c0 mod 16) * 64 + byte c1 mod 64) * 64 + byte c2 mod 64,
                        3%nat)%N
                  else (RuneError, 1%nat)
              | 4%nat, String c2 (String c3 _) =>
                  if between 128 191 (byte c2) && between 128 191 (byte c3)
                  then ((((byte c0 mod 8) * 64 + byte c1 mod 64) * 64 + byte c2 mod 64) * 64
                        + byte c3 mod 64, 4%nat)%N
                  else (RuneError, 1%nat)
              | _, _ => (RuneError, 1%nat)
              end
            else (RuneError, 1%nat)
        | _, _ => (RuneError, 1%nat)
        end
  end.

Definition bytes (l : list N) : string :=
  fold_right (fun b s => String (ascii_of_N b) s) EmptyString l.

(** [utf8.AppendRune]: a surrogate or a number above [MaxRune] is written
    as U+FFFD. *)
Definition EncodeRune (r : N) : string :=
  (if r <=? 127 then bytes [r]
   else if r <=? 2047 then bytes [192 + r / 64; 128 + r mod 64]
   else if (MaxRune <? r) || between 55296 57343 r then bytes [239; 191; 189]
   else if r <=? 65535
   then bytes [224 + r / 4096; 128 + (r / 64) mod 64; 128 + r mod 64]
   else bytes [240 + r / 262144; 128 + (r / 4096) mod 64; 128 + (r / 64) mod 64;
               128 + r mod 64])%N.

(** [utf8.ValidString] *)
Fixpoint ValidString (s : string) : bool :=
  match s with
  | EmptyString => true
  | String c r =>
      if is_ascii c then ValidString r
      else
        match DecodeRuneInString s, r with
        | (_, 2%nat), String _ r2 => ValidString r2
        | (_, 3%nat), String _ (String _ r3) => ValidString r3
        | (_, 4%nat), String _ (String _ (String _ r4)) => ValidString r4
        | _, _ => false
        end
  end.

End UTF8.

(** ** Package strconv: float64 and its decimal texts

    A [float64] is a binary64 number of IEEE 754, in the representation of
    the standard library ([SpecFloat]); the rounding is its
    [binary_round_aux], to nearest with ties to even. *)

Module Float64.

Definition prec : Z := 53.
Definition emax : Z := 1024.

Definition float64 : Type := spec_float.

#[global] Instance float64_eq_dec : EqDecision float64.
Proof. solve_decision. Defined.

Definition digit (c : ascii) : option Z :=
  let n := N_of_ascii c in
  if (48 <=? n)%N && (n <=? 57)%N then Some (Z.of_N (n - 48)) else None.

(** The digits at the head of a text: their value after [acc], their
    number after [n], and what follows them. *)
Fixpoint decimal (acc n : Z) (s : string) : Z * Z * string :=
  match s with
  | String c r =>
      match digit c with
      | Some d => decimal (acc * 10 + d) (n + 1) r
      | None => (acc, n, s)
      end
  | EmptyString => (acc, n, s)
  end.

(** The float nearest to [m * 10 ^ e], where [m] is written with [nd]
    digits.  From [10 ^ 400] on that is an infinity and below
    [10 ^ (-400)] a zero, whatever the digits. *)
Definition of_decimal (neg : bool) (m e nd : Z) : float64 :=
  match m with
  | Zpos p =>
      if 400 <? e then S754_infinity neg
      else if nd + e <? -400 then S754_zero neg
      else if 0 <=? e then binary_round prec emax neg (p * Z.to_pos (10 ^ e)) 0
      else
        let '(q, e', l) := SFdiv_core_binary prec emax (Zpos p) 0 (10 ^ (- e)) 0 in
        binary_round_aux prec emax neg q e' l
  | _ => S754_zero neg
  end.

(** [strconv.ParseFloat(s, 64)] on a number of a JSON text; [None] is the
    error for a value out of range. *)
Definition ParseFloat (s : string) : option float64 :=
  let '(neg, s) := match s with String "-" r => (true, r) | _ => (false, s) end in
  let '(m, nd, s) := decimal 0 0 s in
  let '(m, fd, s) :=
    match s with
    | String "." r => decimal m 0 r
    | _ => (m, 0, s)
    end in
  let e :=
    match s with
    | String c r =>
        if (c =? "e")%char || (c =? "E")%char then
          match r with
          | String "-" r => - (decimal 0 0 r).1.1
          | String "+" r => (decimal 0 0 r).1.1
          | _ => (decimal 0 0 r).1.1
          end
        else 0
    | EmptyString => 0
    end in
  match of_decimal neg m (e - fd) (nd + fd) with
  | S754_infinity _ => None
  | f => Some f
  end.

Fixpoint digits_of (fuel : nat) (x : Z) (acc : string) : string :=
  match fuel with
  | O => acc
  | Datatypes.S fuel' =>
      let acc := String (ascii_of_N (48 + Z.to_N (x mod 10))) acc in
      if x <? 10 then acc else digits_of fuel' (x / 10) acc
  end.

(** The decimal digits of a number that is not negative. *)
Definition render_digits (x : Z) : string :=
  digits_of (Z.to_nat (Z.log2 x) + 1) x EmptyString.

Fixpoint strip_zeros (fuel : nat) (x : Z) : Z :=
  match fuel with
  | O => x
  | Datatypes.S fuel' =>
      if (x mod 10 =? 0) && (10 <=? x) then strip_zeros fuel' (x / 10) else x
  end.

(** The power of ten of the leading digit of [num / den]. *)
Fixpoint exponent_up (fuel : nat) (num den k : Z) : Z :=
  match fuel with
  | O => k
  | Datatypes.S fuel' =>
      if num <? den * 10 then k else exponent_up fuel' num (den * 10) (k + 1)
  end.

Fixpoint exponent_down (fuel : nat) (num den k : Z) : Z :=
  match fuel with
  | O => k
  | Datatypes.S fuel' =>
      if den <=? num then k else exponent_down fuel' (num * 10) den (k - 1)
  end.

Definition exponent10 (num den : Z) : Z :=
  if den <=? num then exponent_up 400 num den 0 else exponent_down 400 num den 0.

(** The shortest decimal that reads back as [f = num / den], the nearest
    to it among those of that length: its digits as a number, and the power
    of ten of the first of them.  Seventeen digits always do. *)
Fixpoint shortest (fuel : nat) (n : Z) (f : float64) (num den k : Z) : Z * Z :=
  let x := n - 1 - k in
  let A := if 0 <=? x then num * 10 ^ x else num in
  let B := if 0 <=? x then den else den * 10 ^ (- x) in
  let lo := A / B in
  let rem := A mod B in
  let ok d := bool_decide (of_decimal false d (- x) n = f) in
  let pick d := if d =? 10 ^ n then (1, k + 1) else (d, k) in
  let nearest :=
    match 2 * rem ?= B with
    | Lt => lo
    | Gt => lo + 1
    | Eq => if Z.even lo then lo else lo + 1
    end in
  match fuel with
  | O => pick nearest
  | Datatypes.S fuel' =>
      if rem =? 0 then pick lo
      else
        match ok lo, ok (lo + 1) with
        | true, true => pick nearest
        | true, false => pick lo
        | false, true => pick (lo + 1)
        | false, false => shortest fuel' (n + 1) f num den k
        end
  end.

Definition pad (n : Z) : string :=
  String.concat EmptyString (replicate (Z.to_nat n) "0").

Definition take (n : Z) (s : string) : string := String.substring 0 (Z.to_nat n) s.
Definition drop (n : Z) (s : string) : string :=
  String.substring (Z.to_nat n) (String.length s - Z.to_nat n) s.

(** The text that the encoder of [encoding/json] writes for a float64:
    [strconv.AppendFloat] with the shortest digits, in format ['f'], or in
    format ['e'] below 1e-6 and from 1e21 on, where a leading zero of a
    two-digit exponent is taken out.  [None] for an infinity and for NaN,
    which the encoder refuses. *)
Definition FormatFloat (f : float64) : option string :=
  match f with
  | S754_zero neg => Some (if neg then "-0" else "0")
  | S754_finite neg m e =>
      let f := binary_round prec emax false m e in
      let num := if 0 <=? e then Zpos m * 2 ^ e else Zpos m in
      let den := if 0 <=? e then 1 else 2 ^ (- e) in
      let '(d, k) := shortest 17 1 f num den (exponent10 num den) in
      let ds := render_digits (strip_zeros 20 d) in
      let nd := Z.of_nat (String.length ds) in
      let text :=
        if (k <? -6) || (21 <=? k) then
          take 1 ds +:+ (if 1 <? nd then "." +:+ drop 1 ds else EmptyString)
          +:+ "e" +:+ (if k <? 0 then "-" else "+")
          +:+ (if (Z.abs k <? 10) && (0 <=? k) then "0" else EmptyString)
          +:+ render_digits (Z.abs k)
        else if k <? 0 then "0." +:+ pad (- k - 1) +:+ ds
        else if nd <=? k + 1 then ds +:+ pad (k + 1 - nd)
        else take (k + 1) ds +:+ "." +:+ drop (k + 1) ds in
      Some (if neg then "-" +:+ text else text)
  | _ => None
  end.

End Float64.

(** ** Package encoding/json

    [value] is the syntax of a JSON text; a number keeps its literal, as
    the decoder does until it knows the Go type it is for.  [render] writes
    a text with the encoder's rules for strings ([appendString] with HTML
    escaping on, as [json.Marshal] has it; the short escapes for backspace
    and form feed are those of Go 1.22 and later).  [parse] is the
    scanner, with the decoder's [unquote] for strings.  The scanner's
    bound on the depth of nesting (ten thousand) is left out, and a syntax
    error carries no position or detail. *)

Module JSON.

Import UTF8.

#[local] Unset Elimination Schemes.
Inductive value : Type :=
| Null
| Bool (b : bool)
| Number (literal : string)
| Str (s : string)
| Array (items : list value)
| Object (fields : list (string * value)).
#[local] Set Elimination Schemes.

Definition quote : ascii := "034"%char.
Definition backslash : ascii := "092"%char.

Definition hexdigit (n : N) : ascii :=
  ascii_of_N (if (n <? 10)%N then 48 + n else 87 + n)%N.

(** The characters below U+0020. *)
Definition is_control (c : ascii) : bool :=
  match c with
  | Ascii _ _ _ _ _ false false false => true
  | _ => false
  end.

(** What the encoder writes for a byte below 0x80. *)
Definition escape (c : ascii) : string :=
  let n := N_of_ascii c in
  if (c =? quote)%char then String backslash (String quote EmptyString)
  else if (c =? backslash)%char then String backslash (String backslash EmptyString)
  else if (c =? "008")%char then String backslash "b"
  else if (c =? "012")%char then String backslash "f"
  else if (c =? "010")%char then String backslash "n"
  else if (c =? "013")%char then String backslash "r"
  else if (c =? "009")%char then String backslash "t"
  else if is_control c || (c =? "<")%char || (c =? ">")%char || (c =? "&")%char then
    String backslash
      ("u00" +:+ String (hexdigit (n / 16)) (String (hexdigit (n mod 16)) EmptyString))
  else String c EmptyString.

(** The inside of a string as the encoder writes it: a byte that starts no
    well-formed sequence is written as the escape of U+FFFD, the line and paragraph
    separators U+2028 and U+2029 are escaped, and every other sequence of
    several bytes is copied. *)
Fixpoint escape_string (s : string) : string :=
  match s with
  | EmptyString => EmptyString
  | String c r =>
      if is_ascii c then escape c +:+ escape_string r
      else
        match DecodeRuneInString s, r with
        | (_, 2%nat), String c1 r2 => String c (String c1 (escape_string r2))
        | (rr, 3%nat), String c1 (String c2 r3) =>
            if (rr =? 8232)%N then String backslash "u2028" +:+ escape_string r3
            else if (rr =? 8233)%N then String backslash "u2029" +:+ escape_string r3
            else String c (String c1 (String c2 (escape_string r3)))
        | (_, 4%nat), String c1 (String c2 (String c3 r4)) =>
            String c (String c1 (String c2 (String c3 (escape_string r4))))
        | _, _ => String backslash "ufffd" +:+ escape_string r
        end
  end.

Definition render_string (s : string) : string :=
  String quote (escape_string s +:+ String quote EmptyString).

Fixpoint render (v : value) : string :=
  match v with
  | Null => "null"
  | Bool true => "true"
  | Bool false => "false"
  | Number literal => literal
  | Str s => render_string s
  | Array items =>
      let fix go (l : list value) : string :=
        match l with
        | [] => EmptyString
        | [x] => render x
        | x :: r => render x +:+ "," +:+ go r
        end in
      "[" +:+ go items +:+ "]"
  | Object fields =>
      let fix go (l : list (string * value)) : string :=
        match l with
        | [] => EmptyString
        | [(k, x)] => render_string k +:+ ":" +:+ render x
        | (k, x) :: r => render_string k +:+ ":" +:+ render x +:+ "," +:+ go r
        end in
      "{" +:+ go fields +:+ "}"
  end.

(** *** The decoder's scanner *)

Definition is_ws (c : ascii) : bool :=
  (c =? " ")%char || (c =? "009")%char || (c =? "010")%char || (c =? "013")%char.

Fixpoint skip_ws (s : string) : string :=
  match s with
  | String c r => if is_ws c then skip_ws r else s
  | EmptyString => s
  end.

Definition hexval (c : ascii) : option N :=
  let n := N_of_ascii c in
  if (48 <=? n)%N && (n <=? 57)%N then Some (n - 48)%N
  else if (97 <=? n)%N && (n <=? 102)%N then Some (n - 87)%N
  else if (65 <=? n)%N && (n <=? 70)%N then Some (n - 55)%N
  else None.

(** [getu4] on four characters. *)
Definition hex4 (h1 h2 h3 h4 : ascii) : option N :=
  match hexval h1, hexval h2, hexval h3, hexval h4 with
  | Some a, Some b, Some c, Some d => Some (((a * 16 + b) * 16 + c) * 16 + d)%N
  | _, _, _, _ => None
  end.

Definition unescape (c : ascii) : option ascii :=
  if (c =? quote)%char then Some quote
  else if (c =? backslash)%char then Some backslash
  else if (c =? "/")%char then Some "/"%char
  else if (c =? "b")%char then Some "008"%char
  else if (c =? "f")%char then Some "012"%char
  else if (c =? "n")%char then Some "010"%char
  else if (c =? "r")%char then Some "013"%char
  else if (c =? "t")%char then Some "009"%char
  else None.

Definition cons_char (c : ascii) (r : option (string * string)) : option (string * string) :=
  match r with
  | Some (s, rest) => Some (String c s, rest)
  | None => None
  end.

Definition prepend (p : string) (r : option (string * string)) : option (string * string) :=
  match r with
  | Some (s, rest) => Some (p +:+ s, rest)
  | None => None
  end.

(** [utf16.DecodeRune]: the rune of a surrogate pair, U+FFFD for two
    numbers that are no pair. *)
Definition utf16_DecodeRune (r1 r2 : N) : N :=
  (if between 55296 56319 r1 && between 56320 57343 r2
   then (r1 - 55296) * 1024 + (r2 - 56320) + 65536
   else RuneError)%N.

(** The text after an opening quote: the string and what follows its
    closing quote.  The scanner accepts the escapes of JSON and no
    character below U+0020; [unquote] then writes every [\u] escape as
    UTF-8, a surrogate pair as one rune and a surrogate alone as U+FFFD,
    and replaces every byte that starts no well-formed sequence by
    U+FFFD. *)
Fixpoint scan_string (s : string) : option (string * string) :=
  match s with
  | EmptyString => None
  | String c r =>
      if (c =? quote)%char then Some (EmptyString, r)
      else if (c =? backslash)%char then
        match r with
        | String e r1 =>
            match unescape e with
            | Some c' => cons_char c' (scan_string r1)
            | None =>
                if (e =? "u")%char then
                  match r1 with
                  | String h1 (String h2 (String h3 (String h4 r2))) =>
                      match hex4 h1 h2 h3 h4 with
                      | Some rr =>
                          if between 55296 57343 rr then
                            match r2 with
                            | String b (String u (String g1 (String g2 (String g3
                                (String g4 r3))))) =>
                                match (if (b =? backslash)%char && (u =? "u")%char
                                       then hex4 g1 g2 g3 g4 else None) with
                                | Some rr1 =>
                                    if (utf16_DecodeRune rr rr1 =? RuneError)%N
                                    then prepend (EncodeRune RuneError) (scan_string r2)
                                    else prepend (EncodeRune (utf16_DecodeRune rr rr1))
                                                 (scan_string r3)
                                | None => prepend (EncodeRune RuneError) (scan_string r2)
                                end
                            | _ => prepend (EncodeRune RuneError) (scan_string r2)
                            end
                          else prepend (EncodeRune rr) (scan_string r2)
                      | None => None
                      end
                  | _ => None
                  end
                else None
            end
        | EmptyString => None
        end
      else if is_control c then None
      else if is_ascii c then cons_char c (scan_string r)
      else
        match DecodeRuneInString s, r with
        | (rr, 2%nat), String _ r2 => prepend (EncodeRune rr) (scan_string r2)
        | (rr, 3%nat), String _ (String _ r3) => prepend (EncodeRune rr) (scan_string r3)
        | (rr, 4%nat), String _ (String _ (String _ r4)) =>
            prepend (EncodeRune rr) (scan_string r4)
        | (rr, _), _ => prepend (EncodeRune rr) (scan_string r)
        end
  end.

Definition is_digit (c : ascii) : bool :=
  (48 <=? N_of_ascii c)%N && (N_of_ascii c <=? 57)%N.

(** The digits at the head of a text, and what follows them. *)
Fixpoint span_digits (s : string) : string * string :=
  match s with
  | String c r =>
      if is_digit c then let '(ds, rest) := span_digits r in (String c ds, rest)
      else (EmptyString, s)
  | EmptyString => (EmptyString, s)
  end.

(** A number without its sign: [0] or digits that start with none, then
    maybe a fraction, then maybe an exponent; the literal and what follows
    it. *)
Definition scan_number (s : string) : option (string * string) :=
  match s with
  | String c r =>
      if is_digit c then
        let '(int, rest) :=
          if (c =? "0")%char then (String c EmptyString, r)
          else let '(ds, rest) := span_digits r in (String c ds, rest) in
        let frac :=
          match rest with
          | String "." r1 =>
              match span_digits r1 with
              | (EmptyString, _) => None
              | (ds, r2) => Some (String "." ds, r2)
              end
          | _ => Some (EmptyString, rest)
          end in
        match frac with
        | None => None
        | Some (frac, rest) =>
            match rest with
            | String e r1 =>
                if (e =? "e")%char || (e =? "E")%char then
                  let '(sign, r2) :=
                    match r1 with
                    | String "+" r2 => ("+", r2)
                    | String "-" r2 => ("-", r2)
                    | _ => (EmptyString, r1)
                    end in
                  match span_digits r2 with
                  | (EmptyString, _) => None
                  | (ds, r3) => Some (int +:+ frac +:+ String e (sign +:+ ds), r3)
                  end
                else Some (int +:+ frac, rest)
            | EmptyString => Some (int +:+ frac, rest)
            end
        end
      else None
  | EmptyString => None
  end.

Definition expect (lit : string) (v : value) (s : string) : option (value * string) :=
  if String.prefix lit s
  then Some (v, String.substring (String.length lit) (String.length s - String.length lit) s)
  else None.

Fixpoint parse_value (fuel : nat) (s : string) : option (value * string) :=
  match fuel with
  | O => None
  | Datatypes.S fuel' =>
      match skip_ws s with
      | EmptyString => None
      | String c r as s' =>
          if (c =? "{")%char then
            match skip_ws r with
            | String c' r' as body =>
                if (c' =? "}")%char then Some (Object [], r')
                else parse_members fuel' body
            | EmptyString => None
            end
          else if (c =? "[")%char then
            match skip_ws r with
            | String c' r' as body =>
                if (c' =? "]")%char then Some (Array [], r')
                else parse_items fuel' body
            | EmptyString => None
            end
          else if (c =? quote)%char then
            match scan_string r with
            | Some (str, rest) => Some (Str str, rest)
            | None => None
            end
          else if (c =? "-")%char then
            match scan_number r with
            | Some (literal, rest) => Some (Number (String "-" literal), rest)
            | None => None
            end
          else if (c =? "t")%char then expect "true" (Bool true) s'
          else if (c =? "f")%char then expect "false" (Bool false) s'
          else if (c =? "n")%char then expect "null" Null s'
          else
            match scan_number s' with
            | Some (literal, rest) => Some (Number literal, rest)
            | None => None
            end
      end
  end

with parse_members (fuel : nat) (s : string) : option (value * string) :=
  match fuel with
  | O => None
  | Datatypes.S fuel' =>
      match skip_ws s with
      | String c r =>
          if (c =? quote)%char then
            match scan_string r with
            | Some (key, rest) =>
                match skip_ws rest with
                | String c1 r1 =>
                    if (c1 =? ":")%char then
                      match parse_value fuel' r1 with
                      | Some (v, rest1) =>
                          match skip_ws rest1 with
                          | String c2 r2 =>
                              if (c2 =? "}")%char then Some (Object [(key, v)], r2)
                              else if (c2 =? ",")%char then
                                match parse_members fuel' r2 with
                                | Some (Object more, rest2) =>
                                    Some (Object ((key, v) :: more), rest2)
                                | _ => None
                                end
                              else None
                          | EmptyString => None
                          end
                      | None => None
                      end
                    else None
                | EmptyString => None
                end
            | None => None
            end
          else None
      | EmptyString => None
      end
  end

with parse_items (fuel : nat) (s : string) : option (value * string) :=
  match fuel with
  | O => None
  | Datatypes.S fuel' =>
      match parse_value fuel' s with
      | Some (v, rest) =>
          match skip_ws rest with
          | String c r =>
              if (c =? "]")%char then Some (Array [v], r)
              else if (c =? ",")%char then
                match parse_items fuel' r with
                | Some (Array more, rest1) => Some (Array (v :: more), rest1)
                | _ => None
                end
              else None
          | EmptyString => None
          end
      | None => None
      end
  end.

(** A whole text: one value, then only white space.  Every call of the
    parser consumes a character, so the length of the text bounds the
    depth. *)
Definition parse (s : string) : Error + value :=
  match parse_value (Datatypes.S (String.length s)) s with
  | Some (v, rest) =>
      match skip_ws rest with
      | EmptyString => inr v
      | _ => inl (json_Error "invalid character after top-level value")
      end
  | None => inl (json_Error "invalid JSON text")
  end.

End JSON.

(** *** How encoding/json fills and reads Go values *)

Module Decode.

Import JSON.

(** Where the decoder is, for the text of a type error: the struct it is
    filling and the names of the fields from the root to there (its
    [errorContext]); [None] at the root. *)
Record errorContext : Type := mkErrorContext {
  ctx_Struct : string;
  ctx_FieldStack : list string
}.

Definition enter (name : string) (ctx : option errorContext) (field : string)
  : option errorContext :=
  Some {| ctx_Struct := name;
          ctx_FieldStack :=
            match ctx with Some c => ctx_FieldStack c | None => [] end ++ [field] |}.

(** How [UnmarshalTypeError] names the value that did not fit. *)
Definition kind (v : value) : string :=
  match v with
  | Null => "null"
  | Bool _ => "bool"
  | Number _ => "number"
  | Str _ => "string"
  | Array _ => "array"
  | Object _ => "object"
  end.

(** The text of an [UnmarshalTypeError], by its method [Error]. *)
Definition type_error (ctx : option errorContext) (value type : string) : Error :=
  json_Error
    ("json: cannot unmarshal " +:+ value +:+ " into Go " +:+
     match ctx with
     | Some c =>
         "struct field " +:+ ctx_Struct c +:+ "." +:+
         String.concat "." (ctx_FieldStack c)
     | None => "value"
     end +:+ " of type " +:+ type).

(** A struct type as the decoder sees it: its name, the type as [reflect]
    prints it, and what a key of the text sets; [set_field] is given the
    context of each field by its name. *)
Record setter (T : Type) : Type := mkSetter {
  go_name : string;
  go_type : string;
  set_field : (string -> option errorContext) -> string -> value -> T -> Error + T
}.

Arguments go_name {T} _.
Arguments go_type {T} _.
Arguments set_field {T} _ _ _ _ _.

Definition upper (c : ascii) : ascii :=
  let n := N_of_ascii c in
  if (97 <=? n)%N && (n <=? 122)%N then ascii_of_N (n - 32) else c.

(** [foldName], as far as it bears on a match with a field name in ASCII:
    letters of ASCII fold to their capitals, and so do the long s (U+017F)
    and the Kelvin sign (U+212A), which Unicode folds with [s] and [k]; no
    other rune folds to a letter of ASCII. *)
Fixpoint foldName (s : string) : string :=
  match s with
  | EmptyString => EmptyString
  | String c r =>
      match r with
      | String c1 r1 =>
          if (c =? "197")%char && (c1 =? "191")%char then String "S" (foldName r1)
          else
            match r1 with
            | String c2 r2 =>
                if (c =? "226")%char && (c1 =? "132")%char && (c2 =? "170")%char
                then String "K" (foldName r2)
                else String (upper c) (foldName r)
            | EmptyString => String (upper c) (foldName r)
            end
      | EmptyString => String (upper c) EmptyString
      end
  end.

Fixpoint index_where (p : string -> bool) (names : list string) : option nat :=
  match names with
  | [] => None
  | n :: r => if p n then Some O else option_map Datatypes.S (index_where p r)
  end.

(** The struct field that a key of the text selects: the field with that
    name, or else the first whose name has the same fold. *)
Definition field_index (names : list string) (key : string) : option nat :=
  match index_where (String.eqb key) names with
  | Some i => Some i
  | None => index_where (fun n => String.eqb (foldName key) (foldName n)) names
  end.

(** The decoder keeps going after a value of the wrong kind and reports
    the first such error at the end; no caller here reads the target in
    that case, so the fold stops at the error. *)
Fixpoint decode_fields {T : Type} (set : string -> value -> T -> Error + T)
    (fields : list (string * value)) (target : T) : Error + T :=
  match fields with
  | [] => inr target
  | (key, v) :: rest =>
      match set key v target with
      | inl err => inl err
      | inr target => decode_fields set rest target
      end
  end.

Definition decode_struct {T : Type} (t : setter T) (ctx : option errorContext)
    (v : value) (target : T) : Error + T :=
  match v with
  | Null => inr target
  | Object fields => decode_fields (set_field t (enter (go_name t) ctx)) fields target
  | _ => inl (type_error ctx (kind v) (go_type t))
  end.

Definition decode_string (ctx : option errorContext) (v : value) (target : string)
  : Error + string :=
  match v with
  | Str s => inr s
  | Null => inr target
  | _ => inl (type_error ctx (kind v) "string")
  end.

(** What [encoding/json] stores in an [interface{}]: [nil], a [bool], a
    [float64], a [string], a [[]interface{}] or a
    [map[string]interface{}].  These are the values of type [interface{}]
    taken into account; what else a caller may put there is left out. *)
#[local] Unset Elimination Schemes.
Inductive any : Type :=
| any_nil
| any_bool (b : bool)
| any_float64 (f : Float64.float64)
| any_string (s : string)
| any_slice (items : list any)
| any_map (entries : gmap string any).
#[local] Set Elimination Schemes.

(** A JSON value into an empty [interface{}]: a number becomes a float64
    (an error when it is out of range), an object a new map in which a
    later key replaces an earlier one. *)
Fixpoint decode_any (ctx : option errorContext) (v : value) : Error + any :=
  match v with
  | Null => inr any_nil
  | Bool b => inr (any_bool b)
  | Number literal =>
      match Float64.ParseFloat literal with
      | Some f => inr (any_float64 f)
      | None => inl (type_error ctx ("number " +:+ literal) "float64")
      end
  | Str s => inr (any_string s)
  | Array items =>
      let fix go (l : list value) : Error + list any :=
        match l with
        | [] => inr []
        | x :: r =>
            match decode_any ctx x with
            | inl err => inl err
            | inr a =>
                match go r with
                | inl err => inl err
                | inr more => inr (a :: more)
                end
            end
        end in
      match go items with
      | inl err => inl err
      | inr l => inr (any_slice l)
      end
  | Object fields =>
      let fix go (l : list (string * value)) (m : gmap string any)
        : Error + gmap string any :=
        match l with
        | [] => inr m
        | (key, x) :: r =>
            match decode_any ctx x with
            | inl err => inl err
            | inr a => go r (<[key := a]> m)
            end
        end in
      match go fields ∅ with
      | inl err => inl err
      | inr m => inr (any_map m)
      end
  end.

Fixpoint decode_any_entries (ctx : option errorContext)
    (fields : list (string * value)) (m : gmap string any) : Error + gmap string any :=
  match fields with
  | [] => inr m
  | (key, v) :: rest =>
      match decode_any ctx v with
      | inl err => inl err
      | inr a => decode_any_entries ctx rest (<[key := a]> m)
      end
  end.

(** A [map[string]interface{}]: [nil] is [None]; an object is merged into
    the map that is there, or into a new one. *)
Definition decode_map_any (ctx : option errorContext) (v : value)
    (target : option (gmap string any)) : Error + option (gmap string any) :=
  match v with
  | Null => inr None
  | Object fields =>
      match decode_any_entries ctx fields (default ∅ target) with
      | inl err => inl err
      | inr m => inr (Some m)
      end
  | _ => inl (type_error ctx (kind v) "map[string]interface {}")
  end.

Fixpoint decode_string_entries (ctx : option errorContext)
    (fields : list (string * value)) (m : gmap string string)
  : Error + gmap string string :=
  match fields with
  | [] => inr m
  | (key, v) :: rest =>
      match decode_string ctx v EmptyString with
      | inl err => inl err
      | inr s => decode_string_entries ctx rest (<[key := s]> m)
      end
  end.

Definition decode_map_string (ctx : option errorContext) (v : value)
    (target : option (gmap string string)) : Error + option (gmap string string) :=
  match v with
  | Null => inr None
  | Object fields =>
      match decode_string_entries ctx fields (default ∅ target) with
      | inl err => inl err
      | inr m => inr (Some m)
      end
  | _ => inl (type_error ctx (kind v) "map[string]string")
  end.

(** [json.Unmarshal(data, &target)] for a struct without methods. *)
Definition Unmarshal_struct {T : Type} (t : setter T) (data : string) (target : T)
  : Error + T :=
  match parse data with
  | inl err => inl err
  | inr v => decode_struct t None v target
  end.

(** The encoder writes the entries of a map in the order of their keys. *)
Fixpoint insert_sorted {V : Type} (kv : string * V) (l : list (string * V))
  : list (string * V) :=
  match l with
  | [] => [kv]
  | kv' :: r => if String.leb kv.1 kv'.1 then kv :: l else kv' :: insert_sorted kv r
  end.

Definition sorted_entries {V : Type} (m : gmap string V) : list (string * V) :=
  foldr insert_sorted [] (map_to_list m).

(** The first error of a list of results, or all the values. *)
Fixpoint collect {A : Type} (l : list (Error + A)) : Error + list A :=
  match l with
  | [] => inr []
  | inl err :: _ => inl err
  | inr a :: r =>
      match collect r with
      | inl err => inl err
      | inr more => inr (a :: more)
      end
  end.

Definition unsupported (what : string) : Error :=
  json_Error ("json: unsupported value: " +:+ what).

(** The encoder on a value in an [interface{}]; it refuses an infinity and
    NaN. *)
Fixpoint encode_any (a : any) : Error + value :=
  match a with
  | any_nil => inr Null
  | any_bool b => inr (Bool b)
  | any_float64 f =>
      match Float64.FormatFloat f with
      | Some text => inr (Number text)
      | None =>
          inl (unsupported match f with
                           | S754_infinity false => "+Inf"
                           | S754_infinity true => "-Inf"
                           | _ => "NaN"
                           end)
      end
  | any_string s => inr (Str s)
  | any_slice items =>
      match collect (map encode_any items) with
      | inl err => inl err
      | inr vs => inr (Array vs)
      end
  | any_map entries =>
      match collect (map (fun kv => match kv.2 with
                                    | inl err => inl err
                                    | inr v => inr (kv.1, v)
                                    end)
                         (sorted_entries (encode_any <$> entries))) with
      | inl err => inl err
      | inr fields => inr (Object fields)
      end
  end.

(** A field of type [map[string]interface{}]: [nil] is written [null]. *)
Definition encode_map_any (m : option (gmap string any)) : Error + value :=
  match m with
  | None => inr Null
  | Some m => encode_any (any_map m)
  end.

End Decode.

(** ** The wire envelope *)

Module Envelope.

Import JSON Decode Pubsub.

Definition set_pubsubHeaders : setter pubsubHeaders := {|
  go_name := "pubsubHeaders";
  go_type := "messenger.pubsubHeaders";
  set_field enter key v h :=
    match field_index ["type"] key with
    | Some O =>
        match decode_string (enter "type") v (Type_ h) with
        | inl err => inl err
        | inr s => inr {| Type_ := s |}
        end
    | _ => inr h
    end
|}.

Definition set_pubsubMessage : setter pubsubMessage := {|
  go_name := "pubsubMessage";
  go_type := "messenger.pubsubMessage";
  set_field enter key v m :=
    match field_index ["headers"; "body"] key with
    | Some O =>
        match decode_struct set_pubsubHeaders (enter "headers") v (Headers m) with
        | inl err => inl err
        | inr h => inr {| Headers := h; Body := Body m |}
        end
    | Some 1%nat =>
        match decode_string (enter "body") v (Body m) with
        | inl err => inl err
        | inr s => inr {| Headers := Headers m; Body := s |}
        end
    | _ => inr m
    end
|}.

(** [json.Marshal(m)] and [json.Unmarshal(data, &m)] with [var m
    pubsubMessage], by the field tags at README.md:43-50. *)
#[global] Instance pubsubMessage_json : EnvelopeJSON := {|
  envelope_Marshal m :=
    inr (render (Object [("headers", Object [("type", Str (Type_ (Headers m)))]);
                         ("body", Str (Body m))]));
  envelope_Unmarshal data :=
    Unmarshal_struct set_pubsubMessage data
      {| Headers := {| Type_ := EmptyString |}; Body := EmptyString |}
|}.

End Envelope.

(** ** The message types of the service template *)

(** internal/messenger/inbound/webhook/webhook.go *)
Module Webhook.

Import JSON Decode.

Record WebhookPayload : Type := mkWebhookPayload {
  Type_ : string;                          (* `json:"type"` *)
  Data : option (gmap string any)          (* `json:"data"` *)
}.

Record message : Type := mkMessage {
  Headers : option (gmap string string);   (* `json:"-"` *)
  Payload : WebhookPayload;                (* `json:"payload"` *)
  RawPayload : string                      (* `json:"-"` *)
}.

(** [return &message{}] *)
Definition zero : message :=
  {| Headers := None;
     Payload := {| Type_ := EmptyString; Data := None |};
     RawPayload := EmptyString |}.

Definition Queue (m : message) : string := "bootstrap-go-service.webhook".
Definition Identifier (m : message) : string := "webhook".

(** [message] has no [MarshalJSON]: the encoder goes by the field tags. *)
Definition Marshal (m : message) : Error + string :=
  match encode_map_any (Data (Payload m)) with
  | inl err => inl err
  | inr data =>
      inr (render (Object [("payload",
                            Object [("type", Str (Type_ (Payload m))); ("data", data)])]))
  end.

Definition set_WebhookPayload : setter WebhookPayload := {|
  go_name := "WebhookPayload";
  go_type := "webhook.WebhookPayload";
  set_field enter key v p :=
    match field_index ["type"; "data"] key with
    | Some O =>
        match decode_string (enter "type") v (Type_ p) with
        | inl err => inl err
        | inr s => inr {| Type_ := s; Data := Data p |}
        end
    | Some 1%nat =>
        match decode_map_any (enter "data") v (Data p) with
        | inl err => inl err
        | inr d => inr {| Type_ := Type_ p; Data := d |}
        end
    | _ => inr p
    end
|}.

(** The local [body] of [UnmarshalJSON]. *)
Record body : Type := mkBody {
  body_Headers : option (gmap string string);   (* `json:"headers"` *)
  body_Payload : string                          (* `json:"payload"` *)
}.

(** The tag of a field as [reflect] prints it within a struct type. *)
Definition tag (name : string) : string :=
  String quote ("json:" +:+ String backslash (String quote (name +:+
    String backslash (String quote (String quote EmptyString))))).

(** The struct has no name. *)
Definition set_body : setter body := {|
  go_name := EmptyString;
  go_type := "struct { Headers map[string]string " +:+ tag "headers" +:+
             "; Payload string " +:+ tag "payload" +:+ " }";
  set_field enter key v b :=
    match field_index ["headers"; "payload"] key with
    | Some O =>
        match decode_map_string (enter "headers") v (body_Headers b) with
        | inl err => inl err
        | inr h => inr {| body_Headers := h; body_Payload := body_Payload b |}
        end
    | Some 1%nat =>
        match decode_string (enter "payload") v (body_Payload b) with
        | inl err => inl err
        | inr s => inr {| body_Headers := body_Headers b; body_Payload := s |}
        end
    | _ => inr b
    end
|}.

(** webhook.go, [func (m *message) UnmarshalJSON(data []byte) error] *)
Definition UnmarshalJSON (data : string) (m : message) : Error + message :=
  match Unmarshal_struct set_body data
          {| body_Headers := None; body_Payload := EmptyString |} with
  | inl err => inl err
  | inr b =>
      match Unmarshal_struct set_WebhookPayload (body_Payload b) (Payload m) with
      | inl err => inl err
      | inr p =>
          inr {| Headers := body_Headers b; Payload := p; RawPayload := body_Payload b |}
      end
  end.

End Webhook.

(** [eventMessage] of package [action] *)
Module Action.

Import JSON Decode.

Record eventMessage : Type := mkEventMessage {
  Type_ : string;                          (* `json:"type"` *)
  Data : option (gmap string any);         (* `json:"data"` *)
  queue : string                           (* not exported: no JSON *)
}.

Definition Queue (m : eventMessage) : string := queue m.
Definition Identifier (m : eventMessage) : string := "event".

Definition Marshal (m : eventMessage) : Error + string :=
  match encode_map_any (Data m) with
  | inl err => inl err
  | inr data => inr (render (Object [("type", Str (Type_ m)); ("data", data)]))
  end.

Definition set_eventMessage : setter eventMessage := {|
  go_name := "eventMessage";
  go_type := "action.eventMessage";
  set_field enter key v m :=
    match field_index ["type"; "data"] key with
    | Some O =>
        match decode_string (enter "type") v (Type_ m) with
        | inl err => inl err
        | inr s => inr {| Type_ := s; Data := Data m; queue := queue m |}
        end
    | Some 1%nat =>
        match decode_map_any (enter "data") v (Data m) with
        | inl err => inl err
        | inr d => inr {| Type_ := Type_ m; Data := d; queue := queue m |}
        end
    | _ => inr m
    end
|}.

Definition Unmarshal (data : string) (m : eventMessage) : Error + eventMessage :=
  Unmarshal_struct set_eventMessage data m.

End Action.

(** The values behind the [Message] interface in the service template; a
    target takes the text by the rules of its own type. *)
Inductive TemplateMessage : Type :=
| WebhookMessage (m : Webhook.message)
| EventMessage (m : Action.eventMessage).

#[global] Instance TemplateMessage_Message : Message TemplateMessage := {|
  Identifier msg :=
    match msg with
    | WebhookMessage m => Webhook.Identifier m
    | EventMessage m => Action.Identifier m
    end;
  Queue msg :=
    match msg with
    | WebhookMessage m => Webhook.Queue m
    | EventMessage m => Action.Queue m
    end;
  json_Marshal msg :=
    match msg with
    | WebhookMessage m => Webhook.Marshal m
    | EventMessage m => Action.Marshal m
    end;
  json_Unmarshal data target :=
    match target with
    | WebhookMessage m =>
        match Webhook.UnmarshalJSON data m with
        | inl err => inl err
        | inr m => inr (WebhookMessage m)
        end
    | EventMessage m =>
        match Action.Unmarshal data m with
        | inl err => inl err
        | inr m => inr (EventMessage m)
        end
    end
|}.


(** ** Test doubles

    An adapter and handlers that record how they are called, and an
    in-memory broker behind the client library with injected faults.  They
    give the statements below concrete runs. *)

Module Spy.

Section Recording.

Context {Msg : Type} `{Message Msg}.

(** One blocking call of the adapter's [Subscribe]: the envelopes it hands
    to the callback, whether shutdown is requested meanwhile, how long it
    blocks, and what it returns. *)
Record run : Type := mkRun {
  deliveries : list adapterMessage;
  shutdown : bool;
  elapsed : Z;
  result : option Error
}.

Record state : Type := mkState {
  subscribed : list (string * Z);          (* queue and time of each Subscribe *)
  dispatched : list adapterMessage;
  handled : list (string * Msg);           (* handler name and message *)
  answers : list (option Error);           (* what the callback returned *)
  script : list run
}.

Definition initial (runs : list run) : state :=
  {| subscribed := []; dispatched := []; handled := []; answers := []; script := runs |}.

Definition world (runs : list run) : World state :=
  {| w_shutdown := newGracefulShutdown; w_now := 0; w_ext := initial runs |}.

Definition update (f : state -> state) (w : World state) : World state :=
  {| w_shutdown := w_shutdown w; w_now := w_now w; w_ext := f (w_ext w) |}.

Definition log_subscribed (queue : string) (now : Z) (s : state) : state :=
  {| subscribed := subscribed s ++ [(queue, now)]; dispatched := dispatched s;
     handled := handled s; answers := answers s; script := script s |}.

Definition log_dispatched (a : adapterMessage) (s : state) : state :=
  {| subscribed := subscribed s; dispatched := dispatched s ++ [a];
     handled := handled s; answers := answers s; script := script s |}.

Definition log_handled (name : string) (msg : Msg) (s : state) : state :=
  {| subscribed := subscribed s; dispatched := dispatched s;
     handled := handled s ++ [(name, msg)]; answers := answers s; script := script s |}.

Definition log_answer (answer : option Error) (s : state) : state :=
  {| subscribed := subscribed s; dispatched := dispatched s;
     handled := handled s; answers := answers s ++ [answer]; script := script s |}.

Definition next_run (s : state) : state :=
  {| subscribed := subscribed s; dispatched := dispatched s;
     handled := handled s; answers := answers s; script := tail (script s) |}.

(** A handler that records the message it is given and answers [answer]. *)
Definition handler (name : string) (prototype : Msg) (answer : option Error)
  : MessageHandler Msg state :=
  {| handler_Message := prototype;
     handler_Handle msg w := (answer, update (log_handled name msg) w) |}.

Definition deliver (h : handleMessageFn state) (w : World state) (a : adapterMessage)
  : World state :=
  let '(answer, w) := h a w in update (log_answer answer) w.

(** The adapter: [Dispatch] records the envelope; [Subscribe] records the
    queue and plays the next run of the script (with none left it returns
    [nil] at once). *)
Definition spy_Dispatch (a : adapterMessage) (w : World state)
  : option Error * World state :=
  (None, update (log_dispatched a) w).

Definition spy_Subscribe (queue : string) (h : handleMessageFn state) (ctx : Context)
    (w : World state) : option Error * World state :=
  let w := update (log_subscribed queue (w_now w)) w in
  match script (w_ext w) with
  | [] => (None, w)
  | r :: _ =>
      let w := foldl (deliver h) (update next_run w) (deliveries r) in
      (result r,
       {| w_shutdown := if shutdown r then gs_cancel_all (w_shutdown w) else w_shutdown w;
          w_now := w_now w + elapsed r;
          w_ext := w_ext w |})
  end.

Definition spy : adapter state :=
  {| adapter_Dispatch := spy_Dispatch; adapter_Subscribe := spy_Subscribe |}.

End Recording.

Arguments state : clear implicits.

End Spy.

(** An in-memory Pub/Sub service behind the client library. *)
Module FakeBroker.

Import Pubsub.

Inductive call : Type :=
| Setenv (key val : string)
| NewClient (project : string)
| TopicExists (id : string)
| CreateTopic (id : string)
| SubExists (id : string)
| CreateSubscription (id topic : string)
| Update (id : string) (cfg : SubscriptionConfigToUpdate)
| Publish (topic data : string)
| Receive (id : string).

Record state : Type := mkState {
  topics : gset string;
  subscriptions : gmap string string;               (* subscription, its topic *)
  policies : gmap string SubscriptionConfigToUpdate;
  backlog : list (string * pubsub_Message);         (* subscription, message *)
  acks : list (string * list AckCall);              (* message ID, calls on it *)
  seen : list adapterMessage;                       (* what the consumer was given *)
  calls : list call;
  fault : call -> option Error                      (* calls made to fail *)
}.

Definition no_fault : call -> option Error := fun _ => None.

Definition empty (f : call -> option Error) : state :=
  {| topics := ∅; subscriptions := ∅; policies := ∅; backlog := []; acks := [];
     seen := []; calls := []; fault := f |}.

Definition log (c : call) (s : state) : state :=
  {| topics := topics s; subscriptions := subscriptions s; policies := policies s;
     backlog := backlog s; acks := acks s; seen := seen s;
     calls := calls s ++ [c]; fault := fault s |}.

Definition with_topic (id : string) (s : state) : state :=
  {| topics := {[id]} ∪ topics s; subscriptions := subscriptions s;
     policies := policies s; backlog := backlog s; acks := acks s; seen := seen s;
     calls := calls s; fault := fault s |}.

Definition with_subscription (id topic : string) (s : state) : state :=
  {| topics := topics s; subscriptions := <[id := topic]> (subscriptions s);
     policies := policies s; backlog := backlog s; acks := acks s; seen := seen s;
     calls := calls s; fault := fault s |}.

Definition with_policy (id : string) (cfg : SubscriptionConfigToUpdate) (s : state)
  : state :=
  {| topics := topics s; subscriptions := subscriptions s;
     policies := <[id := cfg]> (policies s); backlog := backlog s; acks := acks s;
     seen := seen s; calls := calls s; fault := fault s |}.

Definition with_backlog (b : list (string * pubsub_Message)) (s : state) : state :=
  {| topics := topics s; subscriptions := subscriptions s; policies := policies s;
     backlog := b; acks := acks s; seen := seen s; calls := calls s; fault := fault s |}.

Definition with_ack (id : string) (a : list AckCall) (s : state) : state :=
  {| topics := topics s; subscriptions := subscriptions s; policies := policies s;
     backlog := backlog s; acks := acks s ++ [(id, a)]; seen := seen s;
     calls := calls s; fault := fault s |}.

Definition with_seen (a : adapterMessage) (s : state) : state :=
  {| topics := topics s; subscriptions := subscriptions s; policies := policies s;
     backlog := backlog s; acks := acks s; seen := seen s ++ [a];
     calls := calls s; fault := fault s |}.

Definition NotFound : Error := pubsub_Error "rpc error: code = NotFound".
Definition AlreadyExists : Error := pubsub_Error "rpc error: code = AlreadyExists".
Definition Unavailable : Error := pubsub_Error "rpc error: code = Unavailable".
Definition PermissionDenied : Error := pubsub_Error "rpc error: code = PermissionDenied".

(** The subscriptions bound to a topic, in the order of their names. *)
Definition subscribers (topic : string) (s : state) : list string :=
  omap (fun kv => if decide (kv.2 = topic) then Some kv.1 else None)
       (Decode.sorted_entries (subscriptions s)).

(** The broker is one part of the state [S] that the callbacks work on;
    [get] and [put] read and write that part. *)
Section On.

Context {S : Type} (get : S -> state) (put : state -> S -> S).

(** A call is recorded, fails if a fault is injected for it, and otherwise
    does [ok]. *)
Definition rpc {A : Type} (c : call) (failed : Error -> A) (ok : state -> A * state)
    (s : S) : A * S :=
  let b := log c (get s) in
  match fault b c with
  | Some err => (failed err, put b s)
  | None => let '(a, b) := ok b in (a, put b s)
  end.

(** One message of the backlog goes to the callback; it leaves the backlog
    when the callback acknowledged it. *)
Definition hand_over (id : string) (cb : pubsub_Message -> S -> list AckCall * S)
    (s : S) (msg : pubsub_Message) : S :=
  let '(a, s) := cb msg s in
  let b := with_ack (ID msg) a (get s) in
  match a with
  | Ack :: _ => put b s
  | _ => put (with_backlog (backlog b ++ [(id, msg)]) b) s
  end.

Definition receive (sub : Subscription) (cb : pubsub_Message -> S -> list AckCall * S)
    (s : S) : option Error * S :=
  let b := log (Receive (sub_ID sub)) (get s) in
  match fault b (Receive (sub_ID sub)) with
  | Some err => (Some err, put b s)
  | None =>
      if decide (is_Some (subscriptions b !! sub_ID sub)) then
        let mine := filter (fun im => im.1 = sub_ID sub) (backlog b) in
        let others := filter (fun im => im.1 <> sub_ID sub) (backlog b) in
        (None, foldl (hand_over (sub_ID sub) cb) (put (with_backlog others b) s)
                     (map snd mine))
      else (Some NotFound, put b s)
  end.

Definition client_on : PubsubClient S := {|
  os_Setenv key val s := put (log (Setenv key val) (get s)) s;
  pubsub_NewClient project := rpc (NewClient project) Some (fun b => (None, b));
  topic_Exists t :=
    rpc (TopicExists (topic_ID t)) (fun err => (false, Some err))
        (fun b => ((bool_decide (topic_ID t ∈ topics b), None), b));
  client_CreateTopic id :=
    rpc (CreateTopic id) Some
        (fun b => if decide (id ∈ topics b) then (Some AlreadyExists, b)
                  else (None, with_topic id b));
  sub_Exists sub :=
    rpc (SubExists (sub_ID sub)) (fun err => (false, Some err))
        (fun b => ((bool_decide (is_Some (subscriptions b !! sub_ID sub)), None), b));
  client_CreateSubscription id t :=
    rpc (CreateSubscription id (topic_ID t)) Some
        (fun b => if decide (is_Some (subscriptions b !! id)) then (Some AlreadyExists, b)
                  else if decide (topic_ID t ∈ topics b)
                       then (None, with_subscription id (topic_ID t) b)
                       else (Some NotFound, b));
  sub_Update sub cfg :=
    rpc (Update (sub_ID sub) cfg) Some
        (fun b => if decide (is_Some (subscriptions b !! sub_ID sub))
                  then (None, with_policy (sub_ID sub) cfg b)
                  else (Some NotFound, b));
  topic_Publish t data :=
    rpc (Publish (topic_ID t) data) Some
        (fun b => if decide (topic_ID t ∈ topics b)
                  then (None,
                        with_backlog
                          (backlog b ++
                             map (fun id => (id, {| ID := pretty (length (backlog b));
                                                    Data := data |}))
                                 (subscribers (topic_ID t) b)) b)
                  else (Some NotFound, b));
  sub_Receive sub ctx cb := receive sub cb
|}.

End On.

(** The broker on its own. *)
#[global] Instance client : PubsubClient state :=
  client_on (fun b => b) (fun b _ => b).

(** A consumer that records the envelope and answers by [answer]. *)
Definition consumer (answer : adapterMessage -> option Error) (a : adapterMessage)
    (s : state) : option Error * state :=
  (answer a, with_seen a s).

(** The adapter as [New] configures it for the environment [dev], before
    any call. *)
Definition fresh : pubsubAdapter :=
  {| config := {| Emulator := EmptyString; Project := "shop";
                  DeadLetterTopic := "dev.bootstrap-go-service.dead" |};
     Pubsub.topics := ∅ |}.

(** The same without a dead-letter topic. *)
Definition plain : pubsubAdapter :=
  {| config := {| Emulator := EmptyString; Project := "shop";
                  DeadLetterTopic := EmptyString |};
     Pubsub.topics := ∅ |}.

Definition order_envelope : adapterMessage :=
  {| am_Queue := "dev.orders"; am_Identifier := "event";
     am_Body := JSON.render (JSON.Object [("type", JSON.Str "order.created");
                                          ("data", JSON.Null)]) |}.

(** A broker on which the topic and the subscription of the queue
    [dev.orders] are there already. *)
Definition provisioned (f : call -> option Error) : state :=
  with_subscription "dev.orders" "dev.orders" (with_topic "dev.orders" (empty f)).

Definition fail_SubExists (c : call) : option Error :=
  match c with SubExists _ => Some Unavailable | _ => None end.

Definition fail_CreateSubscription (c : call) : option Error :=
  match c with CreateSubscription _ _ => Some PermissionDenied | _ => None end.

Definition fail_CreateTopic (c : call) : option Error :=
  match c with CreateTopic _ => Some PermissionDenied | _ => None end.

(** A text that is not an envelope. *)
Definition malformed : string := "not json".

(** The broker after provisioning for [dev.orders] (without dead-letter
    topic), a publish of [order_envelope], of an envelope for which the
    consumer fails, and of a malformed text. *)
Definition rejected_envelope : adapterMessage :=
  {| am_Queue := "dev.orders"; am_Identifier := "unknown"; am_Body := "{}" |}.

Definition answer_by_type (a : adapterMessage) : option Error :=
  if decide (am_Identifier a = "event") then None
  else Some (errors_New ("no handler found for message " +:+ am_Identifier a)).

Definition three_messages : option (option Error * pubsubAdapter * state) :=
  match Pubsub.Subscribe 2 plain "dev.orders" (consumer answer_by_type) O
          (empty no_fault) with
  | Some (_, p, s) =>
      let '(_, p, s) := Pubsub.Dispatch p order_envelope s in
      let '(_, p, s) := Pubsub.Dispatch p rejected_envelope s in
      let '(_, s) := topic_Publish (client_Topic p "dev.orders") malformed s in
      Pubsub.Subscribe 2 p "dev.orders" (consumer answer_by_type) O s
  | None => None
  end.

(** The text of an envelope on the wire. *)
Definition wire (a : adapterMessage) : string :=
  JSON.render (JSON.Object [("headers", JSON.Object [("type", JSON.Str (am_Identifier a))]);
                            ("body", JSON.Str (am_Body a))]).

(** The broker with the topic and the subscription of [dev.orders], on
    which three messages wait: an event, an envelope for which the consumer
    fails, and a malformed text. *)
Definition waiting : state :=
  with_backlog
    [("dev.orders", {| ID := "0"; Data := wire order_envelope |});
     ("dev.orders", {| ID := "1"; Data := wire rejected_envelope |});
     ("dev.orders", {| ID := "2"; Data := malformed |})]
    (provisioned no_fault).

(** What a run of the adapter's [Subscribe] shows from outside: the error
    it returned, the calls the broker got and the subscriptions that are
    there at the end. *)
Definition outcome (r : option (option Error * pubsubAdapter * state))
  : option (option Error * list call * list (string * string)) :=
  match r with
  | Some (err, _, s) => Some (err, calls s, map_to_list (subscriptions s))
  | None => None
  end.

(** "Publish creates the topic if absent", read on this broker: after
    [Dispatch], on a broker without faults, the topic of the envelope's
    queue is there. *)
Definition Dispatch_creates_topic : Prop :=
  forall (p : pubsubAdapter) (msg : adapterMessage) (s : state),
    (forall c, fault s c = None) ->
    am_Queue msg ∈ topics (Pubsub.Dispatch p msg s).2.

End FakeBroker.

(** ** messenger.go: New, and the orchestrator on the Pub/Sub adapter *)

Module Service.

Section Service.

Context {Msg : Type} `{Message Msg}.

(** What the process holds: the [pubsubAdapter] that the messenger points
    to, the broker it talks to, and the messages its handlers were given. *)
Record state : Type := mkState {
  pubsub : Pubsub.pubsubAdapter;
  broker : FakeBroker.state;
  handled : list (string * Msg)
}.

Definition get_broker (w : World state) : FakeBroker.state := broker (w_ext w).

Definition put_broker (b : FakeBroker.state) (w : World state) : World state :=
  {| w_shutdown := w_shutdown w; w_now := w_now w;
     w_ext := {| pubsub := pubsub (w_ext w); broker := b; handled := handled (w_ext w) |} |}.

Definition put_pubsub (p : Pubsub.pubsubAdapter) (w : World state) : World state :=
  {| w_shutdown := w_shutdown w; w_now := w_now w;
     w_ext := {| pubsub := p; broker := broker (w_ext w); handled := handled (w_ext w) |} |}.

Definition log_handled (name : string) (msg : Msg) (w : World state) : World state :=
  {| w_shutdown := w_shutdown w; w_now := w_now w;
     w_ext := {| pubsub := pubsub (w_ext w); broker := broker (w_ext w);
                 handled := handled (w_ext w) ++ [(name, msg)] |} |}.

#[local] Instance client : Pubsub.PubsubClient (World state) :=
  FakeBroker.client_on get_broker put_broker.

(** The [adapter] interface as [*Pubsub.pubsubAdapter] implements it.  Two levels
    of recursion are all that [subscription] uses, so the last case is
    never taken. *)
Definition pubsub_adapter : adapter state :=
  {| adapter_Dispatch a w :=
       let '(err, p, w) := Pubsub.Dispatch (pubsub (w_ext w)) a w in
       (err, put_pubsub p w);
     adapter_Subscribe queue h ctx w :=
       match Pubsub.Subscribe 2 (pubsub (w_ext w)) queue h ctx w with
       | Some (err, p, w) => (err, put_pubsub p w)
       | None => (None, w)
       end |}.

Record Config : Type := mkConfig {
  Config_Environment : string;
  Config_RestartTimeout : Z;
  Config_PubsubConfig : Pubsub.PubsubConfig
}.

(** messenger.go:49; [None] is the exit of the process at [c.Log.Fatal]. *)
Definition New (c : Config) (w : World state) : option (messenger state) * World state :=
  let pc := {| Pubsub.Emulator := Pubsub.Emulator (Config_PubsubConfig c);
               Pubsub.Project := Pubsub.Project (Config_PubsubConfig c);
               Pubsub.DeadLetterTopic :=
                 Config_Environment c +:+ "." +:+
                 Pubsub.DeadLetterTopic (Config_PubsubConfig c) |} in
  match Pubsub.newPubsubAdapter pc w with
  | (inl err, w) => (None, w)
  | (inr a, w) =>
      (Some {| Environment := Config_Environment c;
               RestartTimeout := Config_RestartTimeout c;
               m_adapter := pubsub_adapter |},
       put_pubsub a w)
  end.

(** A handler that records the message it is given and answers [answer]. *)
Definition handler (name : string) (prototype : Msg) (answer : option Error)
  : MessageHandler Msg state :=
  {| handler_Message := prototype;
     handler_Handle msg w := (answer, log_handled name msg w) |}.

(** The process at start: no adapter yet, an empty broker. *)
Definition boot (f : FakeBroker.call -> option Error) : World state :=
  {| w_shutdown := newGracefulShutdown; w_now := 0;
     w_ext := {| pubsub := {| Pubsub.config := {| Pubsub.Emulator := EmptyString;
                                                   Pubsub.Project := EmptyString;
                                                   Pubsub.DeadLetterTopic := EmptyString |};
                              Pubsub.topics := ∅ |};
                 broker := FakeBroker.empty f;
                 handled := [] |} |}.

(** One session: start the messenger, subscribe (which provisions the
    broker and finds nothing to receive), dispatch [msg], subscribe
    again. *)
Definition session (c : Config) (h : list (MessageHandler Msg state)) (msg : Msg)
    (f : FakeBroker.call -> option Error) : option (option Error * World state) :=
  match New c (boot f) with
  | (None, _) => None
  | (Some m, w) =>
      match Subscribe 0 m h w with
      | Some (None, w) =>
          match Dispatch m msg w with
          | (None, w) => Subscribe 0 m h w
          | (Some err, w) => Some (Some err, w)
          end
      | r => r
      end
  end.

End Service.

Arguments state : clear implicits.

End Service.

(** ** Runs of the orchestrator against the recording adapter *)

Module Scenario.

Definition Spied : Type := Spy.state TemplateMessage.

Definition dev (timeout : Z) : messenger Spied :=
  {| Environment := "dev"; RestartTimeout := timeout; m_adapter := Spy.spy |}.

(** What [PublishEvent] builds. *)
Definition event (type queue : string) : TemplateMessage :=
  EventMessage {| Action.Type_ := type; Action.Data := None; Action.queue := queue |}.

Definition webhook (type : string) : TemplateMessage :=
  WebhookMessage
    {| Webhook.Headers := None;
       Webhook.Payload := {| Webhook.Type_ := type; Webhook.Data := None |};
       Webhook.RawPayload := EmptyString |}.

(** A handler whose [Message()] is [&eventMessage{}]: its queue is empty. *)
Definition eventHandler : MessageHandler TemplateMessage Spied :=
  Spy.handler "event" (event EmptyString EmptyString) None.

(** The handler of package [webhook]: [Message()] is [&message{}]. *)
Definition webhookHandler : MessageHandler TemplateMessage Spied :=
  Spy.handler "webhook" (WebhookMessage Webhook.zero) None.

(** A handler for events of the queue [orders]. *)
Definition ordersHandler : MessageHandler TemplateMessage Spied :=
  Spy.handler "orders" (event EmptyString "orders") None.

(** A run in which the broker connection fails, and one that ends because
    shutdown was requested. *)
Definition failing_run : Spy.run :=
  {| Spy.deliveries := []; Spy.shutdown := false; Spy.elapsed := 7;
     Spy.result := Some (pubsub_Error "rpc error: code = Unavailable") |}.

Definition cancelled_run : Spy.run :=
  {| Spy.deliveries := []; Spy.shutdown := true; Spy.elapsed := 3;
     Spy.result := Some context_Canceled |}.

(** The configuration of the template's [createMessenger], against the
    emulator. *)
Definition test_config : Service.Config :=
  {| Service.Config_Environment := "test";
     Service.Config_RestartTimeout := 10 * Pubsub.Second;
     Service.Config_PubsubConfig :=
       {| Pubsub.Emulator := "localhost:8085"; Pubsub.Project := EmptyString;
          Pubsub.DeadLetterTopic := "bootstrap-go-service.dead" |} |}.

(** The two handlers on the process of [Service]; the one for events is for
    the queue of the webhook handler, so that they can subscribe together. *)
Definition service_handlers
  : list (MessageHandler TemplateMessage (Service.state TemplateMessage)) :=
  [Service.handler "webhook" (WebhookMessage Webhook.zero) None;
   Service.handler "event" (event EmptyString "bootstrap-go-service.webhook") None].

(** What a session shows at its end: the error, the messages handled, the
    acknowledgements, the texts published, the messages still waiting and
    the counter of the wait group. *)
Definition report (r : option (option Error * World (Service.state TemplateMessage)))
  : option (option Error * list (string * TemplateMessage)
            * list (string * list Pubsub.AckCall) * list (string * string)
            * list string * Z) :=
  match r with
  | None => None
  | Some (err, w) =>
      let b := Service.broker (w_ext w) in
      Some (err, Service.handled (w_ext w), FakeBroker.acks b,
            omap (fun c => match c with
                           | FakeBroker.Publish t d => Some (t, d)
                           | _ => None
                           end) (FakeBroker.calls b),
            map (fun im => Pubsub.ID im.2) (FakeBroker.backlog b),
            waitGroup (w_shutdown w))
  end.

(** An adapter that serves one queue name as the recording adapter does
    and refuses every other. *)
Definition only_queue (name : string) : adapter Spied :=
  {| adapter_Dispatch a w :=
       if decide (am_Queue a = name) then Spy.spy_Dispatch a w
       else (Some (pubsub_Error "unexpected queue"), w);
     adapter_Subscribe queue cb ctx w :=
       if decide (queue = name) then Spy.spy_Subscribe queue cb ctx w
       else (Some (pubsub_Error "unexpected queue"), w) |}.

End Scenario.

(** ** Further notions about the orchestrator *)

Section MessengerNotions.

Context {Msg : Type} `{Message Msg} {X : Type}.

(** The handlers from the first one that names a queue on. *)
Fixpoint from_first_queue (h : list (MessageHandler Msg X)) : list (MessageHandler Msg X) :=
  match h with
  | [] => []
  | handler :: rest =>
      if decide (Queue (handler_Message handler) = EmptyString)
      then from_first_queue rest else h
  end.

(** The identifier that a handler stands for. *)
Definition handles (handler : MessageHandler Msg X) : string :=
  Identifier (handler_Message handler).

End MessengerNotions.

(** An adapter whose [Subscribe] fails at once, with an error of the broker,
    whatever it is given. *)
Definition broken_adapter {X : Type} : adapter X :=
  {| adapter_Dispatch a w := (Some (pubsub_Error "rpc error: code = Unavailable"), w);
     adapter_Subscribe queue cb ctx w :=
       (Some (pubsub_Error "rpc error: code = Unavailable"), w) |}.

(** ** The webhook handler (webhook.go, processor.go) *)

Module Inbound.

Section Handler.

Context {X : Type}.

(** The [Processor] interface; [Supports] looks at the type only. *)
Record Processor : Type := mkProcessor {
  Supports : string -> bool;
  Process : Webhook.message -> World X -> option Error * World X
}.

(** The loop of [Handle] over [h.processors], for the asserted message. *)
Fixpoint first_supporting (processors : list Processor) (msg : Webhook.message)
    (w : World X) : option Error * World X :=
  match processors with
  | [] => (None, w)
  | processor :: rest =>
      if Supports processor (Webhook.Type_ (Webhook.Payload msg))
      then Process processor msg w
      else first_supporting rest msg w
  end.

(** [func (h *handler) Handle(m messenger.Message) error]; [None] is the
    panic of the type assertion on a message that is no [*message]. *)
Definition Handle (processors : list Processor) (m : TemplateMessage) (w : World X)
  : option (option Error * World X) :=
  match m with
  | WebhookMessage msg => Some (first_supporting processors msg w)
  | EventMessage _ => None
  end.

(** [NewHandler].  The closure of [Subscribe] gives [Handle] only what it
    decoded into [Message()]; the error in the last case stands for the
    panic, which the closure therefore never meets. *)
Definition NewHandler (processors : list Processor) : MessageHandler TemplateMessage X :=
  {| handler_Message := WebhookMessage Webhook.zero;
     handler_Handle m w :=
       match Handle processors m w with
       | Some r => r
       | None => (Some (errors_New "interface conversion: messenger.Message is not *webhook.message"), w)
       end |}.

End Handler.

Arguments Processor : clear implicits.

End Inbound.

(** ** The event publisher (package action) *)

Module Publisher.

Record Event : Type := mkEvent {
  Type_ : string;                            (* `json:"type"` *)
  Data : option (gmap string Decode.any)     (* `json:"data"` *)
}.

(** The error that [fmt.Errorf] with [%w] makes: its text, and the error it
    wraps. *)
Record wrapError : Type := mkWrapError {
  wrap_text : string;
  wrap_err : Error
}.

(** [func (p *Publisher) PublishEvent(event Event, queue string) error], with
    the messenger that the publisher holds. *)
Definition PublishEvent {X : Type} (m : messenger X) (event : Event) (queue : string)
    (w : World X) : option wrapError * World X :=
  let msg := EventMessage {| Action.Type_ := Type_ event; Action.Data := Data event;
                             Action.queue := queue |} in
  match Dispatch m msg w with
  | (Some err, w) =>
      (Some {| wrap_text := "failed to dispatch event message: " +:+ Error_text err;
               wrap_err := err |}, w)
  | (None, w) => (None, w)
  end.

End Publisher.

(** A processor for the webhooks whose type starts with [order.]; it
    records the message. *)
Definition order_processor : Inbound.Processor (Spy.state TemplateMessage) :=
  {| Inbound.Supports t := String.prefix "order." t;
     Inbound.Process msg w :=
       (None, Spy.update (Spy.log_handled "orders" (WebhookMessage msg)) w) |}.

(** A webhook as it comes in from outside: the payload is a string that
    holds JSON. *)
Definition inbound_webhook (type : string) : string :=
  JSON.render
    (JSON.Object
       [("headers", JSON.Object [("X-Signature", JSON.Str "abc")]);
        ("payload",
         JSON.Str (JSON.render (JSON.Object [("type", JSON.Str type);
                                             ("data", JSON.Null)])))]).

(** ** Conditions on the in-memory broker *)

(** No call is made to fail. *)
Definition healthy (b : FakeBroker.state) : Prop :=
  forall c, FakeBroker.fault b c = None.

(** The handles that the adapter has stored are the client's for their
    names, and their topics are there. *)
Definition stored_topics_exist (p : Pubsub.pubsubAdapter) (b : FakeBroker.state) : Prop :=
  forall queue t, Pubsub.topics p !! queue = Some t ->
    t = Pubsub.client_Topic p queue /\ queue ∈ FakeBroker.topics b.


(** The envelope that the callback of [Subscribe] makes of a message, when
    its text decodes. *)
Definition decoded (queue : string) (msg : Pubsub.pubsub_Message) : option adapterMessage :=
  match Pubsub.envelope_Unmarshal (Pubsub.Data msg) with
  | inl _ => None
  | inr m =>
      Some {| am_Queue := queue; am_Identifier := Pubsub.Type_ (Pubsub.Headers m);
              am_Body := Pubsub.Body m |}
  end.



(** ** Values for the runs of the further properties *)

Module More.

Import Scenario.

(** A messenger on the adapter that always fails. *)
Definition unlucky (timeout : Z) : messenger Spied :=
  {| Environment := "dev"; RestartTimeout := timeout; m_adapter := broken_adapter |}.

(** The inbound webhook of type [order.created], decoded. *)
Definition decoded_webhook : Webhook.message :=
  {| Webhook.Headers := Some {[ "X-Signature" := "abc" ]};
     Webhook.Payload := {| Webhook.Type_ := "order.created"; Webhook.Data := None |};
     Webhook.RawPayload :=
       JSON.render (JSON.Object [("type", JSON.Str "order.created");
                                 ("data", JSON.Null)]) |}.

Definition webhook_envelope (type : string) : adapterMessage :=
  {| am_Queue := "dev.bootstrap-go-service.webhook"; am_Identifier := "webhook";
     am_Body := inbound_webhook type |}.

Definition order_event : Publisher.Event :=
  {| Publisher.Type_ := "order.created"; Publisher.Data := None |}.

(** The adapter after a [Dispatch] to [dev.orders] on an empty broker. *)
Definition after_Dispatch : Pubsub.pubsubAdapter :=
  (Pubsub.Dispatch FakeBroker.plain FakeBroker.order_envelope
     (FakeBroker.empty FakeBroker.no_fault)).1.2.

End More.
(** * Properties of the orchestrator *)

Section MessengerFacts.

Context {Msg : Type} `{Message Msg} {X : Type}.

Implicit Types (m : messenger X) (h : list (MessageHandler Msg X)) (w : World X).

Lemma Subscribe_unfold fuel m h w queue :
  subscribeQueue EmptyString h = inr queue ->
  Subscribe fuel m h w = Subscribe_on fuel m h queue w.
Proof.
  intros Hq. unfold Subscribe_on.
  destruct fuel; simpl; rewrite Hq; reflexivity.
Qed.

Lemma Subscribe_rejected fuel m h w err :
  subscribeQueue EmptyString h = inl err ->
  Subscribe fuel m h w = Some (Some err, w).
Proof. intros Hq. destruct fuel; simpl; rewrite Hq; reflexivity. Qed.

(** The loop returns no error other than [ErrDifferentQueues]. *)
Lemma subscribeQueue_error queue h err :
  subscribeQueue queue h = inl err -> err = ErrDifferentQueues.
Proof.
  revert queue. induction h as [|handler rest IH]; intros queue; simpl.
  - discriminate.
  - repeat case_decide; eauto. congruence.
Qed.

(** Handlers with an empty queue at the head of the list leave the local
    [queue] empty. *)
Lemma subscribeQueue_skip_empty (pre rest : list (MessageHandler Msg X)) :
  Forall (fun handler => Queue (handler_Message handler) = EmptyString) pre ->
  subscribeQueue EmptyString (pre ++ rest) = subscribeQueue EmptyString rest.
Proof.
  induction 1 as [|handler pre Hq _ IH]; [reflexivity|].
  cbn [app subscribeQueue]. destruct (decide (EmptyString = EmptyString)); [|congruence].
  rewrite Hq. exact IH.
Qed.

(** Once [queue] is set, the loop accepts exactly the lists whose handlers
    all name it. *)
Lemma subscribeQueue_set queue h :
  queue <> EmptyString ->
  subscribeQueue queue h =
    if forallb (fun handler => bool_decide (Queue (handler_Message handler) = queue)) h
    then inr queue else inl ErrDifferentQueues.
Proof.
  intros Hne. induction h as [|handler rest IH]; simpl; [reflexivity|].
  rewrite decide_False by assumption.
  case_decide as Hd.
  - rewrite bool_decide_eq_false_2 by congruence. reflexivity.
  - rewrite bool_decide_eq_true_2 by congruence. exact IH.
Qed.

Lemma handleMessage_find h a w :
  handleMessage h a w =
    match matching a h with
    | None => (Some (errors_New ("no handler found for message " +:+ am_Identifier a)), w)
    | Some handler =>
        match json_Unmarshal (am_Body a) (handler_Message handler) with
        | inl err => (Some err, w)
        | inr msg => handler_Handle handler msg w
        end
    end.
Proof.
  unfold matching. induction h as [|handler rest IH]; simpl; [reflexivity|].
  case_decide as Hd.
  - rewrite bool_decide_eq_true_2 by assumption. reflexivity.
  - rewrite bool_decide_eq_false_2 by assumption. exact IH.
Qed.

End MessengerFacts.

(** * What the specification says of the orchestrator *)

Section MessengerSpec.

Context {Msg : Type} `{Message Msg} {X : Type}.

Implicit Types (m : messenger X) (h : list (MessageHandler Msg X)) (w : World X).

(** When the first handler names a queue and a later one names another,
    [Subscribe] returns [ErrDifferentQueues] and leaves the world as it
    found it: nothing was asked of the shutdown coordinator or of the
    adapter. *)
Lemma Subscribe_different_queues fuel m (h1 h2 : MessageHandler Msg X) w :
  Queue (handler_Message h1) <> EmptyString ->
  Queue (handler_Message h1) <> Queue (handler_Message h2) ->
  Subscribe fuel m [h1; h2] w = Some (Some ErrDifferentQueues, w).
Proof.
  intros Hne Hdiff. apply Subscribe_rejected. simpl.
  destruct (decide (EmptyString = EmptyString)); [|congruence].
  rewrite decide_False by assumption. rewrite decide_True by assumption.
  reflexivity.
Qed.

(** C4 (clean cancellation): when the adapter's [Subscribe] returns [nil],
    or the error that the context of this call reports ([ctx.Err()]),
    the orchestrator's [Subscribe] returns [nil], whatever restart timeout
    is configured and with no restart. *)
Theorem clean_cancellation fuel m h w queue ctx w1 err w2 :
  subscribeQueue EmptyString h = inr queue ->
  Shutdown_Add w = (ctx, w1) ->
  adapter_Subscribe (m_adapter m) (prefixQueue m queue) (handleMessage h) ctx w1
    = (err, w2) ->
  err = None \/ err = ctx_Err ctx w2 ->
  Subscribe fuel m h w = Some (None, Shutdown_Done w2).
Proof.
  intros Hq Hadd Hsub Herr.
  rewrite (Subscribe_unfold _ _ _ _ _ Hq). unfold Subscribe_on.
  rewrite Hadd, Hsub.
  destruct Herr as [-> | Herr].
  - reflexivity.
  - rewrite (bool_decide_eq_true_2 (err = ctx_Err ctx w2)) by exact Herr.
    rewrite orb_true_r. reflexivity.
Qed.

(** C5 (restart behaviour): when the adapter's [Subscribe] returns an error
    that is not the context's own, a zero [RestartTimeout] makes
    [Subscribe] return that error; any other makes it sleep for
    [RestartTimeout] (the clock moves by at least that much) and then call
    itself with the same handlers, returning what that call returns.  The
    call it makes passed validation with the same queue, so it goes to the
    adapter again. *)
Theorem restart_behavior fuel m h w queue ctx w1 e w2 :
  subscribeQueue EmptyString h = inr queue ->
  Shutdown_Add w = (ctx, w1) ->
  adapter_Subscribe (m_adapter m) (prefixQueue m queue) (handleMessage h) ctx w1
    = (Some e, w2) ->
  ctx_Err ctx w2 <> Some e ->
  let w3 := time_Sleep (RestartTimeout m) w2 in
  Subscribe (S fuel) m h w =
    (if bool_decide (RestartTimeout m = 0) then Some (Some e, Shutdown_Done w2)
     else match Subscribe fuel m h w3 with
          | Some (r, w') => Some (r, Shutdown_Done w')
          | None => None
          end)
  /\ w_now w2 + RestartTimeout m <= w_now w3
  /\ Subscribe fuel m h w3 = Subscribe_on fuel m h queue w3.
Proof.
  intros Hq Hadd Hsub Hctx w3. split; [|split].
  - rewrite (Subscribe_unfold _ _ _ _ _ Hq). unfold Subscribe_on.
    rewrite Hadd, Hsub.
    rewrite (bool_decide_eq_false_2 (Some e = None)) by discriminate.
    rewrite (bool_decide_eq_false_2 (Some e = ctx_Err ctx w2)) by congruence.
    reflexivity.
  - subst w3. simpl. lia.
  - apply Subscribe_unfold, Hq.
Qed.

(** C6 (routing correctness): the closure scans the handlers for the first
    whose prototype has the identifier of the envelope.  With none, it
    returns the error "no handler found for message <identifier>" and the
    world is untouched (no [Handle] ran).  Otherwise the handler found is
    in the list and has that identifier, and the outcome is the decode
    error with the world untouched, or what the one call of that handler's
    [Handle] on the decoded message gives. *)
Theorem routing_correctness h (a : adapterMessage) w :
  handleMessage h a w =
    match matching a h with
    | None => (Some (errors_New ("no handler found for message " +:+ am_Identifier a)), w)
    | Some handler =>
        match json_Unmarshal (am_Body a) (handler_Message handler) with
        | inl err => (Some err, w)
        | inr msg => handler_Handle handler msg w
        end
    end
  /\ (forall handler, matching a h = Some handler ->
        In handler h /\ Identifier (handler_Message handler) = am_Identifier a)
  /\ (matching a h = None <->
        forall handler, In handler h ->
          Identifier (handler_Message handler) <> am_Identifier a).
Proof.
  split; [apply handleMessage_find|]. unfold matching. split.
  - intros handler Hfind. apply find_some in Hfind as [Hin Hid].
    apply bool_decide_eq_true_1 in Hid. auto.
  - split.
    + intros Hnone handler Hin Hid.
      pose proof (find_none _ _ Hnone handler Hin) as Hf. simpl in Hf.
      apply bool_decide_eq_false_1 in Hf. congruence.
    + intros Hall. destruct (List.find _ h) as [handler|] eqn:Hfind; [|reflexivity].
      apply find_some in Hfind as [Hin Hid].
      apply bool_decide_eq_true_1 in Hid. exfalso. eapply Hall; eauto.
Qed.

(** C10 (an empty queue name is read as "not set"): handlers with an empty
    queue at the head of the list are passed over, so a later handler with
    another queue raises no [ErrDifferentQueues]: the subscription runs on
    that later queue, with all the handlers registered.  With no handler at
    all the subscription runs on the queue named [Environment + "."], and
    its callback rejects every envelope. *)
Theorem empty_queue_bypasses_validation fuel m
    (pre : list (MessageHandler Msg X)) (handler : MessageHandler Msg X)
    (rest : list (MessageHandler Msg X)) w :
  Forall (fun x => Queue (handler_Message x) = EmptyString) pre ->
  Queue (handler_Message handler) <> EmptyString ->
  Forall (fun x => Queue (handler_Message x) = Queue (handler_Message handler)) rest ->
  Subscribe fuel m (pre ++ handler :: rest) w
    = Subscribe_on fuel m (pre ++ handler :: rest) (Queue (handler_Message handler)) w
  /\ Subscribe fuel m [] w = Subscribe_on fuel m [] EmptyString w
  /\ prefixQueue m EmptyString = Environment m +:+ "."
  /\ forall a w', handleMessage (@nil (MessageHandler Msg X)) a w'
       = (Some (errors_New ("no handler found for message " +:+ am_Identifier a)), w').
Proof.
  intros Hpre Hne Hrest. split; [|split; [|split]].
  - apply Subscribe_unfold. rewrite (subscribeQueue_skip_empty _ _ Hpre).
    cbn [subscribeQueue]. destruct (decide (EmptyString = EmptyString)); [|congruence].
    rewrite (subscribeQueue_set _ _ Hne).
    replace (forallb _ rest) with true; [reflexivity|].
    symmetry. apply forallb_forall. intros x Hin.
    apply bool_decide_eq_true_2. rewrite Forall_forall in Hrest.
    apply Hrest. apply list_elem_of_In. exact Hin.
  - apply Subscribe_unfold. reflexivity.
  - reflexivity.
  - reflexivity.
Qed.

(** C1 (round trip), as amended: take a message whose encoding succeeds,
    and handlers among which the first with the identifier of the message
    has a prototype into which that encoding decodes back.  Then [Dispatch]
    hands the adapter the envelope made of the prefixed queue, the
    identifier and the encoding, and the closure of [Subscribe], given that
    envelope, runs [Handle] of that handler, once, on a message equal to
    the original up to the fields that JSON carries. *)
Theorem round_trip m (msg : Msg) (body : string) h (handler : MessageHandler Msg X) w :
  json_Marshal msg = inr body ->
  matching (envelope m msg body) h = Some handler ->
  decodes_back msg (handler_Message handler) ->
  Dispatch m msg w = adapter_Dispatch (m_adapter m) (envelope m msg body) w
  /\ exists msg',
       json_equal msg' msg
       /\ forall w', handleMessage h (envelope m msg body) w'
                    = handler_Handle handler msg' w'.
Proof.
  intros Hbody Hfind Hback. split.
  - unfold Dispatch. rewrite Hbody. reflexivity.
  - destruct (Hback body Hbody) as (msg' & Hdec & Heq).
    exists msg'. split; [exact Heq|]. intros w'.
    rewrite handleMessage_find, Hfind. cbn [envelope am_Body]. rewrite Hdec.
    reflexivity.
Qed.

End MessengerSpec.

(** * Strings in JSON texts *)

Section Strings.

Import UTF8 JSON.


Ltac div_mod_lia :=
  let go := (Z.to_euclidean_division_equations; lia) in
  zify; go.

Lemma byte_bound (c : ascii) : (byte c < 256)%N.
Proof. apply N_ascii_bounded. Qed.

Lemma byte_ascii (c : ascii) (n : N) : n = byte c -> ascii_of_N n = c.
Proof. intros ->. apply ascii_N_embedding. Qed.

Lemma is_ascii_byte (c : ascii) : is_ascii c = false -> (128 <= byte c)%N.
Proof. destruct c as [[] [] [] [] [] [] [] []]; try discriminate; intros _; vm_compute; discriminate. Qed.

Lemma between_spec (lo hi x : N) : between lo hi x = true <-> (lo <= x <= hi)%N.
Proof. unfold between. rewrite andb_true_iff, !N.leb_le. reflexivity. Qed.

Lemma first_spec (b0 : N) (sz : nat) (lo hi : N) :
  first b0 = Some (sz, lo, hi) ->
  (sz = 2%nat /\ 194 <= b0 <= 223 /\ lo = 128 /\ hi = 191
   \/ sz = 3%nat /\ (b0 = 224 /\ lo = 160 /\ hi = 191
                     \/ b0 = 237 /\ lo = 128 /\ hi = 159
                     \/ 225 <= b0 <= 239 /\ b0 <> 237 /\ lo = 128 /\ hi = 191)
   \/ sz = 4%nat /\ (b0 = 240 /\ lo = 144 /\ hi = 191
                     \/ 241 <= b0 <= 243 /\ lo = 128 /\ hi = 191
                     \/ b0 = 244 /\ lo = 128 /\ hi = 143))%N.
Proof.
  unfold first.
  repeat match goal with
         | |- context [(?a <? ?b)%N] => destruct (N.ltb_spec a b)
         | |- context [(?a <=? ?b)%N] => destruct (N.leb_spec a b)
         | |- context [(?a =? ?b)%N] => destruct (N.eqb_spec a b)
         end; intros [= <- <- <-]; lia.
Qed.

Lemma mod_sub (b m k : N) : (m <> 0 -> k * m <= b < (k + 1) * m -> b mod m = b - k * m)%N.
Proof.
  intros Hm Hb. symmetry. apply (N.mod_unique b m k); [lia|lia].
Qed.

Lemma radix64 (a r : N) : (r < 64 -> (a * 64 + r) / 64 = a /\ (a * 64 + r) mod 64 = r)%N.
Proof.
  intros Hr. split.
  - symmetry. apply (N.div_unique _ 64 a r); lia.
  - symmetry. apply (N.mod_unique _ 64 a r); lia.
Qed.

(** The bits of a rune in groups of six. *)
Lemma groups2 (a0 a1 : N) :
  (a1 < 64 ->
   let r := a0 * 64 + a1 in r / 64 = a0 /\ r mod 64 = a1)%N.
Proof. intros H1. apply radix64. exact H1. Qed.

Lemma groups3 (a0 a1 a2 : N) :
  (a1 < 64 -> a2 < 64 ->
   let r := (a0 * 64 + a1) * 64 + a2 in
   r / 4096 = a0 /\ (r / 64) mod 64 = a1 /\ r mod 64 = a2)%N.
Proof.
  intros H1 H2 r. subst r.
  destruct (radix64 (a0 * 64 + a1) a2 H2) as [Hd Hm].
  destruct (radix64 a0 a1 H1) as [Hd1 Hm1].
  split; [|split; [rewrite Hd; exact Hm1 | exact Hm]].
  change 4096%N with (64 * 64)%N. rewrite <- N.Div0.div_div, Hd. exact Hd1.
Qed.

Lemma groups4 (a0 a1 a2 a3 : N) :
  (a1 < 64 -> a2 < 64 -> a3 < 64 ->
   let r := ((a0 * 64 + a1) * 64 + a2) * 64 + a3 in
   r / 262144 = a0 /\ (r / 4096) mod 64 = a1 /\ (r / 64) mod 64 = a2 /\ r mod 64 = a3)%N.
Proof.
  intros H1 H2 H3 r. subst r.
  destruct (radix64 ((a0 * 64 + a1) * 64 + a2) a3 H3) as [Hd Hm].
  destruct (groups3 a0 a1 a2 H1 H2) as (G0 & G1 & G2).
  split; [|split; [|split; [rewrite Hd; exact G2 | exact Hm]]].
  - change 262144%N with (64 * 4096)%N. rewrite <- N.Div0.div_div, Hd. exact G0.
  - change 4096%N with (64 * 64)%N. rewrite <- N.Div0.div_div, Hd. exact G1.
Qed.

Lemma cont_mod (b : N) : (128 <= b <= 191 -> b mod 64 = b - 128 /\ b mod 64 < 64)%N.
Proof.
  intros Hb. rewrite (mod_sub b 64 2) by lia. lia.
Qed.

(** What a well-formed sequence of two to four bytes decodes to is encoded
    as those bytes, and the decoder looks at no byte behind them. *)
Lemma DecodeRune_multi (s : string) (rr : N) (n : nat) :
  DecodeRuneInString s = (rr, n) -> (2 <= n)%nat ->
  exists c0 p rest,
    s = String c0 (p +:+ rest) /\ is_ascii c0 = false
    /\ String.length p = Nat.pred n /\ (n <= 4)%nat
    /\ EncodeRune rr = String c0 p
    /\ forall rest', DecodeRuneInString (String c0 (p +:+ rest')) = (rr, n).
Proof.
  destruct s as [|c0 r]; [intros [= <- <-]; lia|].
  cbn [DecodeRuneInString].
  destruct (is_ascii c0) eqn:Hascii; [intros [= <- <-]; lia|].
  destruct (first (byte c0)) as [[[sz lo] hi]|] eqn:Hfirst; [|intros [= <- <-]; lia].
  destruct r as [|c1 r1]; [intros [= <- <-]; lia|].
  destruct (between lo hi (byte c1)) eqn:H1; [|intros [= <- <-]; lia].
  pose proof (first_spec _ _ _ _ Hfirst) as Hf.
  pose proof (proj1 (between_spec _ _ _) H1) as Hb1.
  pose proof (byte_bound c0) as B0.
  assert (Hsame : forall (X : string),
             DecodeRuneInString (String c0 (String c1 X))
             = match sz, X with
               | 2%nat, _ => ((byte c0 mod 32) * 64 + byte c1 mod 64, 2%nat)%N
               | 3%nat, String c2 _ =>
                   if between 128 191 (byte c2)
                   then (((byte c0 mod 16) * 64 + byte c1 mod 64) * 64 + byte c2 mod 64,
                         3%nat)%N
                   else (RuneError, 1%nat)
               | 4%nat, String c2 (String c3 _) =>
                   if between 128 191 (byte c2) && between 128 191 (byte c3)
                   then ((((byte c0 mod 8) * 64 + byte c1 mod 64) * 64 + byte c2 mod 64) * 64
                         + byte c3 mod 64, 4%nat)%N
                   else (RuneError, 1%nat)
               | _, _ => (RuneError, 1%nat)
               end).
  { intros X. cbn [DecodeRuneInString]. rewrite Hascii, Hfirst, H1. reflexivity. }
  clear Hfirst H1.
  assert (C1 : (byte c1 mod 64 = byte c1 - 128 /\ byte c1 mod 64 < 64)%N)
    by (apply cont_mod; lia).
  destruct C1 as [C1 C1'].
  destruct Hf as [(-> & Hb & -> & ->) | [(-> & Hb) | (-> & Hb)]].
  - intros [= <- <-] _. exists c0, (String c1 EmptyString), r1.
    split; [reflexivity|]. split; [exact Hascii|]. split; [reflexivity|].
    split; [lia|]. split; [|intros rest'; apply Hsame].
    assert (A0 : (byte c0 mod 32 = byte c0 - 192)%N) by (apply (mod_sub _ 32 6); lia).
    destruct (groups2 (byte c0 mod 32) (byte c1 mod 64) C1') as (G0 & G1).
    unfold EncodeRune, bytes, fold_right.
    set (r := ((byte c0 mod 32) * 64 + byte c1 mod 64)%N) in *.
    assert (Hr : (128 <= r <= 2047)%N) by (subst r; lia).
    destruct (N.leb_spec r 127); [lia|].
    destruct (N.leb_spec r 2047); [|lia].
    f_equal; [|f_equal]; apply byte_ascii; lia.
  - destruct r1 as [|c2 r2]; [intros [= <- <-]; lia|].
    destruct (between 128 191 (byte c2)) eqn:H2; [|intros [= <- <-]; lia].
    destruct (cont_mod (byte c2) (proj1 (between_spec _ _ _) H2)) as [C2 C2'].
    pose proof (proj1 (between_spec _ _ _) H2) as Hb2.
    intros [= <- <-] _. exists c0, (String c1 (String c2 EmptyString)), r2.
    split; [reflexivity|]. split; [exact Hascii|]. split; [reflexivity|].
    split; [lia|].
    assert (A0 : (byte c0 mod 16 = byte c0 - 224)%N) by (apply (mod_sub _ 16 14); lia).
    destruct (groups3 (byte c0 mod 16) (byte c1 mod 64) (byte c2 mod 64) C1' C2')
      as (G0 & G1 & G2).
    set (r := (((byte c0 mod 16) * 64 + byte c1 mod 64) * 64 + byte c2 mod 64)%N) in *.
    split.
    + unfold EncodeRune, bytes, fold_right.
      assert (Hr : (2048 <= r <= 65535 /\ ~ (55296 <= r <= 57343))%N).
      { subst r. destruct Hb as [(? & -> & ->)|[(? & -> & ->)|(? & ? & -> & ->)]]; lia. }
      destruct Hr as (Hr1 & Hr2).
      destruct (N.leb_spec r 127); [lia|].
      destruct (N.leb_spec r 2047); [lia|].
      replace ((MaxRune <? r)%N || between 55296 57343 r) with false; cycle 1.
      { symmetry. apply orb_false_iff. split.
        - apply N.ltb_ge. unfold MaxRune. lia.
        - apply not_true_is_false. rewrite between_spec. exact Hr2. }
      destruct (N.leb_spec r 65535); [|lia].
      f_equal; [|f_equal; [|f_equal]]; apply byte_ascii; lia.
    + intros rest'.
      change (DecodeRuneInString (String c0 (String c1 (String c2 rest'))) = (r, 3%nat)).
      rewrite Hsame, H2. reflexivity.
  - destruct r1 as [|c2 [|c3 r3]]; [intros [= <- <-]; lia|intros [= <- <-]; lia|].
    destruct (between 128 191 (byte c2)) eqn:H2; [|intros [= <- <-]; lia].
    destruct (between 128 191 (byte c3)) eqn:H3; [|intros [= <- <-]; lia].
    destruct (cont_mod (byte c2) (proj1 (between_spec _ _ _) H2)) as [C2 C2'].
    destruct (cont_mod (byte c3) (proj1 (between_spec _ _ _) H3)) as [C3 C3'].
    pose proof (proj1 (between_spec _ _ _) H2) as Hb2.
    pose proof (proj1 (between_spec _ _ _) H3) as Hb3.
    intros [= <- <-] _. exists c0, (String c1 (String c2 (String c3 EmptyString))), r3.
    split; [reflexivity|]. split; [exact Hascii|]. split; [reflexivity|].
    split; [lia|].
    assert (A0 : (byte c0 mod 8 = byte c0 - 240)%N) by (apply (mod_sub _ 8 30); lia).
    destruct (groups4 (byte c0 mod 8) (byte c1 mod 64) (byte c2 mod 64) (byte c3 mod 64)
                C1' C2' C3') as (G0 & G1 & G2 & G3).
    set (r := ((((byte c0 mod 8) * 64 + byte c1 mod 64) * 64 + byte c2 mod 64) * 64
               + byte c3 mod 64)%N) in *.
    split.
    + unfold EncodeRune, bytes, fold_right.
      assert (Hr : (65536 <= r <= 1114111)%N).
      { subst r. destruct Hb as [(? & -> & ->)|[(? & -> & ->)|(? & -> & ->)]]; lia. }
      destruct (N.leb_spec r 127); [lia|].
      destruct (N.leb_spec r 2047); [lia|].
      replace ((MaxRune <? r)%N || between 55296 57343 r) with false; cycle 1.
      { symmetry. apply orb_false_iff. split.
        - apply N.ltb_ge. unfold MaxRune. lia.
        - apply not_true_is_false. rewrite between_spec. lia. }
      destruct (N.leb_spec r 65535); [lia|].
      f_equal; [|f_equal; [|f_equal; [|f_equal]]]; apply byte_ascii; lia.
    + intros rest'.
      change (DecodeRuneInString (String c0 (String c1 (String c2 (String c3 rest'))))
              = (r, 4%nat)).
      rewrite Hsame, H2, H3. reflexivity.
Qed.

Lemma append_assoc (a b c : string) : (a +:+ b) +:+ c = a +:+ (b +:+ c).
Proof.
  induction a as [|x a IH]; [reflexivity|].
  change (String x ((a +:+ b) +:+ c) = String x (a +:+ (b +:+ c))).
  f_equal. exact IH.
Qed.

(** The scanner reads back what the encoder wrote for a character below
    U+0080. *)
Lemma scan_escape (c : ascii) (rest : string) :
  is_ascii c = true ->
  scan_string (escape c +:+ rest) = cons_char c (scan_string rest).
Proof. destruct c as [[] [] [] [] [] [] [] []]; try discriminate; reflexivity. Qed.

Lemma scan_string_high (c : ascii) (r : string) :
  is_ascii c = false ->
  scan_string (String c r)
  = match DecodeRuneInString (String c r), r with
    | (rr, 2%nat), String _ r2 => prepend (EncodeRune rr) (scan_string r2)
    | (rr, 3%nat), String _ (String _ r3) => prepend (EncodeRune rr) (scan_string r3)
    | (rr, 4%nat), String _ (String _ (String _ r4)) =>
        prepend (EncodeRune rr) (scan_string r4)
    | (rr, _), _ => prepend (EncodeRune rr) (scan_string r)
    end.
Proof. destruct c as [[] [] [] [] [] [] [] []]; try discriminate; reflexivity. Qed.

Lemma scan_u202x (d : ascii) (rest : string) :
  d = "8"%char \/ d = "9"%char ->
  scan_string (String backslash (String "u" (String "2" (String "0" (String "2"
                 (String d rest))))))
  = prepend (EncodeRune (8224 + (N_of_ascii d - 48))) (scan_string rest).
Proof. intros [-> | ->]; reflexivity. Qed.

(** A well-formed string comes back from the text that the encoder writes
    for it. *)
Lemma scan_escape_string (s rest : string) :
  ValidString s = true ->
  scan_string (escape_string s +:+ String quote rest) = Some (s, rest).
Proof.
  remember (String.length s) as n eqn:Hn.
  assert (Hle : (String.length s <= n)%nat) by lia. clear Hn.
  revert s Hle. induction n as [|n IH]; intros s Hle Hv.
  { destruct s; [reflexivity|cbn in Hle; lia]. }
  destruct s as [|c r]; [reflexivity|].
  cbn [ValidString] in Hv. cbn [escape_string].
  destruct (is_ascii c) eqn:Hascii.
  { rewrite append_assoc, scan_escape by exact Hascii.
    rewrite IH; [reflexivity| cbn in Hle; lia | exact Hv]. }
  destruct (DecodeRuneInString (String c r)) as [rr k] eqn:Hd.
  assert (Hk : (2 <= k)%nat).
  { destruct k as [|[|k]]; [destruct r; discriminate Hv..|lia]. }
  destruct (DecodeRune_multi _ _ _ Hd Hk) as (c0 & p & r' & Hs & _ & Hp & Hk4 & Henc & Hpre).
  injection Hs as <- ->.
  destruct k as [|[|[|[|[|k]]]]]; try lia; clear Hk Hk4.
  - destruct p as [|c1 [|]]; try discriminate Hp.
    change (String c1 EmptyString +:+ r') with (String c1 r') in *.
    change (scan_string (String c (String c1 (escape_string r' +:+ String quote rest)))
            = Some (String c (String c1 r'), rest)).
    rewrite scan_string_high by exact Hascii.
    pose proof (Hpre (escape_string r' +:+ String quote rest)) as Hd'.
    change (String c1 EmptyString +:+ (escape_string r' +:+ String quote rest))
      with (String c1 (escape_string r' +:+ String quote rest)) in Hd'.
    rewrite Hd'.
    rewrite IH; [rewrite Henc; reflexivity | cbn in Hle; lia | exact Hv].
  - destruct p as [|c1 [|c2 [|]]]; try discriminate Hp.
    change (String c1 (String c2 EmptyString) +:+ r') with (String c1 (String c2 r')) in *.
    assert (Hrest : scan_string (escape_string r' +:+ String quote rest) = Some (r', rest)).
    { apply IH; [cbn in Hle; lia | exact Hv]. }
    destruct (N.eqb_spec rr 8232) as [->|_];
      [|destruct (N.eqb_spec rr 8233) as [->|_]].
    + rewrite append_assoc.
      change (String backslash "u2028" +:+ (escape_string r' +:+ String quote rest))
        with (String backslash (String "u" (String "2" (String "0" (String "2"
                (String "8" (escape_string r' +:+ String quote rest))))))).
      rewrite scan_u202x by (left; reflexivity). rewrite Hrest.
      change (8224 + (N_of_ascii "8" - 48))%N with 8232%N. rewrite Henc. reflexivity.
    + rewrite append_assoc.
      change (String backslash "u2029" +:+ (escape_string r' +:+ String quote rest))
        with (String backslash (String "u" (String "2" (String "0" (String "2"
                (String "9" (escape_string r' +:+ String quote rest))))))).
      rewrite scan_u202x by (right; reflexivity). rewrite Hrest.
      change (8224 + (N_of_ascii "9" - 48))%N with 8233%N. rewrite Henc. reflexivity.
    + change (scan_string (String c (String c1 (String c2
                (escape_string r' +:+ String quote rest))))
              = Some (String c (String c1 (String c2 r')), rest)).
      rewrite scan_string_high by exact Hascii.
      pose proof (Hpre (escape_string r' +:+ String quote rest)) as Hd'.
      change (String c1 (String c2 EmptyString) +:+ (escape_string r' +:+ String quote rest))
        with (String c1 (String c2 (escape_string r' +:+ String quote rest))) in Hd'.
      rewrite Hd', Hrest, Henc. reflexivity.
  - destruct p as [|c1 [|c2 [|c3 [|]]]]; try discriminate Hp.
    change (String c1 (String c2 (String c3 EmptyString)) +:+ r')
      with (String c1 (String c2 (String c3 r'))) in *.
    change (scan_string (String c (String c1 (String c2 (String c3
              (escape_string r' +:+ String quote rest)))))
            = Some (String c (String c1 (String c2 (String c3 r'))), rest)).
    rewrite scan_string_high by exact Hascii.
    pose proof (Hpre (escape_string r' +:+ String quote rest)) as Hd'.
    change (String c1 (String c2 (String c3 EmptyString))
            +:+ (escape_string r' +:+ String quote rest))
      with (String c1 (String c2 (String c3 (escape_string r' +:+ String quote rest))))
      in Hd'.
    rewrite Hd'.
    rewrite IH; [rewrite Henc; reflexivity | cbn in Hle; lia | exact Hv].
Qed.

(** The encoder's escapes: backspace, form feed, line feed, [<] and
    U+0001; the separators U+2028 and U+2029, with a two-byte rune copied
    after them; and bytes that are no UTF-8 (0xFF, and the three bytes of
    what would be the surrogate U+D800), each written as U+FFFD. *)
Example escapes :
  escape_string (bytes [8; 12; 10; 60; 1]%N) = "\b\f\n\u003c\u0001"
  /\ escape_string (bytes [226; 128; 168; 226; 128; 169; 195; 169]%N)
     = "\u2028\u2029" +:+ bytes [195; 169]%N
  /\ escape_string (bytes [255; 104; 237; 160; 128]%N) = "\ufffdh\ufffd\ufffd\ufffd".
Proof. vm_compute. repeat split; reflexivity. Qed.

(** The decoder's [unquote]: an escape above U+007F, a surrogate pair, a
    surrogate alone, and a byte that is no UTF-8. *)
Example unquotes :
  scan_string ("\u00e9\ud83d\ude00\ud83d" +:+ bytes [255]%N +:+ String quote "rest")
  = Some (bytes [195; 169; 240; 159; 152; 128; 239; 191; 189; 239; 191; 189]%N, "rest").
Proof. vm_compute. reflexivity. Qed.

End Strings.

(** * Numbers in JSON texts *)

Section Numbers.

Import JSON Float64.

(** The scanner takes a fraction and an exponent, and refuses a leading
    zero, a point without digits and a sign alone. *)
Example number_grammar :
  parse "-12.50e+3" = inr (Number "-12.50e+3")
  /\ parse " 0 " = inr (Number "0")
  /\ parse "1E5" = inr (Number "1E5")
  /\ forallb (fun text => match parse text with inl _ => true | inr _ => false end)
       ["01"; "1."; "-"; ".5"; "1e"; "+1"] = true.
Proof. vm_compute. repeat split; reflexivity. Qed.

(** What the encoder writes for the float64 that a literal is read as:
    the shortest digits, the exponent form from 1e21 on and below 1e-6,
    the nearest float for an integer that is none, and an error for a
    number out of range. *)
Example float_texts :
  map (fun literal => match ParseFloat literal with
                      | Some f => FormatFloat f
                      | None => None
                      end)
      ["7"; "1.25e1"; "0.1"; "100000000000000000000"; "1e21"; "0.000001"; "1e-7";
       "9007199254740993"; "-0"; "0.30000000000000004"; "5e-324"; "1e-400";
       "1.7976931348623157e308"; "1e400"]
  = [Some "7"; Some "12.5"; Some "0.1"; Some "100000000000000000000"; Some "1e+21";
     Some "0.000001"; Some "1e-7"; Some "9007199254740992"; Some "-0";
     Some "0.30000000000000004"; Some "5e-324"; Some "0";
     Some "1.7976931348623157e+308"; None].
Proof. vm_compute. reflexivity. Qed.

End Numbers.

(** * The JSON text of an event *)

Section EventJSON.

Import JSON.

Lemma append_String (x : ascii) (a b : string) : String x a +:+ b = String x (a +:+ b).
Proof. reflexivity. Qed.

Lemma append_empty (b : string) : EmptyString +:+ b = b.
Proof. reflexivity. Qed.

Ltac flatten_appends :=
  repeat (rewrite ?append_assoc, ?append_String, ?append_empty).

Lemma render_event (type : string) :
  render (Object [("type", Str type); ("data", Null)])
  = String "{" (String quote ("type" +:+ String quote (String ":" (String quote
      (escape_string type +:+
       String quote ("," +:+ String quote ("data" +:+ String quote ":null}"))))))).
Proof.
  cbn [render]. unfold render_string.
  change (escape_string "type") with "type".
  change (escape_string "data") with "data".
  flatten_appends. reflexivity.
Qed.

(** The text of an event without data parses to the value it was written
    from. *)
Lemma parse_event (type : string) :
  UTF8.ValidString type = true ->
  parse (render (Object [("type", Str type); ("data", Null)]))
    = inr (Object [("type", Str type); ("data", Null)]).
Proof.
  intros Hvalid. unfold parse. rewrite render_event. flatten_appends.
  cbn [String.length].
  generalize (String.length
                (escape_string type +:+
                 String quote
                   (String "," (String quote (String "d" (String "a" (String "t"
                      (String "a" (String quote ":null}"))))))))).
  intros n. simpl. rewrite scan_escape_string by exact Hvalid. simpl. reflexivity.
Qed.

(** An event without data whose type is well-formed UTF-8 decodes back
    into any [*eventMessage]: the type arrives, the data stay [nil], the
    unexported queue is the target's. *)
Lemma event_decodes_back (type queue : string) (target : Action.eventMessage) :
  UTF8.ValidString type = true ->
  decodes_back (Scenario.event type queue) (EventMessage target).
Proof.
  intros Hvalid body Hbody.
  change (@inr Error string (render (Object [("type", Str type); ("data", Null)]))
          = inr body) in Hbody.
  injection Hbody as <-.
  exists (EventMessage {| Action.Type_ := type; Action.Data := None;
                          Action.queue := Action.queue target |}).
  split; [|reflexivity].
  change (match
            match parse (render (Object [("type", Str type); ("data", Null)])) with
            | inl err => inl err
            | inr v => Decode.decode_struct Action.set_eventMessage None v target
            end
          with
          | inl err => inl err
          | inr m => inr (EventMessage m)
          end
          = @inr Error TemplateMessage
              (EventMessage {| Action.Type_ := type; Action.Data := None;
                               Action.queue := Action.queue target |})).
  rewrite parse_event by exact Hvalid. reflexivity.
Qed.

(** So every such event makes the round trip: the closure, given the
    envelope that [Dispatch] builds for it, runs the first handler for
    events on an event of the same type. *)
Lemma event_round_trip {X : Type} (m : messenger X) (type queue : string)
    (h : list (MessageHandler TemplateMessage X))
    (handler : MessageHandler TemplateMessage X) (target : Action.eventMessage)
    (w : World X) :
  UTF8.ValidString type = true ->
  let body := render (Object [("type", Str type); ("data", Null)]) in
  matching (envelope m (Scenario.event type queue) body) h = Some handler ->
  handler_Message handler = EventMessage target ->
  json_Marshal (Scenario.event type queue) = inr body
  /\ handleMessage h (envelope m (Scenario.event type queue) body) w
     = handler_Handle handler
         (EventMessage {| Action.Type_ := type; Action.Data := None;
                          Action.queue := Action.queue target |}) w.
Proof.
  intros Hvalid body Hfind Htarget. split; [reflexivity|].
  rewrite handleMessage_find, Hfind. cbn [envelope am_Body]. rewrite Htarget.
  destruct (event_decodes_back type queue target Hvalid body eq_refl)
    as (msg' & Hdec & _).
  rewrite Hdec. f_equal.
  change (match
            match parse (render (Object [("type", Str type); ("data", Null)])) with
            | inl err => inl err
            | inr v => Decode.decode_struct Action.set_eventMessage None v target
            end
          with
          | inl err => inl err
          | inr m0 => inr (EventMessage m0)
          end = @inr Error TemplateMessage msg') in Hdec.
  rewrite parse_event in Hdec by exact Hvalid. injection Hdec as <-. reflexivity.
Qed.

End EventJSON.

(** * Runs against the recording adapter *)

Section Runs.

Import Scenario.

(** The encoding of a webhook message is not a text that its own
    [UnmarshalJSON] accepts: [payload] is written as an object and read as
    a string. *)
Lemma webhook_does_not_decode_back :
  json_Marshal (webhook "order.created")
    = inr (JSON.render
             (JSON.Object
                [("payload", JSON.Object [("type", JSON.Str "order.created");
                                          ("data", JSON.Null)])]))
  /\ handleMessage [webhookHandler]
       (envelope (dev 0) (webhook "order.created")
          (JSON.render
             (JSON.Object
                [("payload", JSON.Object [("type", JSON.Str "order.created");
                                          ("data", JSON.Null)])])))
       (Spy.world [])
     = (Some (json_Error
                "json: cannot unmarshal object into Go struct field .payload of type string"),
        Spy.world []).
Proof. split; vm_compute; reflexivity. Qed.

(** The text that [UnmarshalJSON] is written for, with [payload] a string
    that holds JSON, does decode.  Under [data] a number arrives as a
    float64, whatever its literal, and an object as a map. *)
Example webhook_inbound :
  let payload :=
    JSON.render
      (JSON.Object
         [("type", JSON.Str "order.created");
          ("data", JSON.Object
                     [("id", JSON.Number "7");
                      ("total", JSON.Number "1.25e1");
                      ("meta", JSON.Object [("z", JSON.Null); ("a", JSON.Bool true);
                                            ("z", JSON.Array [JSON.Str "x"])])])]) in
  json_Unmarshal
    (JSON.render (JSON.Object [("headers", JSON.Object [("X-Signature", JSON.Str "abc")]);
                               ("payload", JSON.Str payload)]))
    (WebhookMessage Webhook.zero)
  = inr (WebhookMessage
           {| Webhook.Headers := Some {[ "X-Signature" := "abc" ]};
              Webhook.Payload :=
                {| Webhook.Type_ := "order.created";
                   Webhook.Data :=
                     Some {[ "id" :=
                               Decode.any_float64
                                 (S754_finite false 7881299347898368 (-50));
                             "total" :=
                               Decode.any_float64
                                 (S754_finite false 7036874417766400 (-49));
                             "meta" :=
                               Decode.any_map
                                 {[ "a" := Decode.any_bool true;
                                    "z" := Decode.any_slice [Decode.any_string "x"] ]}
                          ]} |};
              Webhook.RawPayload := payload |}).
Proof. vm_compute. reflexivity. Qed.

(** The encoder writes a map in the order of its keys and a float64 with
    the shortest digits that read back as the same number: the data above
    are not written as they came in. *)
Example data_reencoded :
  Decode.encode_map_any
    (Some {[ "id" := Decode.any_float64 (S754_finite false 7881299347898368 (-50));
             "total" := Decode.any_float64 (S754_finite false 7036874417766400 (-49));
             "meta" := Decode.any_map
                         {[ "a" := Decode.any_bool true;
                            "z" := Decode.any_slice [Decode.any_string "x"] ]} ]})
  = inr (JSON.Object
           [("id", JSON.Number "7");
            ("meta", JSON.Object [("a", JSON.Bool true);
                                  ("z", JSON.Array [JSON.Str "x"])]);
            ("total", JSON.Number "12.5")]).
Proof. vm_compute. reflexivity. Qed.

(** C1, as the specification words it, fails on the webhook message of the
    service template: its encoding succeeds, the handler of package
    [webhook] is selected, and the closure returns the decode error without
    running [Handle]. *)
Lemma round_trip_fails_for_webhook :
  ~ round_trip_for_every_message TemplateMessage Spied.
Proof.
  intros Hclaim.
  destruct (Hclaim (dev 0) (webhook "order.created") _ [webhookHandler] webhookHandler
              (Spy.world []) eq_refl eq_refl) as (msg' & Hrun & _).
  vm_compute in Hrun. discriminate Hrun.
Qed.

(** An event of the queue [orders] goes through [Dispatch] and the closure
    to the handler for events and arrives with its type and data; the
    unexported [queue] is the prototype's. *)
Lemma round_trip_witness :
  exists msg',
    json_equal msg' (event "order.created" "orders")
    /\ Spy.handled
         (w_ext (handleMessage [webhookHandler; eventHandler]
                   (envelope (dev 0) (event "order.created" "orders")
                      (JSON.render
                         (JSON.Object [("type", JSON.Str "order.created");
                                       ("data", JSON.Null)])))
                   (Spy.world [])).2)
       = [("event", msg')].
Proof.
  destruct (round_trip (dev 0) (event "order.created" "orders")
              (JSON.render (JSON.Object [("type", JSON.Str "order.created");
                                         ("data", JSON.Null)]))
              [webhookHandler; eventHandler] eventHandler (Spy.world []))
    as (_ & msg' & Heq & Hrun).
  - reflexivity.
  - reflexivity.
  - apply event_decodes_back. reflexivity.
  - exists msg'. split; [exact Heq|]. rewrite Hrun.
    vm_compute. reflexivity.
Defined.

(** With handlers for [webhook] and [event], an envelope of type [event]
    reaches the second handler only, and one of type [C] reaches none. *)
Example routing_by_identifier :
  let hs := [webhookHandler; eventHandler] in
  let body := JSON.render (JSON.Object [("type", JSON.Str "order.created")]) in
  Spy.handled
    (w_ext (handleMessage hs
              {| am_Queue := "dev.orders"; am_Identifier := "event"; am_Body := body |}
              (Spy.world [])).2)
    = [("event", event "order.created" EmptyString)]
  /\ handleMessage hs
       {| am_Queue := "dev.orders"; am_Identifier := "C"; am_Body := body |}
       (Spy.world [])
     = (Some (errors_New "no handler found for message C"), Spy.world []).
Proof. vm_compute. split; reflexivity. Qed.

(** C2 at a failing input: the handler for events (its [Message()] is
    [&eventMessage{}], whose queue is empty) and the webhook handler name
    different queues, yet [Subscribe] raises no [ErrDifferentQueues]: it
    calls the adapter on the webhook queue and returns [nil].  In the other
    order the same two handlers are rejected. *)
Theorem Subscribe_accepts_different_queues :
  Queue (handler_Message eventHandler) <> Queue (handler_Message webhookHandler)
  /\ (exists w',
        Subscribe 0 (dev 0) [eventHandler; webhookHandler] (Spy.world []) = Some (None, w')
        /\ Spy.subscribed (w_ext w') = [("dev.bootstrap-go-service.webhook", 0)])
  /\ Subscribe 0 (dev 0) [webhookHandler; eventHandler] (Spy.world [])
     = Some (Some ErrDifferentQueues, Spy.world []).
Proof.
  split; [|split].
  - vm_compute. discriminate.
  - eexists. split; vm_compute; reflexivity.
  - vm_compute. reflexivity.
Qed.

(** A subscription that ends because shutdown was requested. *)
Lemma clean_cancellation_witness :
  exists w',
    Subscribe 0 (dev (5 * Pubsub.Second)) [ordersHandler] (Spy.world [cancelled_run])
      = Some (None, w')
    /\ Spy.subscribed (w_ext w') = [("dev.orders", 0)]
    /\ waitGroup (w_shutdown w') = 0.
Proof.
  pose (w := Spy.world (Msg := TemplateMessage) [cancelled_run]).
  pose (r := adapter_Subscribe Spy.spy "dev.orders" (handleMessage [ordersHandler])
               (Shutdown_Add w).1 (Shutdown_Add w).2).
  exists (Shutdown_Done r.2). split.
  - apply (clean_cancellation 0 (dev (5 * Pubsub.Second)) [ordersHandler] w "orders"
             (Shutdown_Add w).1 (Shutdown_Add w).2 r.1 r.2).
    + reflexivity.
    + reflexivity.
    + reflexivity.
    + right. vm_compute. reflexivity.
  - split; vm_compute; reflexivity.
Defined.

(** A subscription whose first run fails after 7ns: with a restart timeout
    of 5ns the adapter is called again at 12ns, and that run ends by
    shutdown. *)
Lemma restart_behavior_witness :
  exists w',
    Subscribe 1 (dev 5) [ordersHandler] (Spy.world [failing_run; cancelled_run])
      = Some (None, w')
    /\ Spy.subscribed (w_ext w') = [("dev.orders", 0); ("dev.orders", 12)]
    /\ waitGroup (w_shutdown w') = 0.
Proof.
  pose (w := Spy.world (Msg := TemplateMessage) [failing_run; cancelled_run]).
  pose (r := adapter_Subscribe Spy.spy "dev.orders" (handleMessage [ordersHandler])
               (Shutdown_Add w).1 (Shutdown_Add w).2).
  destruct (restart_behavior 0 (dev 5) [ordersHandler] w "orders"
              (Shutdown_Add w).1 (Shutdown_Add w).2
              (pubsub_Error "rpc error: code = Unavailable") r.2)
    as (Hrun & _ & _).
  - reflexivity.
  - reflexivity.
  - reflexivity.
  - vm_compute. discriminate.
  - fold w. rewrite Hrun. vm_compute. eexists. split; [reflexivity|].
    split; reflexivity.
Defined.

(** The same failure with no restart timeout is returned to the caller. *)
Example no_restart_returns_error :
  exists w',
    Subscribe 0 (dev 0) [ordersHandler] (Spy.world [failing_run; cancelled_run])
      = Some (Some (pubsub_Error "rpc error: code = Unavailable"), w')
    /\ Spy.subscribed (w_ext w') = [("dev.orders", 0)].
Proof. eexists. split; vm_compute; reflexivity. Qed.

(** The handler for events, with its empty queue, ahead of the handler for
    the queue [orders]; and no handler at all. *)
Lemma empty_queue_bypasses_validation_witness :
  (exists w',
     Subscribe 0 (dev 0) [eventHandler; ordersHandler] (Spy.world []) = Some (None, w')
     /\ Spy.subscribed (w_ext w') = [("dev.orders", 0)])
  /\ (exists w',
        Subscribe 0 (dev 0) [] (Spy.world (Msg := TemplateMessage) []) = Some (None, w')
        /\ Spy.subscribed (w_ext w') = [("dev.", 0)]).
Proof.
  destruct (empty_queue_bypasses_validation 0 (dev 0) [eventHandler] ordersHandler []
              (Spy.world []))
    as (Hrun & Hnone & _ & _).
  - repeat constructor.
  - vm_compute. discriminate.
  - constructor.
  - split.
    + change (Subscribe 0 (dev 0) [eventHandler; ordersHandler] (Spy.world [])
              = Subscribe_on 0 (dev 0) [eventHandler; ordersHandler] "orders" (Spy.world []))
        in Hrun.
      rewrite Hrun. eexists. split; vm_compute; reflexivity.
    + rewrite Hnone. eexists. split; vm_compute; reflexivity.
Defined.

End Runs.

(** * Properties of the Pub/Sub adapter *)

Section AdapterFacts.

Import Pubsub.

Context {S : Type} `{PubsubClient S} `{EnvelopeJSON}.

Implicit Types (p : pubsubAdapter) (s : S).

Lemma memo_ok_new (c : PubsubConfig) s p s' :
  newPubsubAdapter c s = (inr p, s') -> memo_ok p.
Proof.
  unfold newPubsubAdapter. intros Hnew queue t Hlook.
  repeat (case_decide || case_match); simplify_eq; simpl in Hlook;
    rewrite lookup_empty in Hlook; discriminate.
Qed.

Lemma memo_ok_memoize p queue : memo_ok p -> memo_ok (memoize p queue).
Proof.
  intros Hok. unfold memoize. destruct (topics p !! queue) eqn:Hq; [exact Hok|].
  intros q t. simpl. destruct (decide (queue = q)) as [->|Hne].
  - rewrite lookup_insert_eq. intros [= <-]. reflexivity.
  - rewrite lookup_insert_ne by exact Hne. apply Hok.
Qed.

Lemma memoize_lookup p queue :
  topics (memoize p queue) !! queue
    = Some (default (client_Topic p queue) (topics p !! queue)).
Proof.
  unfold memoize. destruct (topics p !! queue) eqn:Hq; simpl.
  - exact Hq.
  - apply lookup_insert_eq.
Qed.

Lemma memoize_config p queue : config (memoize p queue) = config p.
Proof. unfold memoize. destruct (topics p !! queue); reflexivity. Qed.

(** [topic] by cases: a stored handle is returned with no call on the
    broker; otherwise the handle comes from the client, the broker is asked
    only when [create] is set, and the handle is stored unless that
    failed. *)
Lemma topic_unfold p queue (create : bool) s :
  topic p queue create s =
    match topics p !! queue with
    | Some t => (inr t, p, s)
    | None =>
        if create then
          match createTopicIfNotExists p (client_Topic p queue) s with
          | (Some err, s') => (inl err, p, s')
          | (None, s') => (inr (client_Topic p queue), memoize p queue, s')
          end
        else (inr (client_Topic p queue), memoize p queue, s)
    end.
Proof.
  unfold topic, memoize. destruct (topics p !! queue) eqn:Hq; [reflexivity|].
  destruct create.
  - destruct (createTopicIfNotExists p (client_Topic p queue) s) as [[err|] s'];
      reflexivity.
  - reflexivity.
Qed.

Lemma topic_result p queue create s r p' s' :
  memo_ok p ->
  topic p queue create s = (r, p', s') ->
  memo_ok p' /\ config p' = config p
  /\ forall t, r = inr t -> t = client_Topic p queue.
Proof.
  intros Hok. rewrite topic_unfold.
  destruct (topics p !! queue) as [t0|] eqn:Hq.
  - intros [= <- <- <-]. repeat split; [exact Hok|]. intros t [= <-]. eauto.
  - destruct create.
    + destruct (createTopicIfNotExists p (client_Topic p queue) s) as [[err|] s1].
      * intros [= <- <- <-]. repeat split; [exact Hok|]. discriminate.
      * intros [= <- <- <-]. split; [apply memo_ok_memoize, Hok|].
        split; [apply memoize_config|]. intros t [= <-]. reflexivity.
    + intros [= <- <- <-]. split; [apply memo_ok_memoize, Hok|].
      split; [apply memoize_config|]. intros t [= <-]. reflexivity.
Qed.

(** The handles that [subscription] returns carry the names it was given. *)
Lemma subscription_result fuel p (sub_name topic_name dl : string) s r p' s' :
  memo_ok p ->
  subscription fuel p sub_name topic_name dl s = Some (r, p', s') ->
  memo_ok p' /\ config p' = config p
  /\ forall sub top, r = inr (sub, top) ->
       sub = client_Subscription p sub_name /\ top = client_Topic p topic_name.
Proof.
  revert p sub_name topic_name dl s r p' s'.
  induction fuel as [|fuel IH]; intros p sub_name topic_name dl s r p' s' Hok;
    [discriminate|].
  cbn [subscription].
  destruct (topic p topic_name true s) as [[rt p1] s1] eqn:Ht.
  destruct (topic_result _ _ _ _ _ _ _ Hok Ht) as (Hok1 & Hc1 & Hh1).
  assert (Hsub : client_Subscription p1 sub_name = client_Subscription p sub_name)
    by (unfold client_Subscription; rewrite Hc1; reflexivity).
  destruct rt as [err|top].
  { intros [= <- <- <-]. split; [exact Hok1|]. split; [exact Hc1|]. discriminate. }
  destruct (createSubscriptionIfNotExists p1 (client_Subscription p1 sub_name) top s1)
    as [dropped s2].
  assert (Hhandles : forall sub top', @inr Error _ (client_Subscription p1 sub_name, top)
                       = inr (sub, top') ->
            sub = client_Subscription p sub_name /\ top' = client_Topic p topic_name).
  { intros sub top' [= <- <-]. split; [exact Hsub | apply Hh1; reflexivity]. }
  case_decide.
  { intros [= <- <- <-]. split; [exact Hok1|]. split; [exact Hc1|]. exact Hhandles. }
  destruct (subscription fuel p1 dl dl EmptyString s2) as [[[r2 p2] s3]|] eqn:Hrec;
    [|discriminate].
  destruct (IH _ _ _ _ _ _ _ _ Hok1 Hrec) as (Hok2 & Hc2 & _).
  assert (Hc : config p2 = config p) by congruence.
  destruct r2 as [err|[dsub dlTop]].
  { intros [= <- <- <-]. split; [exact Hok2|]. split; [exact Hc|]. discriminate. }
  destruct (sub_Update _ _ s3) as [[err|] s4].
  { intros [= <- <- <-]. split; [exact Hok2|]. split; [exact Hc|]. discriminate. }
  intros [= <- <- <-]. split; [exact Hok2|]. split; [exact Hc|]. exact Hhandles.
Qed.

(** Two levels of recursion are all that [subscription] uses. *)
Lemma subscription_total fuel p (sub_name topic_name dl : string) s :
  exists r, subscription (2 + fuel) p sub_name topic_name dl s = Some r.
Proof.
  cbn [Nat.add subscription].
  destruct (topic p topic_name true s) as [[[err|top] p1] s1]; [eauto|].
  destruct (createSubscriptionIfNotExists _ _ _ _) as [dropped s2].
  case_decide; [eauto|].
  destruct (topic p1 dl true s2) as [[[err|dlTop] p2] s3]; [eauto|].
  destruct (createSubscriptionIfNotExists _ _ _ _) as [dropped' s4].
  destruct (decide (EmptyString = EmptyString)); [|congruence].
  destruct (sub_Update _ _ s4) as [[err|] s5]; eauto.
Qed.

Lemma Dispatch_unfold p (msg : adapterMessage) s :
  Dispatch p msg s =
    match envelope_Marshal {| Headers := {| Type_ := am_Identifier msg |};
                              Body := am_Body msg |} with
    | inl err => (Some err, p, s)
    | inr json =>
        let t := default (client_Topic p (am_Queue msg)) (topics p !! am_Queue msg) in
        let '(err, s') := topic_Publish t json s in
        (err, memoize p (am_Queue msg), s')
    end.
Proof.
  unfold Dispatch. destruct (envelope_Marshal _) as [err|json]; [reflexivity|].
  rewrite topic_unfold. unfold memoize.
  destruct (topics p !! am_Queue msg) as [t|]; reflexivity.
Qed.

(** So the adapter's [Subscribe] returns whenever [sub.Receive] does. *)
Lemma Subscribe_total fuel p (queue : string)
    (h : adapterMessage -> S -> option Error * S) (ctx : Context) s :
  exists r, Subscribe (2 + fuel) p queue h ctx s = Some r.
Proof.
  unfold Subscribe.
  destruct (subscription_total fuel p queue queue (DeadLetterTopic (config p)) s)
    as [[[r p'] s'] ->].
  destruct r as [err|[sub top]]; [eauto|].
  destruct (sub_Receive sub ctx _ s'); eauto.
Qed.

(** Whatever [createSubscriptionIfNotExists] returns, [subscription] goes
    on as if it had returned [nil]. *)
Lemma subscription_drops_creation_error fuel p (name : string) s top p1 s1 dropped s2 :
  topic p name true s = (inr top, p1, s1) ->
  createSubscriptionIfNotExists p1 (client_Subscription p1 name) top s1 = (dropped, s2) ->
  subscription (Datatypes.S fuel) p name name EmptyString s
    = Some (inr (client_Subscription p1 name, top), p1, s2).
Proof.
  intros Ht Hc. cbn [subscription]. rewrite Ht, Hc.
  destruct (decide (EmptyString = EmptyString)); [reflexivity|congruence].
Qed.

End AdapterFacts.

(** * What the specification says of the Pub/Sub adapter *)

Section AdapterSpec.

Import Pubsub.

Context {S : Type} `{PubsubClient S} `{EnvelopeJSON}.

Implicit Types (p : pubsubAdapter) (s : S).

(** C3 (publishing and the topic), as amended: [Dispatch] takes the handle
    stored for the queue, or else the one the client gives for that name,
    publishes the envelope on it, and leaves the handle stored.  The
    publish is its only call on the broker: it does not ask whether the
    topic exists and does not create it. *)
Theorem Dispatch_resolves_topic p (msg : adapterMessage) s :
  Dispatch p msg s =
    match envelope_Marshal {| Headers := {| Type_ := am_Identifier msg |};
                              Body := am_Body msg |} with
    | inl err => (Some err, p, s)
    | inr json =>
        let t := default (client_Topic p (am_Queue msg)) (topics p !! am_Queue msg) in
        let '(err, s') := topic_Publish t json s in
        (err, memoize p (am_Queue msg), s')
    end
  /\ topics (memoize p (am_Queue msg)) !! am_Queue msg
       = Some (default (client_Topic p (am_Queue msg)) (topics p !! am_Queue msg))
  /\ memoize (memoize p (am_Queue msg)) (am_Queue msg) = memoize p (am_Queue msg).
Proof.
  split; [apply Dispatch_unfold|]. split; [apply memoize_lookup|].
  unfold memoize at 1. rewrite memoize_lookup. reflexivity.
Qed.

(** An error of [createTopicIfNotExists] is returned by [Subscribe]. *)
Lemma Subscribe_returns_topic_error fuel p queue
    (h : adapterMessage -> S -> option Error * S) (ctx : Context) s err s1 :
  topics p !! queue = None ->
  createTopicIfNotExists p (client_Topic p queue) s = (Some err, s1) ->
  Subscribe (Datatypes.S fuel) p queue h ctx s = Some (Some err, p, s1).
Proof.
  intros Hmemo Hcreate. unfold Subscribe. cbn [subscription].
  rewrite topic_unfold, Hmemo, Hcreate. reflexivity.
Qed.

(** C8 (ack and nack): when provisioning has succeeded, [Subscribe] runs
    the receive loop of the subscription with the callback of
    README.md:122-141 and returns what the loop returns.  On every message
    that the loop hands to that callback, in whatever state, the callback
    makes exactly one call.  That call is [Nack] exactly when the envelope
    does not decode or the orchestrator's callback returns an error, and
    [Ack] exactly when the envelope decodes and the callback returns
    [nil].  The orchestrator's callback runs once on an envelope that
    decodes, and not at all on a text that does not. *)
Theorem ack_nack_protocol fuel p (queue : string)
    (h : adapterMessage -> S -> option Error * S) (ctx : Context) s
    (sub : Subscription) (top : Topic) p1 s1 :
  subscription fuel p queue queue (DeadLetterTopic (config p)) s
    = Some (inr (sub, top), p1, s1) ->
  let cb := receiveCallback queue h in
  let delivered m :=
    {| am_Queue := queue; am_Identifier := Type_ (Headers m); am_Body := Body m |} in
  Subscribe fuel p queue h ctx s
    = Some ((sub_Receive sub ctx cb s1).1, p1, (sub_Receive sub ctx cb s1).2)
  /\ forall (msg : pubsub_Message) (s0 : S),
       let outcome := (cb msg s0).1 in
       (outcome = [Nack] <->
          (exists err, envelope_Unmarshal (Data msg) = inl err)
          \/ (exists m err, envelope_Unmarshal (Data msg) = inr m
                            /\ (h (delivered m) s0).1 = Some err))
       /\ (outcome = [Ack] <->
             exists m, envelope_Unmarshal (Data msg) = inr m
                       /\ (h (delivered m) s0).1 = None)
       /\ (outcome = [Ack] \/ outcome = [Nack])
       /\ (cb msg s0).2
          = match envelope_Unmarshal (Data msg) with
            | inl _ => s0
            | inr m => (h (delivered m) s0).2
            end.
Proof.
  intros Hsub cb delivered. split.
  - unfold Subscribe. rewrite Hsub. fold cb.
    destruct (sub_Receive sub ctx cb s1) as [err s2]. reflexivity.
  - intros msg s0 outcome. subst outcome cb. unfold receiveCallback.
    destruct (envelope_Unmarshal (Data msg)) as [err|m] eqn:Hdec.
    + simpl. split; [|split; [|split]].
      * split; [intros _; left; eauto | reflexivity].
      * split; [discriminate | intros (m & Hm & _); discriminate].
      * right. reflexivity.
      * reflexivity.
    + fold (delivered m). destruct (h (delivered m) s0) as [[err|] s'] eqn:Hh; simpl.
      * split; [|split; [|split]].
        -- split; [intros _; right; exists m, err; split; [reflexivity|] | reflexivity].
           subst delivered. simpl in *. rewrite Hh. reflexivity.
        -- split; [discriminate|]. intros (m' & [= <-] & Hnone).
           subst delivered. simpl in *. rewrite Hh in Hnone. discriminate.
        -- right. reflexivity.
        -- reflexivity.
      * split; [|split; [|split]].
        -- split; [discriminate|].
           intros [(err & Herr) | (m' & err & [= <-] & Hsome)]; [discriminate|].
           subst delivered. simpl in *. rewrite Hh in Hsome. discriminate.
        -- split; [intros _; exists m; split; [reflexivity|] | reflexivity].
           subst delivered. simpl in *. rewrite Hh. reflexivity.
        -- left. reflexivity.
        -- reflexivity.
Qed.

End AdapterSpec.

(** * Queue names *)

Section Namespacing.

Context {Msg : Type} `{Message Msg} {X : Type}.
Context {S : Type} `{Pubsub.PubsubClient S} `{Pubsub.EnvelopeJSON}.

(** The orchestrator asks nothing of the adapter but under the prefixed
    name: adapters that agree on that name give the same [Subscribe]. *)
Lemma Subscribe_only_prefixed fuel (E : string) (T : Z) (A A' : adapter X)
    (h : list (MessageHandler Msg X)) (queue : string) (w : World X) :
  subscribeQueue EmptyString h = inr queue ->
  (forall cb ctx w0,
     adapter_Subscribe A (E +:+ "." +:+ queue) cb ctx w0
       = adapter_Subscribe A' (E +:+ "." +:+ queue) cb ctx w0) ->
  Subscribe fuel {| Environment := E; RestartTimeout := T; m_adapter := A |} h w
    = Subscribe fuel {| Environment := E; RestartTimeout := T; m_adapter := A' |} h w.
Proof.
  intros Hq Hagree. revert w. induction fuel as [|fuel IH]; intros w;
    rewrite !(Subscribe_unfold _ _ _ _ _ Hq); unfold Subscribe_on, prefixQueue;
    cbn [Environment RestartTimeout m_adapter];
    destruct (Shutdown_Add w) as [ctx w1]; rewrite Hagree;
    destruct (adapter_Subscribe A' _ _ ctx w1) as [err w2];
    repeat case_match; try reflexivity; try congruence.
  all: rewrite IH in *; congruence.
Qed.

(** C9 (namespacing): a queue name becomes [Environment + "." + name] in
    the orchestrator.  [Dispatch] gives the adapter an envelope whose queue
    is the prefixed name; what [Dispatch] and [Subscribe] do depends on the
    adapter only through what it does under the prefixed name.  The
    adapter adds nothing to a name: [Dispatch] publishes on the topic
    whose ID is the queue of the envelope, and the handles that
    [subscription] returns have the names it was given as IDs. *)
Theorem namespacing (E : string) (T : Z) (A A' : adapter X) (msg : Msg)
    (h : list (MessageHandler Msg X)) (queue : string) (fuel : nat) (w : World X)
    (p : Pubsub.pubsubAdapter) (a : adapterMessage) (s : S) :
  subscribeQueue EmptyString h = inr queue ->
  (forall a0 w0, am_Queue a0 = E +:+ "." +:+ Queue msg ->
     adapter_Dispatch A a0 w0 = adapter_Dispatch A' a0 w0) ->
  (forall cb ctx w0,
     adapter_Subscribe A (E +:+ "." +:+ queue) cb ctx w0
       = adapter_Subscribe A' (E +:+ "." +:+ queue) cb ctx w0) ->
  Pubsub.memo_ok p ->
  let m := {| Environment := E; RestartTimeout := T; m_adapter := A |} in
  let m' := {| Environment := E; RestartTimeout := T; m_adapter := A' |} in
  (forall name, prefixQueue m name = E +:+ "." +:+ name)
  /\ Dispatch m msg w =
       match json_Marshal msg with
       | inl err => (Some err, w)
       | inr body =>
           adapter_Dispatch A {| am_Queue := E +:+ "." +:+ Queue msg;
                                 am_Identifier := Identifier msg;
                                 am_Body := body |} w
       end
  /\ Dispatch m msg w = Dispatch m' msg w
  /\ Subscribe fuel m h w = Subscribe fuel m' h w
  /\ Pubsub.Dispatch p a s =
       match Pubsub.envelope_Marshal
               {| Pubsub.Headers := {| Pubsub.Type_ := am_Identifier a |};
                  Pubsub.Body := am_Body a |} with
       | inl err => (Some err, p, s)
       | inr json =>
           let '(err, s') :=
             Pubsub.topic_Publish
               {| Pubsub.topic_Project := Pubsub.Project (Pubsub.config p);
                  Pubsub.topic_ID := am_Queue a |} json s in
           (err, Pubsub.memoize p (am_Queue a), s')
       end
  /\ (forall n sub_name topic_name dl sub top p' s',
        Pubsub.subscription n p sub_name topic_name dl s = Some (inr (sub, top), p', s') ->
        Pubsub.sub_ID sub = sub_name /\ Pubsub.topic_ID top = topic_name).
Proof.
  intros Hq HD HS Hok m m'. split; [reflexivity|]. split; [reflexivity|].
  split; [|split; [|split]].
  - unfold Dispatch. destruct (json_Marshal msg) as [err|body]; [reflexivity|].
    apply HD. reflexivity.
  - apply Subscribe_only_prefixed with (queue := queue); assumption.
  - rewrite Dispatch_unfold.
    destruct (Pubsub.envelope_Marshal _) as [err|json]; [reflexivity|].
    destruct (Pubsub.topics p !! am_Queue a) as [t|] eqn:Ht; simpl.
    + rewrite (Hok _ _ Ht). reflexivity.
    + reflexivity.
  - intros n sub_name topic_name dl sub top p' s' Hsub.
    destruct (subscription_result _ _ _ _ _ _ _ _ _ Hok Hsub) as (_ & _ & Hh).
    destruct (Hh sub top eq_refl) as [-> ->]. split; reflexivity.
Qed.

End Namespacing.

(** * Runs against the in-memory broker *)

Section BrokerRuns.

Import Pubsub FakeBroker.

(** On a broker with no topic, [Dispatch] makes one call, the publish; it
    fails, and there is still no topic. *)
Lemma Dispatch_on_empty_broker :
  let r := Pubsub.Dispatch fresh order_envelope (empty no_fault) in
  r.1.1 = Some NotFound
  /\ FakeBroker.topics r.2 = ∅
  /\ calls r.2 = [Publish "dev.orders"
                    (JSON.render
                       (JSON.Object
                          [("headers", JSON.Object [("type", JSON.Str "event")]);
                           ("body", JSON.Str (am_Body order_envelope))]))]
  /\ Pubsub.topics r.1.2 !! "dev.orders"
       = Some {| topic_Project := "shop"; topic_ID := "dev.orders" |}.
Proof. vm_compute. repeat split; reflexivity. Qed.

(** C3, as the specification words it, fails: [Dispatch] on a broker
    without the topic publishes without creating it. *)
Lemma Dispatch_does_not_create_topic : ~ Dispatch_creates_topic.
Proof.
  intros Hclaim.
  specialize (Hclaim fresh order_envelope (empty no_fault) (fun c => eq_refl)).
  destruct Dispatch_on_empty_broker as (_ & Hnone & _).
  cbv zeta in Hnone. rewrite Hnone in Hclaim.
  exact (not_elem_of_empty _ Hclaim).
Qed.

(** The topic is created on the way to a subscription, and the provisioning
    of a second [Subscribe] finds everything in place. *)
Example Subscribe_creates_topic :
  match Pubsub.Subscribe 2 fresh "dev.orders" (consumer (fun _ => None)) O
          (empty no_fault) with
  | Some (err, p, s) =>
      err = None
      /\ elements (FakeBroker.topics s) = ["dev.orders"; "dev.bootstrap-go-service.dead"]
      /\ match Pubsub.Subscribe 2 p "dev.orders" (consumer (fun _ => None)) O s with
         | Some (err', _, _) => err' = None
         | None => False
         end
  | None => False
  end.
Proof. vm_compute. repeat split; reflexivity. Qed.

(** Three messages wait on the subscription: one the consumer accepts, one
    it refuses, one that is no envelope.  The first is acknowledged and
    leaves the backlog; the other two are negatively acknowledged and
    stay. *)
Example ack_nack_run :
  match three_messages with
  | Some (err, _, s) =>
      err = None
      /\ acks s = [("0", [Ack]); ("1", [Nack]); ("2", [Nack])]
      /\ map am_Identifier (seen s) = ["event"; "unknown"]
      /\ map (fun im => ID im.2) (backlog s) = ["1"; "2"]
  | None => False
  end.
Proof. vm_compute. repeat split; reflexivity. Qed.

(** The same three messages on a broker that is provisioned already: the
    receive loop runs with the callback, which settles each of them. *)
Lemma ack_nack_protocol_witness :
  match Pubsub.Subscribe 2 plain "dev.orders" (consumer answer_by_type) O waiting with
  | Some (err, _, s) =>
      err = None
      /\ acks s = [("0", [Ack]); ("1", [Nack]); ("2", [Nack])]
      /\ map am_Identifier (seen s) = ["event"; "unknown"]
  | None => False
  end.
Proof.
  destruct (ack_nack_protocol 2 plain "dev.orders" (consumer answer_by_type) O waiting
              {| sub_Project := "shop"; sub_ID := "dev.orders" |}
              {| topic_Project := "shop"; topic_ID := "dev.orders" |}
              (memoize plain "dev.orders")
              (log (SubExists "dev.orders") (log (TopicExists "dev.orders") waiting)))
    as [Hrun _].
  - vm_compute. reflexivity.
  - rewrite Hrun. vm_compute. repeat split; reflexivity.
Defined.

(** C7 at failing inputs.  On a broker that has the topic and the
    subscription, a failing [sub.Exists] is dropped: [Subscribe] goes on
    to receive and returns [nil].  On an empty broker that refuses
    [CreateSubscription], that error is dropped as well: provisioning goes
    on, and what comes back is the later error of the update of a
    subscription that is not there, or, without a dead-letter topic, of
    the receive.  An error of [CreateTopic], in contrast, is returned. *)
Theorem Subscribe_drops_subscription_error :
  outcome (Pubsub.Subscribe 2 plain "dev.orders" (consumer (fun _ => None)) O
             (provisioned fail_SubExists))
    = Some (None,
            [TopicExists "dev.orders"; SubExists "dev.orders"; Receive "dev.orders"],
            [("dev.orders", "dev.orders")])
  /\ outcome (Pubsub.Subscribe 2 fresh "dev.orders" (consumer (fun _ => None)) O
                (empty fail_CreateSubscription))
     = Some (Some NotFound,
             [TopicExists "dev.orders"; CreateTopic "dev.orders";
              SubExists "dev.orders"; CreateSubscription "dev.orders" "dev.orders";
              TopicExists "dev.bootstrap-go-service.dead";
              CreateTopic "dev.bootstrap-go-service.dead";
              SubExists "dev.bootstrap-go-service.dead";
              CreateSubscription "dev.bootstrap-go-service.dead"
                "dev.bootstrap-go-service.dead";
              Update "dev.orders"
                (deadLetterUpdate
                   {| topic_Project := "shop";
                      topic_ID := "dev.bootstrap-go-service.dead" |})],
             [])
  /\ outcome (Pubsub.Subscribe 2 plain "dev.orders" (consumer (fun _ => None)) O
                (empty fail_CreateSubscription))
     = Some (Some NotFound,
             [TopicExists "dev.orders"; CreateTopic "dev.orders";
              SubExists "dev.orders"; CreateSubscription "dev.orders" "dev.orders";
              Receive "dev.orders"],
             [])
  /\ outcome (Pubsub.Subscribe 2 plain "dev.orders" (consumer (fun _ => None)) O
                (empty fail_CreateTopic))
     = Some (Some PermissionDenied,
             [TopicExists "dev.orders"; CreateTopic "dev.orders"],
             []).
Proof. vm_compute. repeat split; reflexivity. Qed.

End BrokerRuns.

Section NamespacingRun.

(** Environment [dev] and queue [orders]: the adapter is asked for
    [dev.orders], and an adapter that refuses every other name serves the
    orchestrator as well as one that accepts all; the Pub/Sub adapter
    publishes on the topic [dev.orders]. *)
Lemma namespacing_witness :
  let strict := {| Environment := "dev"; RestartTimeout := 0;
                   m_adapter := Scenario.only_queue "dev.orders" |} in
  prefixQueue strict "orders" = "dev.orders"
  /\ (exists w',
        Dispatch strict (Scenario.event "order.created" "orders") (Spy.world [])
          = (None, w')
        /\ map am_Queue (Spy.dispatched (w_ext w')) = ["dev.orders"])
  /\ (exists w',
        Subscribe 0 strict [Scenario.ordersHandler] (Spy.world []) = Some (None, w')
        /\ Spy.subscribed (w_ext w') = [("dev.orders", 0)])
  /\ (exists data,
        FakeBroker.calls
          (Pubsub.Dispatch FakeBroker.fresh FakeBroker.order_envelope
             (FakeBroker.empty FakeBroker.no_fault)).2
          = [FakeBroker.Publish "dev.orders" data]).
Proof.
  intros strict.
  destruct (namespacing "dev" 0 (Scenario.only_queue "dev.orders") Spy.spy
              (Scenario.event "order.created" "orders") [Scenario.ordersHandler]
              "orders" 0 (Spy.world []) FakeBroker.fresh FakeBroker.order_envelope
              (FakeBroker.empty FakeBroker.no_fault))
    as (Hname & _ & HD & HS & HP & _).
  - reflexivity.
  - intros a0 w0 Hq. cbn [adapter_Dispatch Scenario.only_queue].
    rewrite decide_True by exact Hq. reflexivity.
  - intros cb ctx w0. cbn [adapter_Subscribe Scenario.only_queue].
    rewrite decide_True by reflexivity. reflexivity.
  - intros queue t Ht. unfold FakeBroker.fresh in Ht. cbn [Pubsub.topics] in Ht.
    rewrite lookup_empty in Ht. discriminate Ht.
  - split; [apply Hname|]. split; [|split].
    + fold strict in HD. rewrite HD.
      eexists. split; vm_compute; reflexivity.
    + fold strict in HS. rewrite HS.
      eexists. split; vm_compute; reflexivity.
    + rewrite HP. eexists. vm_compute. reflexivity.
Defined.

End NamespacingRun.

(** * Sessions of the whole stack *)

Section Sessions.

Import Scenario.

(** An event goes from [Dispatch] through the envelope, the broker, the
    receive callback and the closure to the handler for events, and is
    acknowledged. *)
Example session_event :
  report (Service.session test_config service_handlers
            (event "order.created" "bootstrap-go-service.webhook") FakeBroker.no_fault)
  = Some (None,
          [("event", event "order.created" "bootstrap-go-service.webhook")],
          [("0", [Pubsub.Ack])],
          [("test.bootstrap-go-service.webhook",
            JSON.render
              (JSON.Object
                 [("headers", JSON.Object [("type", JSON.Str "event")]);
                  ("body", JSON.Str (JSON.render
                                       (JSON.Object [("type", JSON.Str "order.created");
                                                     ("data", JSON.Null)])))]))],
          [],
          0).
Proof. vm_compute. reflexivity. Qed.

(** A webhook message dispatched by the service itself reaches no handler:
    its text does not decode, the message is negatively acknowledged and
    waits for redelivery. *)
Example session_webhook :
  report (Service.session test_config service_handlers
            (webhook "order.created") FakeBroker.no_fault)
  = Some (None,
          [],
          [("0", [Pubsub.Nack])],
          [("test.bootstrap-go-service.webhook",
            JSON.render
              (JSON.Object
                 [("headers", JSON.Object [("type", JSON.Str "webhook")]);
                  ("body", JSON.Str (JSON.render
                                       (JSON.Object
                                          [("payload",
                                            JSON.Object [("type", JSON.Str "order.created");
                                                         ("data", JSON.Null)])])))]))],
          ["0"],
          0).
Proof. vm_compute. reflexivity. Qed.

End Sessions.

(** * Further properties of the orchestrator *)

Section MessengerMore.

Context {Msg : Type} `{Message Msg} {X : Type}.

Implicit Types (m : messenger X) (w : World X).

(** X1.  The loop of [Subscribe] passes over the handlers that name no
    queue, takes the queue of the first handler that names one, and
    accepts exactly when every handler after that one names the same.
    When it rejects, [Subscribe] returns [ErrDifferentQueues] and has
    touched nothing. *)
Theorem validation_decided fuel m (hs : list (MessageHandler Msg X)) w :
  subscribeQueue EmptyString hs =
    match from_first_queue hs with
    | [] => inr EmptyString
    | first :: rest =>
        if forallb (fun x => bool_decide (Queue (handler_Message x)
                                          = Queue (handler_Message first))) rest
        then inr (Queue (handler_Message first))
        else inl ErrDifferentQueues
    end
  /\ (forall err, subscribeQueue EmptyString hs = inl err ->
        Subscribe fuel m hs w = Some (Some ErrDifferentQueues, w)).
Proof.
  split.
  - induction hs as [|x rest IH]; [reflexivity|].
    cbn [subscribeQueue from_first_queue].
    destruct (decide (EmptyString = EmptyString)); [|congruence].
    destruct (decide (Queue (handler_Message x) = EmptyString)) as [Hx|Hx].
    + rewrite Hx. exact IH.
    + apply subscribeQueue_set. exact Hx.
  - intros err Herr. rewrite (subscribeQueue_error _ _ _ Herr) in Herr.
    apply Subscribe_rejected. exact Herr.
Qed.

(** X2.  [Subscribe] pairs every [Shutdown.Add] with a [Shutdown.Done], on
    every return and across restarts: when the runs of the adapter leave
    the wait group alone, [Subscribe] returns with the counter it found. *)
Theorem wait_group_balanced fuel m (hs : list (MessageHandler Msg X)) w r w' :
  (forall queue ctx w0,
     waitGroup (w_shutdown
                  (adapter_Subscribe (m_adapter m) queue (handleMessage hs) ctx w0).2)
     = waitGroup (w_shutdown w0)) ->
  Subscribe fuel m hs w = Some (r, w') ->
  waitGroup (w_shutdown w') = waitGroup (w_shutdown w).
Proof.
  intros Hkeep. revert w r w'.
  induction fuel as [|fuel IH]; intros w r w';
    (destruct (subscribeQueue EmptyString hs) as [err|queue] eqn:Hq;
     [rewrite (Subscribe_rejected _ _ _ _ _ Hq); intros [= <- <-]; reflexivity|]);
    rewrite (Subscribe_unfold _ _ _ _ _ Hq); unfold Subscribe_on;
    pose proof (Hkeep (prefixQueue m queue) (Shutdown_Add w).1 (Shutdown_Add w).2)
      as Hrun;
    destruct (Shutdown_Add w) as [ctx w1] eqn:Hadd;
    assert (Hw1 : waitGroup (w_shutdown w1) = waitGroup (w_shutdown w) + 1)
      by (unfold Shutdown_Add in Hadd; cbn in Hadd; injection Hadd as <- <-;
          reflexivity);
    cbn [fst snd] in Hrun;
    destruct (adapter_Subscribe (m_adapter m) _ _ ctx w1) as [err w2];
    cbn [snd] in Hrun;
    repeat case_match; intros Hret; simplify_eq; cbn; try lia.
  match goal with
  | Hrec : Subscribe fuel m hs _ = Some _ |- _ => apply IH in Hrec; cbn in Hrec
  end.
  lia.
Qed.

(** X3.  With a restart timeout set, [Subscribe] ends only when a run of the
    adapter ends without error or by the context's own error: against an
    adapter whose every run fails otherwise, no number of restarts makes
    it return. *)
Theorem restarts_without_end fuel m (hs : list (MessageHandler Msg X)) w queue :
  subscribeQueue EmptyString hs = inr queue ->
  RestartTimeout m <> 0 ->
  (forall cb ctx w0, exists e w2,
     adapter_Subscribe (m_adapter m) (prefixQueue m queue) cb ctx w0 = (Some e, w2)
     /\ ctx_Err ctx w2 <> Some e) ->
  Subscribe fuel m hs w = None.
Proof.
  intros Hq HT Hfail. revert w.
  induction fuel as [|fuel IH]; intros w;
    rewrite (Subscribe_unfold _ _ _ _ _ Hq); unfold Subscribe_on;
    destruct (Shutdown_Add w) as [ctx w1];
    destruct (Hfail (handleMessage hs) ctx w1) as (e & w2 & -> & Hctx);
    rewrite (bool_decide_eq_false_2 (Some e = None)) by discriminate;
    rewrite (bool_decide_eq_false_2 (Some e = ctx_Err ctx w2)) by congruence;
    rewrite (bool_decide_eq_false_2 (RestartTimeout m = 0)) by exact HT;
    cbn [orb]; [reflexivity|].
  rewrite IH. reflexivity.
Qed.

End MessengerMore.

Section HandlerOrder.

Context {Msg : Type} `{Message Msg} {X : Type}.

Implicit Types (hs : list (MessageHandler Msg X)) (w : World X).

Lemma matching_unique (a : adapterMessage) hs (x : MessageHandler Msg X) :
  NoDup (map handles hs) -> In x hs -> handles x = am_Identifier a ->
  matching a hs = Some x.
Proof.
  unfold matching, handles. induction hs as [|y rest IH]; intros Hnd Hin Hid;
    [destruct Hin|].
  cbn [map] in Hnd. apply NoDup_cons in Hnd as [Hy Hnd]. cbn [List.find].
  destruct Hin as [->|Hin].
  - rewrite bool_decide_eq_true_2 by congruence. reflexivity.
  - rewrite bool_decide_eq_false_2; [apply IH; assumption|].
    intros Hy'. apply Hy. apply list_elem_of_In.
    replace (Identifier (handler_Message y)) with (Identifier (handler_Message x))
      by congruence.
    apply (in_map (fun h0 => Identifier (handler_Message h0))). exact Hin.
Qed.

(** X4.  When no two handlers stand for the same identifier, the order in
    which they are given to [Subscribe] makes no difference to what the
    closure does with an envelope. *)
Theorem handler_order_irrelevant hs hs' (a : adapterMessage) w :
  NoDup (map handles hs) ->
  Permutation hs hs' ->
  handleMessage hs a w = handleMessage hs' a w.
Proof.
  intros Hnd Hperm. rewrite !handleMessage_find.
  assert (Hnd' : NoDup (map handles hs')).
  { assert (Hp : map handles hs ≡ₚ map handles hs')
      by (apply Permutation_map; exact Hperm).
    rewrite <- Hp. exact Hnd. }
  destruct (matching a hs) as [x|] eqn:Hfind.
  - apply find_some in Hfind as [Hin Hid]. apply bool_decide_eq_true_1 in Hid.
    rewrite (matching_unique a hs' x Hnd'); [reflexivity| |unfold handles; congruence].
    eapply Permutation_in; eassumption.
  - destruct (matching a hs') as [y|] eqn:Hfind'; [|reflexivity].
    apply find_some in Hfind' as [Hin Hid].
    apply Permutation_sym in Hperm.
    pose proof (find_none _ _ Hfind y (Permutation_in _ Hperm Hin)) as Hno.
    cbn in Hno. congruence.
Qed.

(** X5.  Of two handlers that stand for the same identifier the later one
    is never run: taking it out of the list changes nothing. *)
Theorem later_duplicate_is_shadowed
    (pre mid post : list (MessageHandler Msg X)) (x y : MessageHandler Msg X)
    (a : adapterMessage) w :
  handles y = handles x ->
  handleMessage (pre ++ x :: mid ++ y :: post) a w
    = handleMessage (pre ++ x :: mid ++ post) a w.
Proof.
  unfold handles. intros Hsame.
  induction pre as [|z pre IH]; cbn [app handleMessage].
  - case_decide as Hx; [reflexivity|].
    induction mid as [|z mid IH]; cbn [app handleMessage].
    + rewrite decide_False by congruence. reflexivity.
    + case_decide; [reflexivity|exact IH].
  - case_decide; [reflexivity|exact IH].
Qed.

End HandlerOrder.

(** * The shutdown coordinator *)

Section Shutdown.

Lemma lookup_map {A B : Type} (f : A -> B) (l : list A) (i : nat) :
  map f l !! i = f <$> (l !! i).
Proof.
  revert i. induction l as [|x l IH]; intros [|i]; cbn; try reflexivity. apply IH.
Qed.

Lemma gs_Add_keeps (gs : GracefulShutdown) (c : nat) :
  (c < length (cancels gs))%nat -> gs_ctx_Err c (gs_Add gs).2 = gs_ctx_Err c gs.
Proof.
  intros Hc. unfold gs_ctx_Err. cbn. rewrite lookup_app_l by exact Hc. reflexivity.
Qed.

(** [Add] makes a context that no earlier call returned and that is
    live, adds one to the wait group and leaves the contexts made before as
    they were; [Done] takes the one away again. *)
Lemma Add_registers (gs : GracefulShutdown) :
  let ctx := (gs_Add gs).1 in
  let gs' := (gs_Add gs).2 in
  ctx = length (cancels gs)
  /\ gs_ctx_Err ctx gs' = None
  /\ (forall c, (c < length (cancels gs))%nat -> gs_ctx_Err c gs' = gs_ctx_Err c gs)
  /\ waitGroup gs' = waitGroup gs + 1
  /\ waitGroup (gs_Done gs') = waitGroup gs.
Proof.
  cbn. split; [reflexivity|]. split; [|split; [|split]].
  - unfold gs_ctx_Err. cbn. rewrite lookup_app_r by lia.
    rewrite Nat.sub_diag. reflexivity.
  - intros c Hc. apply (gs_Add_keeps gs c Hc).
  - reflexivity.
  - lia.
Qed.

(** X6.  The loop of [shutdown] cancels the contexts registered so far and
    no other: each of them reports [context.Canceled] from then on, also
    after later calls of [Add], while a context that [Add] makes after the
    loop is live (nothing will cancel it) and counts in the wait group. *)
Theorem shutdown_reaches_registered_only (gs : GracefulShutdown) :
  let late := (gs_Add (gs_cancel_all gs)).1 in
  let gs' := (gs_Add (gs_cancel_all gs)).2 in
  (forall c, (c < length (cancels gs))%nat ->
     gs_ctx_Err c (gs_cancel_all gs) = Some context_Canceled
     /\ gs_ctx_Err c gs' = Some context_Canceled)
  /\ gs_ctx_Err late gs' = None
  /\ waitGroup (gs_cancel_all gs) = waitGroup gs
  /\ waitGroup gs' = waitGroup gs + 1.
Proof.
  cbn. split; [|split; [|split]].
  - intros c Hc.
    assert (Hcancelled : gs_ctx_Err c (gs_cancel_all gs) = Some context_Canceled).
    { unfold gs_ctx_Err. cbn. rewrite lookup_map.
      destruct (lookup_lt_is_Some_2 (cancels gs) c Hc) as [b ->]. reflexivity. }
    split; [exact Hcancelled|].
    pose proof (gs_Add_keeps (gs_cancel_all gs) c) as Hold.
    cbn in Hold. rewrite Hold; [exact Hcancelled|].
    rewrite length_map. exact Hc.
  - unfold gs_ctx_Err. cbn. rewrite lookup_app_r by lia.
    rewrite Nat.sub_diag. reflexivity.
  - reflexivity.
  - reflexivity.
Qed.

End Shutdown.

(** * Further properties of the Pub/Sub adapter *)

Section AdapterMore.

Import Pubsub.

Context {S : Type} `{PubsubClient S} `{EnvelopeJSON}.

Implicit Types (p : pubsubAdapter) (s : S).

Lemma newPubsubAdapter_result (c : PubsubConfig) s p s' :
  newPubsubAdapter c s = (inr p, s') ->
  topics p = ∅
  /\ Emulator (config p) = Emulator c
  /\ DeadLetterTopic (config p) = DeadLetterTopic c
  /\ Project (config p)
     = (if decide (Project c = EmptyString) then "emulator-project" else Project c)
  /\ Project (config p) <> EmptyString
  /\ (Project c = EmptyString -> Emulator c <> EmptyString).
Proof.
  unfold newPubsubAdapter.
  destruct (decide (Emulator c <> EmptyString)) as [He|He];
    destruct (decide (Project c = EmptyString)) as [Hp|Hp]; cbn;
    try rewrite (decide_False (P := Project c = EmptyString)) by exact Hp;
    try rewrite (decide_True (P := Project c = EmptyString)) by exact Hp;
    try discriminate;
    destruct (pubsub_NewClient _ _) as [[err|] s1]; try discriminate;
    intros [= <- <-]; cbn; repeat split; try assumption; try discriminate;
    try (intros; congruence).
Qed.

(** X7.  [newPubsubAdapter] refuses a configuration with neither project
    nor emulator, with [ErrMissingProject] and before anything is done.
    The adapter it returns starts with no stored handle, keeps the
    emulator and the dead-letter topic of the configuration, and works in
    the configured project, or in [emulator-project] when only an emulator
    is configured. *)
Theorem newPubsubAdapter_project (c : PubsubConfig) s :
  (Emulator c = EmptyString -> Project c = EmptyString ->
   newPubsubAdapter c s = (inl ErrMissingProject, s))
  /\ (forall p s', newPubsubAdapter c s = (inr p, s') ->
        topics p = ∅
        /\ Emulator (config p) = Emulator c
        /\ DeadLetterTopic (config p) = DeadLetterTopic c
        /\ Project (config p)
           = (if decide (Project c = EmptyString) then "emulator-project" else Project c)
        /\ Project (config p) <> EmptyString
        /\ (Project c = EmptyString -> Emulator c <> EmptyString)).
Proof.
  split.
  - intros He Hp. unfold newPubsubAdapter.
    rewrite decide_False by (intros Hne; apply Hne; exact He).
    rewrite decide_True by exact Hp. reflexivity.
  - intros p s'. apply newPubsubAdapter_result.
Qed.

(** X8.  Once [topic] has returned a handle for a queue, every later call
    for that queue returns the same handle without a call on the broker,
    whether asked to create or not; and a handle once stored stays. *)
Theorem topic_memoized p (queue : string) (create : bool) s t p' s' :
  topic p queue create s = (inr t, p', s') ->
  (forall create' s'', topic p' queue create' s'' = (inr t, p', s''))
  /\ (forall queue' t', topics p !! queue' = Some t' -> topics p' !! queue' = Some t').
Proof.
  rewrite topic_unfold. intros Ht.
  assert (Hcases : (p' = p /\ topics p !! queue = Some t)
                   \/ (p' = memoize p queue /\ topics p !! queue = None
                       /\ t = client_Topic p queue)).
  { destruct (topics p !! queue) as [t0|] eqn:Hq.
    - left. injection Ht as <- <- <-. auto.
    - right. destruct create.
      + destruct (createTopicIfNotExists _ _ _) as [[err|] s1]; [discriminate|].
        injection Ht as <- <- <-. auto.
      + injection Ht as <- <- <-. auto. }
  destruct Hcases as [[-> Hq] | (-> & Hq & ->)]; split.
  - intros create' s''. rewrite topic_unfold, Hq. reflexivity.
  - auto.
  - intros create' s''. rewrite topic_unfold, memoize_lookup, Hq. reflexivity.
  - intros queue' t' Hq'. unfold memoize. rewrite Hq. cbn.
    destruct (decide (queue = queue')) as [->|Hne]; [congruence|].
    rewrite lookup_insert_ne by exact Hne. exact Hq'.
Qed.

(** X9.  [Dispatch] stores the handle of its queue whether or not the
    topic exists and whether or not the publish succeeds.  So after a
    [Dispatch] to a queue, the provisioning of [Subscribe] for that queue
    on the same adapter finds the handle stored and neither checks nor
    creates the topic. *)
Theorem Dispatch_then_Subscribe_skips_topic p (msg : adapterMessage) s (json : string) :
  envelope_Marshal {| Headers := {| Type_ := am_Identifier msg |};
                      Body := am_Body msg |} = inr json ->
  let p' := (Dispatch p msg s).1.2 in
  let t := default (client_Topic p (am_Queue msg)) (topics p !! am_Queue msg) in
  (forall s'', topic p' (am_Queue msg) true s'' = (inr t, p', s''))
  /\ (forall fuel s'',
        subscription (Datatypes.S fuel) p' (am_Queue msg) (am_Queue msg) EmptyString s''
        = let '(_, s3) :=
            createSubscriptionIfNotExists p' (client_Subscription p' (am_Queue msg)) t s'' in
          Some (inr (client_Subscription p' (am_Queue msg), t), p', s3)).
Proof.
  intros Hjson p' t.
  assert (Hp' : p' = memoize p (am_Queue msg)).
  { subst p'. rewrite Dispatch_unfold, Hjson. cbn.
    destruct (topic_Publish _ _ _). reflexivity. }
  assert (Htopic : forall s'', topic p' (am_Queue msg) true s'' = (inr t, p', s'')).
  { intros s''. rewrite topic_unfold, Hp', memoize_lookup. reflexivity. }
  split; [exact Htopic|].
  intros fuel s''. cbn [subscription]. rewrite Htopic.
  destruct (createSubscriptionIfNotExists _ _ _ _) as [dropped s3].
  destruct (decide (EmptyString = EmptyString)); [reflexivity|congruence].
Qed.

Lemma subscription_leaf fuel p (sub_name topic_name : string) s :
  subscription (Datatypes.S fuel) p sub_name topic_name EmptyString s
    = subscription 1 p sub_name topic_name EmptyString s.
Proof.
  cbn [subscription].
  destruct (topic p topic_name true s) as [[[err|top] p1] s1]; [reflexivity|].
  destruct (createSubscriptionIfNotExists _ _ _ _) as [dropped s2].
  destruct (decide (EmptyString = EmptyString)); [reflexivity|congruence].
Qed.

(** X10.  [subscription] calls itself at most once: the call for the
    dead-letter topic is made with no dead-letter topic of its own, so it
    goes no deeper, also when the dead-letter topic is the queue itself.
    Two levels give its result, and more change nothing. *)
Theorem subscription_depth fuel p (sub_name topic_name dl : string) s :
  subscription (2 + fuel) p sub_name topic_name dl s
    = subscription 2 p sub_name topic_name dl s
  /\ exists r, subscription 2 p sub_name topic_name dl s = Some r.
Proof.
  split.
  - change (2 + fuel)%nat with (Datatypes.S (Datatypes.S fuel)).
    cbn [subscription].
    destruct (topic p topic_name true s) as [[[err|top] p1] s1]; [reflexivity|].
    destruct (createSubscriptionIfNotExists _ _ _ _) as [dropped s2].
    case_decide; [reflexivity|].
    change (match subscription (Datatypes.S fuel) p1 dl dl EmptyString s2 with
            | Some (inl err, p2, s3) => Some (inl err, p2, s3)
            | Some (inr (_, dlTop), p2, s3) =>
                match sub_Update (client_Subscription p1 sub_name)
                        (deadLetterUpdate dlTop) s3 with
                | (Some err, s4) => Some (inl err, p2, s4)
                | (None, s4) => Some (inr (client_Subscription p1 sub_name, top), p2, s4)
                end
            | None => None
            end
            = match subscription 1 p1 dl dl EmptyString s2 with
              | Some (inl err, p2, s3) => Some (inl err, p2, s3)
              | Some (inr (_, dlTop), p2, s3) =>
                  match sub_Update (client_Subscription p1 sub_name)
                          (deadLetterUpdate dlTop) s3 with
                  | (Some err, s4) => Some (inl err, p2, s4)
                  | (None, s4) => Some (inr (client_Subscription p1 sub_name, top), p2, s4)
                  end
              | None => None
              end).
    rewrite subscription_leaf. reflexivity.
  - apply (subscription_total 0).
Qed.

End AdapterMore.

(** * The wire envelope *)

Section Wire.

Import JSON Pubsub.

Ltac flatten :=
  repeat (rewrite ?append_assoc, ?append_String, ?append_empty).

Lemma render_envelope (identifier body : string) :
  render (Object [("headers", Object [("type", Str identifier)]); ("body", Str body)])
  = (
    String "{" (String quote ("headers" +:+ String quote (String ":" (String "{"
      (String quote ("type" +:+ String quote (String ":" (String quote
      (escape_string identifier +:+ String quote (String "}" (String "," (String
      quote ("body" +:+ String quote (String ":" (String quote (escape_string body
      +:+ String quote ("}")))))))))))))))))).
Proof.
  cbn [render]. unfold render_string.
  change (escape_string "headers") with "headers".
  change (escape_string "type") with "type".
  change (escape_string "body") with "body".
  flatten. reflexivity.
Qed.

Lemma length_append (a b : string) :
  String.length (a +:+ b) = (String.length a + String.length b)%nat.
Proof.
  induction a as [|c a IH]; [reflexivity|].
  change (Datatypes.S (String.length (a +:+ b))
          = Datatypes.S (String.length a + String.length b)).
  f_equal. exact IH.
Qed.

(** The steps of the parser on a text that the encoder wrote. *)
Lemma parse_value_Str (f : nat) (s rest : string) :
  UTF8.ValidString s = true ->
  parse_value (Datatypes.S f) (String quote (escape_string s +:+ String quote rest))
    = Some (Str s, rest).
Proof. intros Hs. simpl. rewrite scan_escape_string by exact Hs. reflexivity. Qed.

Lemma parse_value_open (f : nat) (r : string) :
  parse_value (Datatypes.S f) (String "{" (String quote r))
    = parse_members f (String quote r).
Proof. reflexivity. Qed.

Lemma parse_members_last (f : nat) (k r1 : string) (v : value) (r2 : string) :
  UTF8.ValidString k = true ->
  parse_value f r1 = Some (v, String "}" r2) ->
  parse_members (Datatypes.S f)
    (String quote (escape_string k +:+ String quote (String ":" r1)))
    = Some (Object [(k, v)], r2).
Proof.
  intros Hk Hv. simpl. rewrite scan_escape_string by exact Hk. simpl. rewrite Hv.
  reflexivity.
Qed.

Lemma parse_members_more (f : nat) (k r1 : string) (v : value) (r2 : string)
    (more : list (string * value)) (rest : string) :
  UTF8.ValidString k = true ->
  parse_value f r1 = Some (v, String "," r2) ->
  parse_members f r2 = Some (Object more, rest) ->
  parse_members (Datatypes.S f)
    (String quote (escape_string k +:+ String quote (String ":" r1)))
    = Some (Object ((k, v) :: more), rest).
Proof.
  intros Hk Hv Hmore. simpl. rewrite scan_escape_string by exact Hk. simpl.
  rewrite Hv. simpl. rewrite Hmore. reflexivity.
Qed.

Lemma parse_envelope (identifier body : string) :
  UTF8.ValidString identifier = true ->
  UTF8.ValidString body = true ->
  parse (render (Object [("headers", Object [("type", Str identifier)]);
                         ("body", Str body)]))
    = inr (Object [("headers", Object [("type", Str identifier)]); ("body", Str body)]).
Proof.
  intros Hid Hbody. unfold parse. rewrite render_envelope.
  cbn [String.length]. rewrite !length_append. cbn [String.length Nat.add].
  change "headers" with (escape_string "headers").
  change "type" with (escape_string "type").
  change "body" with (escape_string "body").
  rewrite parse_value_open.
  erewrite parse_members_more; cycle 1.
  - reflexivity.
  - rewrite parse_value_open. apply parse_members_last; [reflexivity|].
    apply parse_value_Str. exact Hid.
  - apply parse_members_last; [reflexivity|]. apply parse_value_Str. exact Hbody.
  - reflexivity.
Qed.

(** An identifier that is no UTF-8 does not come back: the byte 0xFF is
    written as the escape of U+FFFD and read as that rune. *)
Example envelope_replaces_invalid_bytes :
  envelope_Unmarshal
    (render (Object [("headers", Object [("type", Str (UTF8.bytes [255]%N))]);
                     ("body", Str "{}")]))
  = inr {| Headers := {| Type_ := UTF8.bytes [239; 191; 189]%N |}; Body := "{}" |}.
Proof. vm_compute. reflexivity. Qed.

(** X11.  When the identifier and the body are well-formed UTF-8, the
    text that [Dispatch] writes for an envelope is read back by the
    callback of [Subscribe] as the same identifier and the same body: the
    callback hands the orchestrator the identifier and the body that were
    dispatched, under the queue of the subscription, and acknowledges by
    its answer. *)
Theorem wire_round_trip {S : Type} (a : adapterMessage) :
  UTF8.ValidString (am_Identifier a) = true ->
  UTF8.ValidString (am_Body a) = true ->
  exists data,
    envelope_Marshal {| Headers := {| Type_ := am_Identifier a |}; Body := am_Body a |}
      = inr data
    /\ envelope_Unmarshal data
       = inr {| Headers := {| Type_ := am_Identifier a |}; Body := am_Body a |}
    /\ forall (queue id : string) (h : adapterMessage -> S -> option Error * S) (s : S),
         receiveCallback queue h {| ID := id; Data := data |} s =
           match h {| am_Queue := queue; am_Identifier := am_Identifier a;
                      am_Body := am_Body a |} s with
           | (Some _, s') => ([Nack], s')
           | (None, s') => ([Ack], s')
           end.
Proof.
  intros Hid Hbody.
  exists (render (Object [("headers", Object [("type", Str (am_Identifier a))]);
                          ("body", Str (am_Body a))])).
  assert (Hback : envelope_Unmarshal
                    (render (Object [("headers", Object [("type", Str (am_Identifier a))]);
                                     ("body", Str (am_Body a))]))
                  = inr {| Headers := {| Type_ := am_Identifier a |};
                           Body := am_Body a |}).
  { cbn [envelope_Unmarshal Envelope.pubsubMessage_json].
    unfold Decode.Unmarshal_struct. rewrite parse_envelope by assumption. reflexivity. }
  split; [reflexivity|]. split; [exact Hback|].
  intros queue id h s. unfold receiveCallback. cbn [Data]. rewrite Hback.
  reflexivity.
Qed.

End Wire.

Section Delivery.

Import Pubsub.

Context {Msg : Type} `{Message Msg} {X : Type} `{EnvelopeJSON}.

(** X12.  What the receive callback does with the orchestrator's closure
    behind it.  A message whose envelope does not decode, whose type no
    handler stands for, or whose body does not decode into the handler's
    prototype is negatively acknowledged and nothing else happens.
    Otherwise [Handle] of the first handler for the type runs once, and the
    message is acknowledged when it returns [nil] and negatively
    acknowledged when it returns an error. *)
Theorem delivery_outcomes (queue : string) (hs : list (MessageHandler Msg X))
    (msg : pubsub_Message) (w : World X) :
  receiveCallback queue (handleMessage hs) msg w =
    match envelope_Unmarshal (Data msg) with
    | inl _ => ([Nack], w)
    | inr e =>
        match matching {| am_Queue := queue; am_Identifier := Type_ (Headers e);
                          am_Body := Body e |} hs with
        | None => ([Nack], w)
        | Some handler =>
            match json_Unmarshal (Body e) (handler_Message handler) with
            | inl _ => ([Nack], w)
            | inr decoded =>
                match handler_Handle handler decoded w with
                | (Some _, w') => ([Nack], w')
                | (None, w') => ([Ack], w')
                end
            end
        end
    end.
Proof.
  unfold receiveCallback.
  destruct (envelope_Unmarshal (Data msg)) as [err|e]; [reflexivity|].
  rewrite handleMessage_find. cbn [am_Body].
  destruct (matching _ hs) as [handler|]; [|reflexivity].
  destruct (json_Unmarshal (Body e) (handler_Message handler)) as [err|decoded];
    reflexivity.
Qed.

End Delivery.

(** * The webhook message and its handler *)

Section WebhookFacts.

Import JSON.

Ltac flatten :=
  repeat (rewrite ?append_assoc, ?append_String, ?append_empty).

(** What the parser returns for members is an object. *)
Lemma parse_members_Object (n : nat) (s : string) (v : value) (rest : string) :
  parse_members n s = Some (v, rest) -> exists fields, v = Object fields.
Proof.
  destruct n as [|n]; [discriminate|]. simpl.
  repeat case_match; intros; simplify_eq; eauto.
Qed.

Lemma parse_value_brace (n : nat) (r : string) (v : value) (rest : string) :
  parse_value n (String "{" r) = Some (v, rest) -> exists fields, v = Object fields.
Proof.
  destruct n as [|n]; [discriminate|]. simpl.
  destruct (skip_ws r) as [|c' r'] eqn:Hr; [discriminate|].
  case_match; [intros [= <- <-]; eauto|].
  apply parse_members_Object.
Qed.

Lemma parse_members_first (f : nat) (k r1 : string) (v : value) (rest : string) :
  UTF8.ValidString k = true ->
  parse_members (Datatypes.S f)
    (String quote (escape_string k +:+ String quote (String ":" r1)))
    = Some (v, rest) ->
  exists v1 rest1 more,
    parse_value f r1 = Some (v1, rest1) /\ v = Object ((k, v1) :: more).
Proof.
  intros Hk. simpl. rewrite scan_escape_string by exact Hk. simpl.
  destruct (parse_value f r1) as [[v1 rest1]|]; [|discriminate].
  repeat case_match; intros; simplify_eq; eauto.
Qed.

Lemma length_String (c : ascii) (r : string) :
  String.length (String c r) = Datatypes.S (String.length r).
Proof. reflexivity. Qed.

(** The text that the encoder writes for a webhook message. *)
Lemma Marshal_shape (m : Webhook.message) (text : string) :
  Webhook.Marshal m = inr text ->
  exists R,
    text = String "{" (String quote (escape_string "payload" +:+
             String quote (String ":" (String "{" R)))).
Proof.
  unfold Webhook.Marshal.
  destruct (Decode.encode_map_any _) as [err|data]; [discriminate|].
  intros [= <-]. cbn [render]. unfold render_string.
  change (escape_string "payload") with "payload".
  change (escape_string "type") with "type".
  change (escape_string "data") with "data".
  flatten. eexists. reflexivity.
Qed.

(** X13.  No webhook message that the service encodes is a text that
    [UnmarshalJSON] accepts: the encoder writes [payload] as an object,
    [UnmarshalJSON] wants a string there.  So a webhook message sent with
    [Dispatch] can never be decoded by the webhook handler. *)
Theorem webhook_never_decodes_back (m target : Webhook.message) (text : string) :
  Webhook.Marshal m = inr text ->
  exists err, Webhook.UnmarshalJSON text target = inl err.
Proof.
  intros Hm. destruct (Marshal_shape m text Hm) as [R ->]. clear Hm.
  unfold Webhook.UnmarshalJSON, Decode.Unmarshal_struct, parse.
  match goal with
  | |- context [parse_value ?n ?t] =>
      destruct (parse_value n t) as [[v rest]|] eqn:Hparse
  end; [|eauto].
  destruct (skip_ws rest); [|eauto].
  rewrite !length_String in Hparse. rewrite parse_value_open in Hparse.
  change (escape "p" +:+ escape "a" +:+ escape "y" +:+ escape "l" +:+ escape "o" +:+
          escape "a" +:+ escape "d" +:+ EmptyString)
    with (escape_string "payload") in Hparse.
  apply parse_members_first in Hparse as (v1 & rest1 & more & Hv1 & ->);
    [|reflexivity].
  apply parse_value_brace in Hv1 as [fields ->].
  eexists. reflexivity.
Qed.

(** X14.  When [UnmarshalJSON] succeeds, [RawPayload] is the string found
    under [payload], it is not empty, and it is the text that [Payload] was
    decoded from; [Headers] are those of the text. *)
Theorem UnmarshalJSON_keeps_raw_payload (data : string) (m m' : Webhook.message) :
  Webhook.UnmarshalJSON data m = inr m' ->
  Webhook.RawPayload m' <> EmptyString
  /\ Decode.Unmarshal_struct Webhook.set_WebhookPayload (Webhook.RawPayload m')
       (Webhook.Payload m) = inr (Webhook.Payload m')
  /\ exists b,
       Decode.Unmarshal_struct Webhook.set_body data
         {| Webhook.body_Headers := None; Webhook.body_Payload := EmptyString |} = inr b
       /\ Webhook.Headers m' = Webhook.body_Headers b
       /\ Webhook.RawPayload m' = Webhook.body_Payload b.
Proof.
  unfold Webhook.UnmarshalJSON.
  destruct (Decode.Unmarshal_struct Webhook.set_body data _) as [err|b]; [discriminate|].
  destruct (Decode.Unmarshal_struct Webhook.set_WebhookPayload _ _) as [err|p] eqn:Hp;
    [discriminate|].
  intros [= <-]. cbn. split; [|split; [exact Hp|eauto]].
  intros Hempty. rewrite Hempty in Hp. discriminate Hp.
Qed.

Context {X : Type}.

(** X15.  The closure in front of the webhook handler: a body that
    [UnmarshalJSON] rejects gives its error and runs no processor;
    otherwise the first processor that supports the type of the payload
    processes the message, and no other; when none supports it the handler
    returns [nil], so that the message counts as handled.  The type
    assertion of [Handle] never fails on what the closure passes. *)
Theorem webhook_handler_routes (processors : list (Inbound.Processor X))
    (a : adapterMessage) (w : World X) :
  am_Identifier a = "webhook" ->
  handleMessage [Inbound.NewHandler processors] a w =
    match Webhook.UnmarshalJSON (am_Body a) Webhook.zero with
    | inl err => (Some err, w)
    | inr msg =>
        match List.find (fun p => Inbound.Supports p (Webhook.Type_ (Webhook.Payload msg)))
                processors with
        | Some p => Inbound.Process p msg w
        | None => (None, w)
        end
    end.
Proof.
  intros Hid. cbn [handleMessage Inbound.NewHandler handler_Message].
  rewrite decide_True by exact Hid.
  cbn [json_Unmarshal TemplateMessage_Message].
  destruct (Webhook.UnmarshalJSON (am_Body a) Webhook.zero) as [err|msg];
    [reflexivity|].
  change (Inbound.first_supporting processors msg w
          = match List.find (fun p => Inbound.Supports p
                                        (Webhook.Type_ (Webhook.Payload msg)))
                    processors with
            | Some p => Inbound.Process p msg w
            | None => (None, w)
            end).
  induction processors as [|p rest IH]; [reflexivity|].
  cbn [Inbound.first_supporting List.find].
  destruct (Inbound.Supports p _); [reflexivity|exact IH].
Qed.

End WebhookFacts.

(** * Starting the messenger, and the event publisher *)

Section Start.

Context {Msg : Type} `{Message Msg}.

Lemma prefixed_not_empty (e name : string) : e +:+ "." +:+ name <> EmptyString.
Proof. destruct e; intros Heq; inversion Heq. Qed.

(** X16.  [New] gives up when there is neither project nor emulator.  The
    messenger it returns prefixes queue names with the environment, and
    its adapter starts with no stored handle and with the dead-letter topic
    [Environment + "." + DeadLetterTopic]: that name is never empty, so
    every subscription gets a dead-letter topic, called [Environment + "."]
    when none is configured. *)
Theorem New_prefixes_dead_letter_topic (c : Service.Config)
    (w : World (Service.state Msg)) :
  (Pubsub.Emulator (Service.Config_PubsubConfig c) = EmptyString ->
   Pubsub.Project (Service.Config_PubsubConfig c) = EmptyString ->
   Service.New c w = (None, w))
  /\ (forall m w', Service.New c w = (Some m, w') ->
        let p := Service.pubsub (w_ext w') in
        Pubsub.DeadLetterTopic (Pubsub.config p)
          = Service.Config_Environment c +:+ "." +:+
            Pubsub.DeadLetterTopic (Service.Config_PubsubConfig c)
        /\ Pubsub.DeadLetterTopic (Pubsub.config p) <> EmptyString
        /\ Pubsub.topics p = ∅
        /\ RestartTimeout m = Service.Config_RestartTimeout c
        /\ forall queue,
             prefixQueue m queue = Service.Config_Environment c +:+ "." +:+ queue).
Proof.
  unfold Service.New. split.
  - intros He Hp. unfold Pubsub.newPubsubAdapter. cbn.
    rewrite decide_False by (intros Hne; apply Hne; exact He).
    rewrite decide_True by exact Hp. reflexivity.
  - intros m w'.
    destruct (Pubsub.newPubsubAdapter _ w) as [[err|a] w1] eqn:Hnew; [discriminate|].
    intros [= <- <-].
    apply newPubsubAdapter_result in Hnew as (Hmemo & _ & Hdl & _).
    cbn in *. rewrite Hdl. repeat split; try assumption; try reflexivity.
    apply prefixed_not_empty.
Qed.

End Start.

Section Publishing.

Context {X : Type}.

(** X17.  [PublishEvent] sends the event under the identifier [event] to
    the queue it is given, prefixed with the environment; the text carries
    the type and the data, and not the queue.  It returns [nil] exactly
    when the adapter does, and otherwise an error that wraps the
    adapter's.  For an event without data whose type is well-formed
    UTF-8, the closure of a subscriber, given that envelope, runs the
    first handler for [event] on an event of the same type whose queue is
    that of the handler's prototype. *)
Theorem PublishEvent_delivers (m : messenger X) (event : Publisher.Event)
    (queue : string) (w : World X) :
  Publisher.Data event = None ->
  UTF8.ValidString (Publisher.Type_ event) = true ->
  let sent :=
    {| am_Queue := Environment m +:+ "." +:+ queue;
       am_Identifier := "event";
       am_Body := JSON.render (JSON.Object [("type", JSON.Str (Publisher.Type_ event));
                                            ("data", JSON.Null)]) |} in
  Publisher.PublishEvent m event queue w
    = (match (adapter_Dispatch (m_adapter m) sent w).1 with
       | Some err =>
           Some {| Publisher.wrap_text :=
                     "failed to dispatch event message: " +:+ Error_text err;
                   Publisher.wrap_err := err |}
       | None => None
       end,
       (adapter_Dispatch (m_adapter m) sent w).2)
  /\ forall (hs : list (MessageHandler TemplateMessage X))
            (handler : MessageHandler TemplateMessage X)
            (target : Action.eventMessage) (w' : World X),
       matching sent hs = Some handler ->
       handler_Message handler = EventMessage target ->
       handleMessage hs sent w'
       = handler_Handle handler
           (EventMessage {| Action.Type_ := Publisher.Type_ event;
                            Action.Data := None;
                            Action.queue := Action.queue target |}) w'.
Proof.
  intros Hdata Hvalid sent. split.
  - unfold Publisher.PublishEvent, Dispatch.
    cbn [json_Marshal TemplateMessage_Message Action.Marshal Action.Type_ Action.Data
         Identifier Queue Action.Identifier Action.Queue Action.queue].
    rewrite Hdata.
    change (Action.Marshal {| Action.Type_ := Publisher.Type_ event;
                              Action.Data := None; Action.queue := queue |})
      with (@inr Error string (am_Body sent)).
    cbv iota.
    change (adapter_Dispatch (m_adapter m) _ w)
      with (adapter_Dispatch (m_adapter m) sent w).
    destruct (adapter_Dispatch (m_adapter m) sent w) as [[err|] w1]; reflexivity.
  - intros hs handler target w' Hfind Htarget.
    apply (event_round_trip m (Publisher.Type_ event) queue hs handler target w');
      assumption.
Qed.

End Publishing.

(** * Provisioning on a broker that answers truthfully *)

Section Provisioning.

Import Pubsub FakeBroker.

Implicit Types (b : FakeBroker.state) (p : pubsubAdapter).

Lemma fake_createTopic p (t : Topic) b :
  healthy b ->
  exists b',
    createTopicIfNotExists p t b = (None, b')
    /\ healthy b'
    /\ FakeBroker.topics b' = {[topic_ID t]} ∪ FakeBroker.topics b
    /\ subscriptions b' = subscriptions b
    /\ policies b' = policies b.
Proof.
  intros Hb. unfold createTopicIfNotExists.
  cbn [topic_Exists client client_on]. unfold rpc. cbn [fault log].
  rewrite Hb. cbn [topics log].
  destruct (decide (topic_ID t ∈ FakeBroker.topics b)) as [Hin|Hnot].
  - rewrite bool_decide_eq_true_2 by exact Hin. cbn [orb].
    eexists. split; [reflexivity|]. cbn. repeat split; try exact Hb.
    symmetry. apply subseteq_union_1_L. apply singleton_subseteq_l. exact Hin.
  - rewrite bool_decide_eq_false_2 by exact Hnot.
    rewrite (bool_decide_eq_false_2 (None <> None)) by (intros Hne; apply Hne; reflexivity).
    cbn [orb client_CreateTopic client client_on]. unfold rpc. cbn [fault log].
    rewrite Hb. cbn [topics log]. rewrite decide_False by exact Hnot.
    eexists. split; [reflexivity|]. cbn. repeat split; exact Hb.
Qed.

Lemma fake_createSubscription p (sub : Subscription) (t : Topic) b :
  healthy b ->
  topic_ID t ∈ FakeBroker.topics b ->
  exists b',
    createSubscriptionIfNotExists p sub t b = (None, b')
    /\ healthy b'
    /\ FakeBroker.topics b' = FakeBroker.topics b
    /\ policies b' = policies b
    /\ is_Some (subscriptions b' !! sub_ID sub)
    /\ (forall id, is_Some (subscriptions b !! id) ->
          subscriptions b' !! id = subscriptions b !! id).
Proof.
  intros Hb Ht. unfold createSubscriptionIfNotExists.
  cbn [sub_Exists client client_on]. unfold rpc. cbn [fault log].
  rewrite Hb. cbn [subscriptions log].
  destruct (decide (is_Some (subscriptions b !! sub_ID sub))) as [Hin|Hnot].
  - rewrite bool_decide_eq_true_2 by exact Hin. cbn [orb].
    eexists. split; [reflexivity|]. cbn. repeat split; try exact Hb; auto.
  - rewrite bool_decide_eq_false_2 by exact Hnot.
    rewrite (bool_decide_eq_false_2 (None <> None)) by (intros Hne; apply Hne; reflexivity).
    cbn [orb client_CreateSubscription client client_on]. unfold rpc. cbn [fault log].
    rewrite Hb. cbn [subscriptions topics log].
    rewrite decide_False by exact Hnot. rewrite decide_True by exact Ht.
    eexists. split; [reflexivity|]. cbn. repeat split; try exact Hb.
    + rewrite lookup_insert_eq. eauto.
    + intros id Hid. apply lookup_insert_ne. intros Heq. apply Hnot.
      rewrite Heq. exact Hid.
Qed.

Lemma fake_Update (sub : Subscription) (cfg : SubscriptionConfigToUpdate) b :
  healthy b ->
  is_Some (subscriptions b !! sub_ID sub) ->
  exists b',
    sub_Update sub cfg b = (None, b')
    /\ healthy b'
    /\ FakeBroker.topics b' = FakeBroker.topics b
    /\ subscriptions b' = subscriptions b
    /\ policies b' = <[sub_ID sub := cfg]> (policies b).
Proof.
  intros Hb Hsub. cbn [sub_Update client client_on]. unfold rpc. cbn [fault log].
  rewrite Hb. cbn [subscriptions log]. rewrite decide_True by exact Hsub.
  eexists. split; [reflexivity|]. cbn. repeat split; exact Hb.
Qed.

Lemma fake_topic p (queue : string) b :
  healthy b -> stored_topics_exist p b ->
  exists p' b',
    topic p queue true b = (inr (client_Topic p queue), p', b')
    /\ healthy b' /\ stored_topics_exist p' b'
    /\ config p' = config p
    /\ queue ∈ FakeBroker.topics b'
    /\ FakeBroker.topics b ⊆ FakeBroker.topics b'
    /\ subscriptions b' = subscriptions b
    /\ policies b' = policies b.
Proof.
  intros Hb Hp. rewrite topic_unfold.
  destruct (Pubsub.topics p !! queue) as [t|] eqn:Hq.
  - destruct (Hp _ _ Hq) as [-> Hin].
    exists p, b. split; [reflexivity|]. split; [exact Hb|]. split; [exact Hp|].
    split; [reflexivity|]. split; [exact Hin|]. split; [reflexivity|].
    split; reflexivity.
  - destruct (fake_createTopic p (client_Topic p queue) b Hb)
      as (b' & -> & Hb' & Ht & Hs & Hpol).
    exists (memoize p queue), b'. cbn [topic_ID client_Topic] in Ht.
    split; [reflexivity|]. split; [exact Hb'|]. split; [|split; [|split; [|split]]].
    + intros q t. unfold memoize. rewrite Hq. cbn [Pubsub.topics config client_Topic].
      destruct (decide (queue = q)) as [->|Hne].
      * rewrite lookup_insert_eq. intros [= <-]. split; [reflexivity|].
        rewrite Ht. apply elem_of_union_l, elem_of_singleton_2. reflexivity.
      * rewrite lookup_insert_ne by exact Hne. intros Hqt.
        destruct (Hp _ _ Hqt) as [-> Hin]. split; [reflexivity|].
        rewrite Ht. apply elem_of_union_r. exact Hin.
    + apply memoize_config.
    + rewrite Ht. apply elem_of_union_l, elem_of_singleton_2. reflexivity.
    + rewrite Ht. apply union_subseteq_r.
    + auto.
Qed.

(** X18.  On a broker that answers truthfully, provisioning succeeds
    whatever is there already, so that [Subscribe] can be called again:
    the topic and the subscription of the queue are there afterwards, what
    was there before still is, and the state is fit for the next call.
    With a dead-letter topic configured, that topic and its subscription
    are there as well, and the subscription of the queue carries the
    dead-letter policy (five delivery attempts) and the retry policy, set
    anew on every call. *)
Theorem provisioning_is_idempotent p (queue : string) b :
  healthy b -> stored_topics_exist p b ->
  exists p' b',
    subscription 2 p queue queue (DeadLetterTopic (config p)) b
      = Some (inr (client_Subscription p queue, client_Topic p queue), p', b')
    /\ healthy b' /\ stored_topics_exist p' b'
    /\ queue ∈ FakeBroker.topics b'
    /\ is_Some (subscriptions b' !! queue)
    /\ FakeBroker.topics b ⊆ FakeBroker.topics b'
    /\ (forall id, is_Some (subscriptions b !! id) ->
          subscriptions b' !! id = subscriptions b !! id)
    /\ (DeadLetterTopic (config p) <> EmptyString ->
        DeadLetterTopic (config p) ∈ FakeBroker.topics b'
        /\ is_Some (subscriptions b' !! DeadLetterTopic (config p))
        /\ policies b' !! queue
           = Some (deadLetterUpdate (client_Topic p (DeadLetterTopic (config p))))).
Proof.
  intros Hb Hp. cbn [subscription].
  destruct (fake_topic p queue b Hb Hp)
    as (p1 & b1 & -> & Hb1 & Hp1 & Hc1 & Hq1 & Ht1 & Hs1 & Hpol1).
  assert (Hsub : client_Subscription p1 queue = client_Subscription p queue)
    by (unfold client_Subscription; rewrite Hc1; reflexivity).
  destruct (fake_createSubscription p1 (client_Subscription p1 queue)
              (client_Topic p queue) b1 Hb1 Hq1)
    as (b2 & -> & Hb2 & Ht2 & Hpol2 & Hin2 & Hold2).
  cbn [sub_ID client_Subscription] in Hin2.
  assert (Hp2 : stored_topics_exist p1 b2).
  { intros q0 t0 Hqt. destruct (Hp1 _ _ Hqt) as [-> Hin]. split; [reflexivity|].
    rewrite Ht2. exact Hin. }
  assert (Hold : forall id, is_Some (subscriptions b !! id) ->
                   subscriptions b2 !! id = subscriptions b !! id).
  { intros id Hid. rewrite <- Hs1 in Hid. rewrite (Hold2 id Hid), Hs1. reflexivity. }
  destruct (decide (DeadLetterTopic (config p) = EmptyString)) as [Hdl|Hdl].
  - exists p1, b2. rewrite Hsub. split; [reflexivity|].
    split; [exact Hb2|]. split; [exact Hp2|].
    split; [rewrite Ht2; exact Hq1|]. split; [exact Hin2|].
    split; [rewrite Ht2; exact Ht1|]. split; [exact Hold|].
    intros Hne. contradiction.
  - 
    set (dl := DeadLetterTopic (config p)) in *.
    destruct (fake_topic p1 dl b2 Hb2 Hp2)
      as (p3 & b3 & -> & Hb3 & Hp3 & Hc3 & Hq3 & Ht3 & Hs3 & Hpol3).
    destruct (fake_createSubscription p3 (client_Subscription p3 dl)
                (client_Topic p1 dl) b3 Hb3 Hq3)
      as (b4 & -> & Hb4 & Ht4 & Hpol4 & Hin4 & Hold4).
    cbn [sub_ID client_Subscription] in Hin4.
    destruct (decide (EmptyString = EmptyString)); [|congruence].
    assert (Hq4 : is_Some (subscriptions b4 !! queue)).
    { rewrite Hold4; rewrite Hs3; exact Hin2. }
    destruct (fake_Update (client_Subscription p1 queue)
                (deadLetterUpdate (client_Topic p1 dl)) b4 Hb4 Hq4)
      as (b5 & -> & Hb5 & Ht5 & Hs5 & Hpol5).
    cbn [sub_ID client_Subscription] in Hpol5.
    exists p3, b5. rewrite Hsub. split; [reflexivity|].
    assert (Htopics : FakeBroker.topics b3 = FakeBroker.topics b5) by congruence.
    split; [exact Hb5|]. split; [|split; [|split; [|split; [|split]]]].
    + intros q0 t0 Hqt. destruct (Hp3 _ _ Hqt) as [-> Hin]. split; [reflexivity|].
      rewrite <- Htopics. exact Hin.
    + rewrite <- Htopics. apply Ht3. rewrite Ht2. exact Hq1.
    + rewrite Hs5. exact Hq4.
    + rewrite <- Htopics. etrans; [exact Ht1|]. rewrite <- Ht2. exact Ht3.
    + intros id Hid. rewrite Hs5. rewrite Hold4.
      * rewrite Hs3. apply Hold. exact Hid.
      * rewrite Hs3. rewrite (Hold id Hid). exact Hid.
    + intros _. split; [rewrite <- Htopics; exact Hq3|].
      split; [rewrite Hs5; exact Hin4|].
      rewrite Hpol5, lookup_insert_eq. unfold client_Topic. rewrite Hc1. reflexivity.
Qed.

End Provisioning.

(** * The receive loop on a broker that answers truthfully *)

Section ReceiveLoop.

Import Pubsub FakeBroker.

Implicit Types (b : FakeBroker.state) (p : pubsubAdapter).











End ReceiveLoop.

(** * Runs for the further properties *)

Section MoreRuns.

Import Scenario More.

(** The failing adapter without restart: [Subscribe] returns the error and
    the wait group is back at zero. *)
Lemma wait_group_balanced_witness :
  exists r w',
    Subscribe 0 (unlucky 0) [ordersHandler] (Spy.world []) = Some (r, w')
    /\ waitGroup (w_shutdown w') = 0
    /\ length (cancels (w_shutdown w')) = 1%nat.
Proof.
  pose (w := Spy.world (Msg := TemplateMessage) []).
  pose (w' := Shutdown_Done (Shutdown_Add w).2).
  exists (Some (pubsub_Error "rpc error: code = Unavailable")), w'.
  assert (Hrun : Subscribe 0 (unlucky 0) [ordersHandler] w
                 = Some (Some (pubsub_Error "rpc error: code = Unavailable"), w'))
    by reflexivity.
  split; [exact Hrun|]. split; [|reflexivity].
  apply (wait_group_balanced 0 (unlucky 0) [ordersHandler] w
           (Some (pubsub_Error "rpc error: code = Unavailable")) w'); [|exact Hrun].
  intros queue ctx w0. reflexivity.
Defined.

(** With a restart timeout the same messenger does not return, however
    many restarts it is allowed. *)
Lemma restarts_without_end_witness :
  Subscribe 25 (unlucky (10 * Pubsub.Second)) [ordersHandler] (Spy.world []) = None.
Proof.
  apply (restarts_without_end 25 (unlucky (10 * Pubsub.Second)) [ordersHandler]
           (Spy.world []) "orders").
  - reflexivity.
  - discriminate.
  - intros cb ctx w0.
    exists (pubsub_Error "rpc error: code = Unavailable"), w0.
    split; [reflexivity|].
    unfold ctx_Err, gs_ctx_Err. destruct (cancels (w_shutdown w0) !! ctx) as [[]|];
      discriminate.
Defined.

(** The webhook handler and the event handler, in either order. *)
Lemma handler_order_irrelevant_witness :
  handleMessage [webhookHandler; eventHandler] (webhook_envelope "order.created")
    (Spy.world [])
  = handleMessage [eventHandler; webhookHandler] (webhook_envelope "order.created")
      (Spy.world []).
Proof.
  apply handler_order_irrelevant.
  - apply NoDup_cons. split.
    + intros Hin. apply list_elem_of_singleton in Hin. discriminate Hin.
    + apply NoDup_singleton.
  - apply perm_swap.
Defined.

(** Two handlers for events: the one for the queue [orders] comes second
    and is never run. *)
Lemma later_duplicate_is_shadowed_witness :
  handleMessage [eventHandler; webhookHandler; ordersHandler]
    FakeBroker.order_envelope (Spy.world [])
  = handleMessage [eventHandler; webhookHandler] FakeBroker.order_envelope (Spy.world []).
Proof.
  apply (later_duplicate_is_shadowed [] [webhookHandler] [] eventHandler ordersHandler).
  reflexivity.
Defined.

(** The handle for [dev.orders], once made on an empty broker, is returned
    on any broker without a call. *)
Lemma topic_memoized_witness :
  let t := {| Pubsub.topic_Project := "shop"; Pubsub.topic_ID := "dev.orders" |} in
  let p' := Pubsub.memoize FakeBroker.plain "dev.orders" in
  Pubsub.topic p' "dev.orders" true (FakeBroker.empty FakeBroker.fail_CreateTopic)
  = (inr t, p', FakeBroker.empty FakeBroker.fail_CreateTopic).
Proof.
  intros t p'.
  destruct (topic_memoized FakeBroker.plain "dev.orders" false
              (FakeBroker.empty FakeBroker.no_fault) t p'
              (FakeBroker.empty FakeBroker.no_fault)) as [Hagain _].
  - reflexivity.
  - apply Hagain.
Defined.

(** After a [Dispatch] to [dev.orders] on an empty broker, provisioning for
    that queue goes straight to the subscription. *)
Lemma Dispatch_then_Subscribe_skips_topic_witness :
  Pubsub.topic after_Dispatch "dev.orders" true (FakeBroker.empty FakeBroker.no_fault)
  = (inr {| Pubsub.topic_Project := "shop"; Pubsub.topic_ID := "dev.orders" |},
     after_Dispatch, FakeBroker.empty FakeBroker.no_fault).
Proof.
  destruct (Dispatch_then_Subscribe_skips_topic FakeBroker.plain
              FakeBroker.order_envelope (FakeBroker.empty FakeBroker.no_fault)
              (JSON.render
                 (JSON.Object
                    [("headers", JSON.Object [("type", JSON.Str "event")]);
                     ("body", JSON.Str (am_Body FakeBroker.order_envelope))])))
    as [Htopic _].
  - reflexivity.
  - apply Htopic.
Defined.

(** The run that follows: the topic is never made, and [Subscribe] fails on
    the subscription. *)
Example Subscribe_after_Dispatch :
  FakeBroker.outcome
    (Pubsub.Subscribe 2 after_Dispatch "dev.orders"
       (FakeBroker.consumer (fun _ => None)) O (FakeBroker.empty FakeBroker.no_fault))
  = Some (Some FakeBroker.NotFound,
          [FakeBroker.SubExists "dev.orders";
           FakeBroker.CreateSubscription "dev.orders" "dev.orders";
           FakeBroker.Receive "dev.orders"],
          []).
Proof. vm_compute. reflexivity. Qed.

(** The envelope of an event of type [order.created] comes back from its
    text. *)
Lemma wire_round_trip_witness :
  exists data,
    Pubsub.envelope_Marshal
      {| Pubsub.Headers := {| Pubsub.Type_ := "event" |};
         Pubsub.Body := am_Body FakeBroker.order_envelope |} = inr data
    /\ Pubsub.envelope_Unmarshal data
       = inr {| Pubsub.Headers := {| Pubsub.Type_ := "event" |};
                Pubsub.Body := am_Body FakeBroker.order_envelope |}.
Proof.
  destruct (wire_round_trip (S := FakeBroker.state) FakeBroker.order_envelope
              eq_refl eq_refl) as (data & Hdata & Hback & _).
  exists data. split; [exact Hdata | exact Hback].
Defined.

(** The webhook message of type [order.created]. *)
Lemma webhook_never_decodes_back_witness :
  exists err,
    Webhook.UnmarshalJSON
      (JSON.render
         (JSON.Object [("payload", JSON.Object [("type", JSON.Str "order.created");
                                                ("data", JSON.Null)])]))
      Webhook.zero = inl err.
Proof.
  apply (webhook_never_decodes_back
           {| Webhook.Headers := None;
              Webhook.Payload := {| Webhook.Type_ := "order.created";
                                    Webhook.Data := None |};
              Webhook.RawPayload := EmptyString |}).
  reflexivity.
Defined.

(** The inbound webhook of type [order.created]. *)
Lemma UnmarshalJSON_keeps_raw_payload_witness :
  Webhook.RawPayload decoded_webhook <> EmptyString
  /\ Decode.Unmarshal_struct Webhook.set_WebhookPayload
       (Webhook.RawPayload decoded_webhook) (Webhook.Payload Webhook.zero)
     = inr (Webhook.Payload decoded_webhook).
Proof.
  destruct (UnmarshalJSON_keeps_raw_payload (inbound_webhook "order.created")
              Webhook.zero decoded_webhook) as (Hraw & Hpayload & _).
  - vm_compute. reflexivity.
  - split; assumption.
Defined.

(** The processor for orders gets the webhook of type [order.created]; one
    of type [invoice.paid] is handled by nobody and counts as handled. *)
Lemma webhook_handler_routes_witness :
  Spy.handled
    (w_ext (handleMessage [Inbound.NewHandler [order_processor]]
              (webhook_envelope "order.created") (Spy.world [])).2)
  = [("orders", WebhookMessage decoded_webhook)]
  /\ handleMessage [Inbound.NewHandler [order_processor]]
       (webhook_envelope "invoice.paid") (Spy.world [])
     = (None, Spy.world []).
Proof.
  split.
  - rewrite (webhook_handler_routes [order_processor] (webhook_envelope "order.created")
               (Spy.world []) eq_refl).
    vm_compute. reflexivity.
  - rewrite (webhook_handler_routes [order_processor] (webhook_envelope "invoice.paid")
               (Spy.world []) eq_refl).
    vm_compute. reflexivity.
Defined.

(** An event published to the queue [orders] in the environment [dev]. *)
Lemma PublishEvent_delivers_witness :
  (Publisher.PublishEvent (dev 0) order_event "orders" (Spy.world [])).1 = None
  /\ Spy.dispatched
       (w_ext (Publisher.PublishEvent (dev 0) order_event "orders" (Spy.world [])).2)
     = [FakeBroker.order_envelope].
Proof.
  destruct (PublishEvent_delivers (dev 0) order_event "orders" (Spy.world [])
              eq_refl eq_refl) as [Hsent _].
  rewrite Hsent. split; vm_compute; reflexivity.
Defined.

(** An adapter that has stored nothing, on an empty broker. *)
Lemma provisioning_is_idempotent_witness :
  exists p' b',
    Pubsub.subscription 2 FakeBroker.fresh "dev.orders" "dev.orders"
      "dev.bootstrap-go-service.dead" (FakeBroker.empty FakeBroker.no_fault)
    = Some (inr ({| Pubsub.sub_Project := "shop"; Pubsub.sub_ID := "dev.orders" |},
                 {| Pubsub.topic_Project := "shop"; Pubsub.topic_ID := "dev.orders" |}),
            p', b')
    /\ "dev.orders" ∈ FakeBroker.topics b'
    /\ is_Some (FakeBroker.subscriptions b' !! "dev.orders").
Proof.
  destruct (provisioning_is_idempotent FakeBroker.fresh "dev.orders"
              (FakeBroker.empty FakeBroker.no_fault))
    as (p' & b' & Hrun & _ & _ & Htopic & Hsub & _).
  - intros c. reflexivity.
  - intros queue t Hq. unfold FakeBroker.fresh in Hq. cbn [Pubsub.topics] in Hq.
    rewrite lookup_empty in Hq. discriminate Hq.
  - exists p', b'. split; [exact Hrun|]. split; assumption.
Defined.


End MoreRuns.
